(** * Social-media normalisation engine: a shallow embedding and its properties

    The engine turns the JSON answers of five platform APIs (twitter,
    instagram, tiktok, facebook, youtube) into documents and folds them into a
    summary report.  The Python sources are embedded function by function:

    - JSON trees and Python dictionaries are [value]s; a dictionary is an
      association list in insertion order;
    - code that may raise runs in the error monad [result]; a [try/except]
      that swallows the exception is [try_except] or [try_or_none];
    - extraction loops that append to a list inside a [try] run in the
      writer-with-error monad [emit], which keeps what was appended before
      the exception;
    - the wall clock, the local time zone and the library routines that are
      not re-implemented here are the fields of the class [PyRuntime].

    Text is modelled as Rocq strings, i.e. ASCII text; case mapping and the
    regular-expression classes are the ASCII ones.  Python floats are
    idealised as exact rationals. *)

From Stdlib Require Import ZArith QArith Qround Lia Bool Ascii String List.
From stdpp Require Import base list strings gmap.

Close Scope Q_scope.
Open Scope string_scope.
Open Scope list_scope.
Open Scope Z_scope.

(** ** Python values *)

Module Py.

#[warnings="-register-all"]
Inductive value : Type :=
| VNone
| VBool (b : bool)
| VInt (z : Z)
| VFloat (q : Q)
| VStr (s : string)
| VList (l : list value)
| VDict (kvs : list (string * value)).

Inductive exn : Type :=
| AttributeError | KeyError | TypeError | ValueError
| IndexError | ZeroDivisionError | OverflowError | OSError.

(** The outcome of a Python expression: a value or a raised exception. *)
Inductive result (A : Type) : Type :=
| Ok (a : A)
| Raise (e : exn).
Arguments Ok {A} a.
Arguments Raise {A} e.

Definition bind {A B} (f : A → result B) (m : result A) : result B :=
  match m with Ok a => f a | Raise e => Raise e end.

#[export] Instance result_ret : MRet result := @Ok.
#[export] Instance result_bind : MBind result := @bind.

(** [try: m except: return h] *)
Definition try_except {A} (m : result A) (h : A) : A :=
  match m with Ok a => a | Raise _ => h end.

(** [try: return m except: return None], the shape of every document builder. *)
Definition try_or_none {A} (m : result A) : option A :=
  match m with Ok a => Some a | Raise _ => None end.

Fixpoint mapM {A B} (f : A → result B) (l : list A) : result (list B) :=
  match l with
  | [] => Ok []
  | x :: r => y ← f x; ys ← mapM f r; Ok (y :: ys)
  end.

(** *** Dictionaries *)

Fixpoint assoc {A} (k : string) (kvs : list (string * A)) : option A :=
  match kvs with
  | [] => None
  | (k', v) :: r => if String.eqb k k' then Some v else assoc k r
  end.

(** [d[k] = v]: an existing key keeps its position, a new key goes last. *)
Fixpoint assoc_set {A} (k : string) (v : A) (kvs : list (string * A))
  : list (string * A) :=
  match kvs with
  | [] => [(k, v)]
  | (k', v') :: r =>
      if String.eqb k k' then (k, v) :: r else (k', v') :: assoc_set k v r
  end.

Definition keys {A} (kvs : list (string * A)) : list string := map fst kvs.

(** [d.get(k, default)]; every non-dictionary lacks the method. *)
Definition get (d : value) (k : string) (default : value) : result value :=
  match d with
  | VDict kvs => Ok (from_option id default (assoc k kvs))
  | _ => Raise AttributeError
  end.

(** [d.get(k)] *)
Definition get_none (d : value) (k : string) : result value := get d k VNone.

(** [v[k]] for a string subscript [k]. *)
Definition subscript (v : value) (k : string) : result value :=
  match v with
  | VDict kvs =>
      match assoc k kvs with Some x => Ok x | None => Raise KeyError end
  | _ => Raise TypeError
  end.

(** [v[0]] *)
Definition first (v : value) : result value :=
  match v with
  | VList (x :: _) => Ok x
  | VList [] => Raise IndexError
  | VStr (String c _) => Ok (VStr (String c ""))
  | VStr "" => Raise IndexError
  | VDict kvs =>
      (* integer key 0 is never a key of a JSON object *)
      Raise KeyError
  | _ => Raise TypeError
  end.

(** *** Truth value, numbers, comparison *)

Definition truthy (v : value) : bool :=
  match v with
  | VNone => false
  | VBool b => b
  | VInt z => negb (z =? 0)
  | VFloat q => negb (Qeq_bool q 0)
  | VStr s => negb (String.eqb s "")
  | VList l => match l with [] => false | _ => true end
  | VDict kvs => match kvs with [] => false | _ => true end
  end.

(** [a or b], the right operand evaluated only when needed. *)
Definition py_or (a : value) (b : result value) : result value :=
  if truthy a then Ok a else b.

Inductive num : Type := NInt (z : Z) | NFloat (q : Q).

(** [bool] is a subclass of [int]. *)
Definition num_of (v : value) : option num :=
  match v with
  | VBool b => Some (NInt (Z.b2z b))
  | VInt z => Some (NInt z)
  | VFloat q => Some (NFloat q)
  | _ => None
  end.

Definition num_Q (n : num) : Q :=
  match n with NInt z => inject_Z z | NFloat q => q end.

Definition value_of_num (n : num) : value :=
  match n with NInt z => VInt z | NFloat q => VFloat q end.

Definition num_add (a b : num) : num :=
  match a, b with
  | NInt x, NInt y => NInt (x + y)
  | _, _ => NFloat (Qplus (num_Q a) (num_Q b))
  end.

(** [isinstance(v, (int, float))] *)
Definition is_number (v : value) : bool :=
  match num_of v with Some _ => true | None => false end.

(** [v > z] for an integer literal [z]. *)
Definition gt_int (v : value) (z : Z) : result bool :=
  match num_of v with
  | Some n => Ok (negb (Qle_bool (num_Q n) (inject_Z z)))
  | None => Raise TypeError
  end.

(** [isinstance(v, (int, float)) and v > 0] *)
Definition positive_number (v : value) : bool :=
  match num_of v with
  | Some n => negb (Qle_bool (num_Q n) (inject_Z 0))
  | None => false
  end.

(** [v == z] for an integer literal [z]. *)
Definition eq_int (v : value) (z : Z) : bool :=
  match num_of v with
  | Some n => Qeq_bool (num_Q n) (inject_Z z)
  | None => false
  end.

(** [v == s] for a string literal [s]. *)
Definition eq_str (v : value) (s : string) : bool :=
  match v with VStr t => String.eqb t s | _ => false end.

(** [a + b] *)
Definition add (a b : value) : result value :=
  match num_of a, num_of b with
  | Some x, Some y => Ok (value_of_num (num_add x y))
  | _, _ =>
      match a, b with
      | VStr s, VStr t => Ok (VStr (s +:+ t))
      | VList l, VList m => Ok (VList (l ++ m))
      | _, _ => Raise TypeError
      end
  end.

(** Rounding to the nearest integer, ties to even ([round]). *)
Definition round_half_even (q : Q) : Z :=
  let n := Qfloor q in
  match Qcompare (Qminus q (inject_Z n)) (Qmake 1 2) with
  | Lt => n
  | Gt => n + 1
  | Eq => if Z.even n then n else n + 1
  end.

(** [round(q, 2)] *)
Definition round2 (q : Q) : Q :=
  Qmake (round_half_even (Qmult q (inject_Z 100))) 100.

(** [a / b], always a float. *)
Definition true_div (a b : value) : result Q :=
  match num_of a, num_of b with
  | Some x, Some y =>
      if Qeq_bool (num_Q y) 0 then Raise ZeroDivisionError
      else Ok (Qdiv (num_Q x) (num_Q y))
  | _, _ => Raise TypeError
  end.

(** [sum(values)] *)
Fixpoint sum_from (acc : value) (l : list value) : result value :=
  match l with
  | [] => Ok acc
  | x :: r => acc' ← add acc x; sum_from acc' r
  end.

Definition sum (l : list value) : result value := sum_from (VInt 0) l.

(** [for x in v] *)
Definition iter (v : value) : result (list value) :=
  match v with
  | VList l => Ok l
  | VDict kvs => Ok (map (λ kv, VStr kv.1) kvs)
  | VStr s => Ok (map (λ c, VStr (String c "")) (list_ascii_of_string s))
  | _ => Raise TypeError
  end.

(** *** Text *)

Definition lower_char (c : ascii) : ascii :=
  let n := N_of_ascii c in
  if ((65 <=? n) && (n <=? 90))%N then ascii_of_N (n + 32) else c.

(** [s.lower()] *)
Fixpoint lower (s : string) : string :=
  match s with
  | "" => ""
  | String c r => String (lower_char c) (lower r)
  end.

(** [needle in hay] on strings: substring containment. *)
Fixpoint contains (needle hay : string) : bool :=
  String.prefix needle hay ||
  match hay with
  | "" => false
  | String _ r => contains needle r
  end.

(** [s in v] for a string literal [s]: substring of a string, key of a
    dictionary, element of a list. *)
Definition str_in (s : string) (v : value) : result bool :=
  match v with
  | VStr t => Ok (contains s t)
  | VDict kvs => Ok (bool_decide (is_Some (assoc s kvs)))
  | VList l => Ok (existsb (λ x, eq_str x s) l)
  | _ => Raise TypeError
  end.

(** [s.replace(old, new)] for a non-empty [old]: the occurrences are
    replaced from the left and do not overlap; [skip] counts the characters
    of an occurrence still to be dropped. *)
Fixpoint replace_from (old new : string) (skip : nat) (s : string) : string :=
  match s with
  | "" => ""
  | String c r =>
      match skip with
      | S k => replace_from old new k r
      | O =>
          if String.prefix old s
          then new +:+ replace_from old new (String.length old - 1) r
          else String c (replace_from old new 0 r)
      end
  end.

Definition replace (old new s : string) : string := replace_from old new 0 s.

(** [s.split(sep)] for a non-empty [sep]; [cur] is the piece being read, in
    reverse. *)
Fixpoint split_from (sep : string) (skip : nat) (cur : list ascii) (s : string)
  : list string :=
  match s with
  | "" => [string_of_list_ascii (rev cur)]
  | String c r =>
      match skip with
      | S k => split_from sep k cur r
      | O =>
          if String.prefix sep s
          then string_of_list_ascii (rev cur)
                 :: split_from sep (String.length sep - 1) [] r
          else split_from sep 0 (c :: cur) r
      end
  end.

Definition split (sep s : string) : list string := split_from sep 0 [] s.

(** *** Decimal notation *)

Definition digit (d : Z) : ascii := ascii_of_N (48 + Z.to_N d).

Fixpoint decimal_fuel (fuel : nat) (n : Z) (acc : string) : string :=
  let acc' := String (digit (n mod 10)) acc in
  match fuel with
  | O => acc'
  | S f => if n <? 10 then acc' else decimal_fuel f (n / 10) acc'
  end.

(** The decimal digits of a natural number [n]. *)
Definition decimal (n : Z) : string :=
  decimal_fuel (Z.to_nat (Z.log2 n)) n "".

(** [str(z)] for an integer. *)
Definition str_int (z : Z) : string :=
  if z <? 0 then String "-" (decimal (- z)) else decimal z.

(** [int(s)] for a run of decimal digits. *)
Definition int_of_digits (s : string) : Z :=
  fold_left (λ acc c, 10 * acc + (Z.of_N (N_of_ascii c) - 48))
    (list_ascii_of_string s) 0.

Fixpoint zeros (n : nat) : string :=
  match n with O => "" | S k => String "0" (zeros k) end.

(** [f"{z:0Wd}"]: sign first, then zeros up to the width [w]. *)
Definition format_0d (w : nat) (z : Z) : string :=
  if z <? 0
  then String "-" (zeros (w - 1 - String.length (decimal (- z))) +:+ decimal (- z))
  else zeros (w - String.length (decimal z)) +:+ decimal z.

End Py.
Export Py.

(** ** Dates, the clock and the library *)

Module Datetime.

Record datetime : Type := mk_datetime {
  year : Z; month : Z; day : Z;
  hour : Z; minute : Z; second : Z; microsecond : Z;
  tzinfo : option Z   (* seconds east of UTC; [None] for a naive value *)
}.

(** The proleptic Gregorian date of a day count from 1970-01-01. *)
Definition civil_from_days (days : Z) : Z * Z * Z :=
  let z := days + 719468 in
  let era := z / 146097 in
  let doe := z - era * 146097 in
  let yoe := (doe - doe / 1460 + doe / 36524 - doe / 146096) / 365 in
  let doy := doe - (365 * yoe + yoe / 4 - yoe / 100) in
  let mp := (5 * doy + 2) / 153 in
  let d := doy - (153 * mp + 2) / 5 + 1 in
  let m := if mp <? 10 then mp + 3 else mp - 9 in
  let y := yoe + era * 400 + (if m <=? 2 then 1 else 0) in
  (y, m, d).

(** The naive datetime [us] microseconds after 1970-01-01T00:00:00; years
    outside 1..9999 are out of range. *)
Definition of_microseconds (us : Z) : result datetime :=
  let secs := us / 1000000 in
  let '(y, m, d) := civil_from_days (secs / 86400) in
  let sod := secs mod 86400 in
  if (1 <=? y) && (y <=? 9999)
  then Ok (mk_datetime y m d (sod / 3600) (sod mod 3600 / 60) (sod mod 60)
             (us mod 1000000) None)
  else Raise OverflowError.

(** The day count from 1970-01-01 of a proleptic Gregorian date. *)
Definition days_from_civil (y m d : Z) : Z :=
  let y' := if m <=? 2 then y - 1 else y in
  let era := y' / 400 in
  let yoe := y' - era * 400 in
  let doy := (153 * (if 2 <? m then m - 3 else m + 9) + 2) / 5 + d - 1 in
  let doe := yoe * 365 + yoe / 4 - yoe / 100 + doy in
  era * 146097 + doe - 719468.

Definition to_microseconds (dt : datetime) : Z :=
  (days_from_civil (year dt) (month dt) (day dt) * 86400
   + hour dt * 3600 + minute dt * 60 + second dt) * 1000000 + microsecond dt.

(** [dt - delta] for a [timedelta] of [delta] microseconds. *)
Definition minus (dt : datetime) (delta : Z) : result datetime :=
  r ← of_microseconds (to_microseconds dt - delta);
  Ok (mk_datetime (year r) (month r) (day r) (hour r) (minute r) (second r)
        (microsecond r) (tzinfo dt)).

(** [dt.isoformat()] *)
Definition isoformat (dt : datetime) : string :=
  format_0d 4 (year dt) +:+ "-" +:+ format_0d 2 (month dt) +:+ "-"
  +:+ format_0d 2 (day dt) +:+ "T" +:+ format_0d 2 (hour dt) +:+ ":"
  +:+ format_0d 2 (minute dt) +:+ ":" +:+ format_0d 2 (second dt)
  +:+ (if microsecond dt =? 0 then "" else "." +:+ format_0d 6 (microsecond dt))
  +:+ match tzinfo dt with
      | None => ""
      | Some off =>
          let a := Z.abs off in
          (if off <? 0 then "-" else "+") +:+ format_0d 2 (a / 3600) +:+ ":"
          +:+ format_0d 2 (a mod 3600 / 60)
          +:+ (if a mod 60 =? 0 then "" else ":" +:+ format_0d 2 (a mod 60))
      end.

End Datetime.
Export Datetime.

(** What the engine takes from its surroundings: the clock, the zone of the
    host, and library routines used as they are. *)
Class PyRuntime : Type := {
  (** [datetime.now()] *)
  now : datetime;
  (** the local zone, in seconds east of UTC *)
  utc_offset : Z;
  (** [str(x)] for a float [x] *)
  float_str : Q → string;
  (** [datetime.strptime(text, layout)] *)
  strptime : string → string → result datetime;
  (** [sorted(items, key=..., reverse=True)] on [(key, item)] pairs whose
      keys are neither all numbers nor all strings *)
  sorted_reverse : list (value * value) → result (list value)
}.

Module Builtins.
Section Builtins.
Context `{PyRuntime}.

(** [datetime.fromtimestamp(t)] for a number [t]. *)
Definition fromtimestamp (t : num) : result datetime :=
  of_microseconds
    (round_half_even (Qmult (num_Q t) (inject_Z 1000000))
     + utc_offset * 1000000).

Definition backslash : ascii := ascii_of_N 92.

Definition hex_digit (n : N) : ascii :=
  if (n <? 10)%N then ascii_of_N (48 + n) else ascii_of_N (87 + n).

(** One character of [repr(s)] inside the quotes [q]. *)
Definition repr_char (q c : ascii) : string :=
  let n := N_of_ascii c in
  if Ascii.eqb c backslash then String backslash (String backslash "")
  else if Ascii.eqb c q then String backslash (String q "")
  else if (n =? 9)%N then String backslash "t"
  else if (n =? 10)%N then String backslash "n"
  else if (n =? 13)%N then String backslash "r"
  else if ((n <? 32) || (n =? 127))%N
       then String backslash (String "x" (String (hex_digit (n / 16))
                                       (String (hex_digit (n mod 16)) "")))
  else String c "".

Fixpoint repr_chars (q : ascii) (s : string) : string :=
  match s with
  | "" => ""
  | String c r => repr_char q c +:+ repr_chars q r
  end.

(** [repr(s)]: single quotes, unless the text has a single quote and no
    double quote. *)
Definition repr_str (s : string) : string :=
  let q : ascii :=
    if contains "'" s && negb (contains (String (ascii_of_N 34) "") s)
    then ascii_of_N 34 else "'"%char in
  String q (repr_chars q s +:+ String q "").

Fixpoint join (sep : string) (l : list string) : string :=
  match l with
  | [] => ""
  | [x] => x
  | x :: r => x +:+ sep +:+ join sep r
  end.

(** [repr(v)] *)
Fixpoint repr (v : value) : string :=
  match v with
  | VNone => "None"
  | VBool true => "True"
  | VBool false => "False"
  | VInt z => str_int z
  | VFloat q => float_str q
  | VStr s => repr_str s
  | VList l => "[" +:+ join ", " (map repr l) +:+ "]"
  | VDict kvs =>
      "{" +:+ join ", " (map (λ kv, repr_str kv.1 +:+ ": " +:+ repr kv.2) kvs)
      +:+ "}"
  end.

(** [str(v)], also the text an f-string puts for [{v}]. *)
Definition str (v : value) : string :=
  match v with VStr s => s | _ => repr v end.

(** Stable insertion in decreasing key order. *)
Fixpoint insert_desc {K} (lt : K → K → bool) (x : K * value)
  (l : list (K * value)) : list (K * value) :=
  match l with
  | [] => [x]
  | y :: r => if lt x.1 y.1 then y :: insert_desc lt x r else x :: l
  end.

Definition sort_desc {K} (lt : K → K → bool) (l : list (K * value))
  : list (K * value) :=
  foldr (λ x acc, insert_desc lt x acc) [] l.

Definition num_ltb (a b : num) : bool :=
  negb (Qle_bool (num_Q b) (num_Q a)).

Fixpoint all_some {A} (l : list (option A * value)) : option (list (A * value)) :=
  match l with
  | [] => Some []
  | (Some k, x) :: r => option_map (cons (k, x)) (all_some r)
  | (None, _) :: _ => None
  end.

Definition str_of (v : value) : option string :=
  match v with VStr s => Some s | _ => None end.

(** [sorted(items, key=lambda x: x.get(k, default), reverse=True)]: the keys
    are computed first; a stable sort follows, equal keys keeping their
    order. *)
Definition sorted_by_get_reverse (items : list value) (k : string)
  (default : value) : result (list value) :=
  ks ← mapM (λ x, key ← get x k default; Ok (key, x)) items;
  match ks with
  | [] | [_] => Ok items
  | _ =>
      match all_some (map (λ p, (num_of p.1, p.2)) ks) with
      | Some nks => Ok (map snd (sort_desc num_ltb nks))
      | None =>
          match all_some (map (λ p, (str_of p.1, p.2)) ks) with
          | Some sks => Ok (map snd (sort_desc String.ltb sks))
          | None => sorted_reverse ks
          end
      end
  end.

End Builtins.
End Builtins.
Export Builtins.

(** ** Regular-expression scans ([re.findall]) *)

Module Re.

Section Findall.
(** A pattern is given by what it matches at the head of a text: the text
    reported for the match and the number of characters consumed, at least
    one. *)
Variable pattern : string → option (string * nat).

(** The matches from left to right, without overlap; [skip] counts the
    characters of the last match still to be passed. *)
Fixpoint findall_from (skip : nat) (s : string) : list string :=
  match s with
  | "" => []
  | String _ r =>
      match skip with
      | S k => findall_from k r
      | O =>
          match pattern s with
          | Some (tok, n) => tok :: findall_from (n - 1) r
          | None => findall_from 0 r
          end
      end
  end.

Definition findall (s : string) : list string := findall_from 0 s.
End Findall.

Definition in_range (lo hi : N) (c : ascii) : bool :=
  let n := N_of_ascii c in ((lo <=? n) && (n <=? hi))%N.

Definition is_digit (c : ascii) : bool := in_range 48 57 c.

(** The class [\w]: letters, digits and the underscore. *)
Definition is_word (c : ascii) : bool :=
  in_range 97 122 c || in_range 65 90 c || is_digit c || Ascii.eqb c "_".

(** The longest prefix whose characters are all in the class. *)
Fixpoint run (cls : ascii → bool) (s : string) : string :=
  match s with
  | "" => ""
  | String c r => if cls c then String c (run cls r) else ""
  end.

(** A non-empty run of the class: [[cls]+]. *)
Definition run1 (cls : ascii → bool) (s : string) : option (string * nat) :=
  match run cls s with
  | "" => None
  | w => Some (w, String.length w)
  end.

(** [marker(\w+)], reporting the group. *)
Definition tagged (marker : ascii) (s : string) : option (string * nat) :=
  match s with
  | "" => None
  | String c r =>
      if Ascii.eqb c marker
      then match run is_word r with
           | "" => None
           | w => Some (w, S (String.length w))
           end
      else None
  end.

(** [\d+] *)
Definition digits (s : string) : option (string * nat) := run1 is_digit s.

(** The characters the URL pattern repeats: letters, digits, the range
    [$-_], the backslash and [@ . & + ! * ( ) ,]; the percent escape of the
    pattern is
    made of such characters. *)
Definition is_url_char (c : ascii) : bool :=
  in_range 97 122 c || in_range 65 90 c || is_digit c || in_range 36 95 c
  || existsb (Ascii.eqb c)
       (ascii_of_N 92 :: ["@"; "."; "&"; "+"; "!"; "*"; "("; ")"; ","]%char).

Definition drop_prefix (p s : string) : option string :=
  if String.prefix p s
  then Some (String.substring (String.length p) (String.length s - String.length p) s)
  else None.

(** [http[s]?://(?:...)+] *)
Definition url (s : string) : option (string * nat) :=
  let after (scheme : string) :=
    match drop_prefix scheme s with
    | Some r =>
        match run is_url_char r with
        | "" => None
        | w => Some (scheme +:+ w, String.length scheme + String.length w)%nat
        end
    | None => None
    end in
  match after "https://" with
  | Some m => Some m
  | None => after "http://"
  end.

End Re.

(** ** Loops that append inside a [try] *)

Module Emit.

(** What a block has appended to the output list, and how it ended. *)
Definition emit (A : Type) : Type := (list value * result A)%type.

Definition ret {A} (a : A) : emit A := ([], Ok a).

Definition bind {A B} (f : A → emit B) (m : emit A) : emit B :=
  match m with
  | (out, Ok a) => let '(out', r) := f a in (out ++ out', r)
  | (out, Raise e) => (out, Raise e)
  end.

#[export] Instance emit_ret : MRet emit := @ret.
#[export] Instance emit_bind : MBind emit := @bind.

(** [items.append(v)] *)
Definition append (v : value) : emit unit := ([v], Ok tt).

(** An expression that appends nothing. *)
Definition lift {A} (m : result A) : emit A := ([], m).

Definition skip : emit unit := ret tt.

(** [for x in l: body x] *)
Fixpoint for_each (l : list value) (body : value → emit unit) : emit unit :=
  match l with
  | [] => skip
  | x :: r => _ ← body x; for_each r body
  end.

(** [for x in v: body x]; [v] has to be iterable. *)
Definition for_in (v : value) (body : value → emit unit) : emit unit :=
  l ← lift (iter v); for_each l body.

(** [items = []; try: block except: pass; return items] *)
Definition collected (block : emit unit) : list value := block.1.

End Emit.
Export Emit.

(** ** Keyword heuristics shared in shape by the five parsers *)

Module Keywords.

(** [sum(1 for word in words if word in text)] *)
Definition count_hits (words : list string) (text : string) : Z :=
  Z.of_nat (length (filter (λ w, contains w text = true) words)).

(** [any(keyword in text for keyword in keywords)] *)
Definition any_hit (keywords : list string) (text : string) : bool :=
  existsb (λ w, contains w text) keywords.

(** The keys of [table], in order, whose keyword list hits [text]. *)
Definition matching (table : list (string * list string)) (text : string)
  : list string :=
  map fst (filter (λ kw, any_hit kw.2 text = true) table).

(** The sentiment verdict from the two counts. *)
Definition polarity (positive_count negative_count : Z) : string :=
  if negative_count <? positive_count then "positive"
  else if positive_count <? negative_count then "negative"
  else "neutral".

(** The language verdict from the two counts. *)
Definition language_of (indonesian_count english_count : Z) : string :=
  if english_count <? indonesian_count then "id"
  else if indonesian_count <? english_count then "en"
  else "mixed".

(** [text.lower()]: only strings have the method. *)
Definition lower_of (text : value) : result string :=
  match text with VStr s => Ok (lower s) | _ => Raise AttributeError end.

(** [re.findall(pattern, text)]: the text has to be a string. *)
Definition findall_in (pattern : string → option (string * nat)) (text : value)
  : result (list string) :=
  match text with
  | VStr s => Ok (Re.findall pattern s)
  | _ => Raise TypeError
  end.

Definition strings (l : list string) : value := VList (map VStr l).

End Keywords.
Export Keywords.

(** ** parsers/twitter_parser.py *)

Module twitter_parser.
Section twitter_parser.
Context `{PyRuntime}.

Definition extract_tweets_from_timeline (data : value) : list value :=
  collected (
    d ← lift (get data "data" (VDict []));
    r ← lift (get d "result" (VDict []));
    timeline ← lift (get r "timeline" (VDict []));
    instructions ← lift (get timeline "instructions" (VList []));
    for_in instructions (λ instruction,
      ty ← lift (get_none instruction "type");
      if eq_str ty "TimelineAddEntries" then
        entries ← lift (get instruction "entries" (VList []));
        for_in entries (λ entry,
          content ← lift (get entry "content" (VDict []));
          entry_type ← lift (get_none content "entryType");
          if eq_str entry_type "TimelineTimelineItem" then
            item_content ← lift (get content "itemContent" (VDict []));
            item_type ← lift (get_none item_content "itemType");
            if eq_str item_type "TimelineTweet" then
              tweet_results ← lift (get item_content "tweet_results" (VDict []));
              tweet ← lift (get tweet_results "result" (VDict []));
              if truthy tweet then append tweet else skip
            else skip
          else
            entry_type' ← lift (get_none content "entryType");
            if eq_str entry_type' "TimelineTimelineModule" then
              items ← lift (get content "items" (VList []));
              for_in items (λ item,
                it ← lift (get item "item" (VDict []));
                item_content ← lift (get it "itemContent" (VDict []));
                item_type ← lift (get_none item_content "itemType");
                if eq_str item_type "TimelineTweet" then
                  tweet_results ← lift (get item_content "tweet_results" (VDict []));
                  tweet ← lift (get tweet_results "result" (VDict []));
                  if truthy tweet then append tweet else skip
                else skip)
            else skip)
      else skip)).

Definition twitter_layout : string := "%a %b %d %H:%M:%S %z %Y".

Definition parse_twitter_timestamp (timestamp_str : value) : string :=
  try_except
    (dt ← match timestamp_str with
          | VStr s => strptime s twitter_layout
          | _ => Raise TypeError
          end;
     Ok (isoformat dt))
    (isoformat now).

Definition positive_words : list string :=
  ["good"; "great"; "awesome"; "amazing"; "excellent"; "happy"; "love"].
Definition negative_words : list string :=
  ["bad"; "terrible"; "awful"; "hate"; "angry"; "sad"; "disappointed"].

Definition analyze_sentiment (text : value) : result string :=
  text_lower ← lower_of text;
  Ok (polarity (count_hits positive_words text_lower)
               (count_hits negative_words text_lower)).

Definition emotion_keywords : list (string * list string) :=
  [("joy", ["happy"; "joy"; "excited"; "amazing"; "wonderful"]);
   ("anger", ["angry"; "mad"; "furious"; "annoyed"; "hate"]);
   ("sadness", ["sad"; "depressed"; "crying"; "disappointed"]);
   ("fear", ["scared"; "afraid"; "worried"; "anxious"]);
   ("surprise", ["wow"; "amazing"; "surprised"; "unbelievable"]);
   ("love", ["love"; "heart"; "adore"; "crush"])].

Definition detect_emotions (text : value) : result value :=
  text_lower ← lower_of text;
  Ok (strings (matching emotion_keywords text_lower)).

Definition extract_geo_data (tweet : value) : result value :=
  coordinates ← get_none tweet "coordinates";
  let geo_data :=
    if truthy coordinates then [("coordinates", coordinates)] else [] in
  place ← get_none tweet "place";
  if truthy place then
    name ← get place "full_name" (VStr "");
    country ← get place "country" (VStr "");
    ty ← get place "place_type" (VStr "");
    Ok (VDict (assoc_set "place"
                 (VDict [("name", name); ("country", country); ("type", ty)])
                 geo_data))
  else Ok (VDict geo_data).

(** The body of [create_tweet_document] inside its [try]; [None] is the
    result of the [return None] for a falsy [rest_id]. *)
Definition tweet_document (tweet : value) : result (option value) :=
  legacy ← get tweet "legacy" (VDict []);
  core ← get tweet "core" (VDict []);
  user_results ← get core "user_results" (VDict []);
  user ← get user_results "result" (VDict []);
  user_legacy ← get user "legacy" (VDict []);
  cores ← get user "core" (VDict []);
  full_text0 ← get legacy "full_text" (VStr "");
  note_tweet ← get tweet "note_tweet" (VDict []);
  is_expandable ← get_none note_tweet "is_expandable";
  full_text ←
    (if truthy is_expandable then
       note_results ← get note_tweet "note_tweet_results" (VDict []);
       note_result ← get note_results "result" (VDict []);
       text ← get_none note_result "text";
       if truthy text then get_none note_result "text" else Ok full_text0
     else Ok full_text0);
  created_at ← get legacy "created_at" (VStr "");
  let timestamp := parse_twitter_timestamp created_at in
  like_count ← get legacy "favorite_count" (VInt 0);
  retweet_count ← get legacy "retweet_count" (VInt 0);
  reply_count ← get legacy "reply_count" (VInt 0);
  quote_count ← get legacy "quote_count" (VInt 0);
  bookmark_count ← get legacy "bookmark_count" (VInt 0);
  views ← get tweet "views" (VDict []);
  view_count ← get views "count" (VInt 0);
  let metrics := VDict [
    ("like_count", like_count); ("retweet_count", retweet_count);
    ("reply_count", reply_count); ("quote_count", quote_count);
    ("bookmark_count", bookmark_count); ("view_count", view_count)] in
  user_id ← get user "rest_id" (VStr "");
  screen_name ← get cores "screen_name" (VStr "");
  username ← py_or screen_name (get user_legacy "screen_name" (VStr ""));
  name ← get cores "name" (VStr "");
  display_name ← py_or name (get user_legacy "name" (VStr ""));
  followers_count ← get user_legacy "followers_count" (VInt 0);
  friends_count ← get user_legacy "friends_count" (VInt 0);
  verification ← get user "verification" (VDict []);
  verified ← get verification "verified" (VBool false);
  avatar ← get user "avatar" (VDict []);
  profile_image_url ← get avatar "image_url" (VStr "");
  description ← get user_legacy "description" (VStr "");
  location ← get user "location" (VDict []);
  location' ← get location "location" (VStr "");
  let user_info := VDict [
    ("id", user_id); ("username", username); ("display_name", display_name);
    ("followers_count", followers_count); ("friends_count", friends_count);
    ("verified", verified); ("profile_image_url", profile_image_url);
    ("description", description); ("location", location')] in
  entities ← get legacy "entities" (VDict []);
  tags ← get entities "hashtags" (VList []);
  tags' ← iter tags;
  hashtags ← mapM (λ tag, subscript tag "text") tags';
  user_mentions ← get entities "user_mentions" (VList []);
  user_mentions' ← iter user_mentions;
  mentions ← mapM (λ mention, subscript mention "screen_name") user_mentions';
  urls0 ← get entities "urls" (VList []);
  urls' ← iter urls0;
  urls ← mapM (λ url, subscript url "expanded_url") urls';
  extended_entities ← get legacy "extended_entities" (VDict []);
  has_media ← get_none extended_entities "media";
  media ←
    (if truthy has_media then
       ms ← subscript extended_entities "media";
       ms' ← iter ms;
       mapM (λ m,
               ty ← get m "type" (VStr "");
               url ← get m "media_url_https" (VStr "");
               id ← get m "id_str" (VStr "");
               Ok (VDict [("type", ty); ("url", url); ("id", id)])) ms'
     else Ok []);
  sentiment ← analyze_sentiment full_text;
  platform_id ← get tweet "rest_id" (VStr "");
  lang ← get legacy "lang" (VStr "");
  emotions ← detect_emotions full_text;
  is_retweet ← get legacy "retweeted" (VBool false);
  is_quote ← get legacy "is_quote_status" (VBool false);
  conversation_id ← get legacy "conversation_id_str" (VStr "");
  possibly_sensitive ← get legacy "possibly_sensitive" (VBool false);
  geo ← extract_geo_data tweet;
  let document := VDict [
    ("platform", VStr "twitter");
    ("platform_id", platform_id);
    ("content", full_text);
    ("author", user_info);
    ("timestamp", VStr timestamp);
    ("created_at", created_at);
    ("metrics", metrics);
    ("hashtags", VList hashtags);
    ("mentions", VList mentions);
    ("urls", VList urls);
    ("media", VList media);
    ("language", lang);
    ("sentiment", VStr sentiment);
    ("emotions", emotions);
    ("is_retweet", is_retweet);
    ("is_quote", is_quote);
    ("conversation_id", conversation_id);
    ("source", VStr "twitter");
    ("possibly_sensitive", possibly_sensitive);
    ("geo", geo);
    ("analyzed_at", VStr (isoformat now));
    ("raw_data", tweet)] in
  rest_id ← get tweet "rest_id" (VStr "");
  if negb (truthy rest_id) then Ok None else Ok (Some document).

Definition create_tweet_document (tweet : value) : option value :=
  try_except (tweet_document tweet) None.

(** [documents = []; for tweet in tweets: doc = ...; if doc: append] *)
Definition parse_twitter_json (data : value) : list value :=
  omap (λ tweet,
          match create_tweet_document tweet with
          | Some doc => if truthy doc then Some doc else None
          | None => None
          end)
       (extract_tweets_from_timeline data).

End twitter_parser.
End twitter_parser.

(** ** parsers/facebook_parser.py *)

Module facebook_parser.
Section facebook_parser.
Context `{PyRuntime}.

Definition extract_posts_from_data (data : value) : list value :=
  collected (
    d ← lift (get data "data" (VDict []));
    results ← lift (get d "results" (VList []));
    for_in results (λ post,
      ty ← lift (get_none post "type");
      if eq_str ty "post" then append post else skip)).

Definition extract_media_info (post : value) : result value :=
  image ← get_none post "image";
  media_info ←
    (if truthy image then
       url ← get image "uri" (VStr "");
       width ← get image "width" (VInt 0);
       height ← get image "height" (VInt 0);
       id ← get image "id" (VStr "");
       Ok [("image", VDict [("url", url); ("width", width);
                            ("height", height); ("id", id)])]
     else Ok []);
  video ← get_none post "video";
  media_info ←
    (if truthy video then
       url ← get video "url" (VStr "");
       thumbnail ← get video "thumbnail" (VStr "");
       duration ← get video "duration" (VInt 0);
       Ok (assoc_set "video"
             (VDict [("url", url); ("thumbnail", thumbnail);
                     ("duration", duration)]) media_info)
     else Ok media_info);
  video_files ← get_none post "video_files";
  let media_info :=
    if truthy video_files then assoc_set "video_files" video_files media_info
    else media_info in
  album_preview ← get_none post "album_preview";
  let media_info :=
    if truthy album_preview
    then assoc_set "album_preview" album_preview media_info
    else media_info in
  video_thumbnail ← get_none post "video_thumbnail";
  let media_info :=
    if truthy video_thumbnail
    then assoc_set "video_thumbnail" video_thumbnail media_info
    else media_info in
  Ok (VDict media_info).

Definition extract_hashtags (text : value) : result value :=
  if negb (truthy text) then Ok (VList [])
  else hashtags ← findall_in (Re.tagged "#") text; Ok (strings hashtags).

Definition extract_mentions (text : value) : result value :=
  if negb (truthy text) then Ok (VList [])
  else mentions ← findall_in (Re.tagged "@") text; Ok (strings mentions).

Definition extract_external_urls (post : value) : result value :=
  external_url ← get_none post "external_url";
  let urls := if truthy external_url then [external_url] else [] in
  attached_post_url ← get_none post "attached_post_url";
  let urls :=
    if truthy attached_post_url then urls ++ [attached_post_url] else urls in
  message ← get post "message" (VStr "");
  if truthy message then
    found_urls ← findall_in Re.url message;
    Ok (VList (urls ++ map VStr found_urls))
  else Ok (VList urls).

Definition determine_post_type (post : value) : result string :=
  video ← get_none post "video";
  if truthy video then Ok "video" else
  video_files ← get_none post "video_files";
  if truthy video_files then Ok "video" else
  image ← get_none post "image";
  if truthy image then Ok "image" else
  album_preview ← get_none post "album_preview";
  if truthy album_preview then Ok "album" else
  external_url ← get_none post "external_url";
  if truthy external_url then Ok "link" else
  attached_post ← get_none post "attached_post";
  if truthy attached_post then Ok "shared_post" else
  attached_event ← get_none post "attached_event";
  if truthy attached_event then Ok "event" else Ok "text".

Definition positive_words : list string :=
  ["love"; "amazing"; "great"; "awesome"; "wonderful"; "excellent"; "happy";
   "good"; "nice"; "best"; "perfect"].
Definition negative_words : list string :=
  ["hate"; "terrible"; "awful"; "bad"; "worst"; "angry"; "sad";
   "disappointed"; "horrible"; "annoying"].

Definition analyze_sentiment (text : value) : result string :=
  if negb (truthy text) then Ok "neutral" else
  text_lower ← lower_of text;
  Ok (polarity (count_hits positive_words text_lower)
               (count_hits negative_words text_lower)).

Definition emotion_keywords : list (string * list string) :=
  [("joy", ["happy"; "joy"; "excited"; "amazing"; "wonderful"; "celebrate"]);
   ("love", ["love"; "heart"; "adore"; "beautiful"; "sweet"]);
   ("anger", ["angry"; "mad"; "furious"; "annoyed"; "frustrated"]);
   ("sadness", ["sad"; "depressed"; "crying"; "disappointed"; "heartbroken"]);
   ("surprise", ["wow"; "amazing"; "surprised"; "unbelievable"; "shocking"]);
   ("fear", ["scared"; "afraid"; "worried"; "anxious"; "terrified"]);
   ("humor", ["funny"; "hilarious"; "joke"; "comedy"; "lol"; "haha"])].

(** The emotions the text part of [detect_emotions] appends. *)
Definition text_emotions (text : value) : result (list string) :=
  if truthy text then
    text_lower ← lower_of text;
    Ok (matching emotion_keywords text_lower)
  else Ok [].

(** [reactions.get(kind, 0) / total_reactions > threshold] *)
Definition share_above (reactions : value) (kind : string) (total : value)
  (threshold : Q) : result bool :=
  count ← get reactions kind (VInt 0);
  share ← true_div count total;
  Ok (negb (Qle_bool share threshold)).

(** The reaction thresholds in the order they are tested. *)
Definition reaction_rules : list (string * Q * string) :=
  [("love", Qmake 3 10, "love"); ("haha", Qmake 3 10, "humor");
   ("angry", Qmake 2 10, "anger"); ("sad", Qmake 2 10, "sadness");
   ("wow", Qmake 3 10, "surprise")].

Fixpoint apply_rules (reactions total : value)
  (rules : list (string * Q * string)) : result (list string) :=
  match rules with
  | [] => Ok []
  | (kind, threshold, emotion) :: r =>
      above ← share_above reactions kind total threshold;
      rest ← apply_rules reactions total r;
      Ok (if (above : bool) then emotion :: rest else rest)
  end.

(** The emotions the reaction part of [detect_emotions] appends. *)
Definition reaction_emotions (reactions : value) : result (list string) :=
  if truthy reactions then
    values ← match reactions with
             | VDict kvs => Ok (map snd kvs)
             | _ => Raise AttributeError
             end;
    total_reactions ← sum values;
    positive ← gt_int total_reactions 0;
    if (positive : bool) then apply_rules reactions total_reactions reaction_rules
    else Ok []
  else Ok [].

(** [list(set(emotions))]: the distinct emotions, in an order that Python
    leaves open. *)
Definition distinct (emotions : list string) : list string :=
  elements (list_to_set emotions : gset string).

Definition detect_emotions (text reactions : value) : result (list string) :=
  from_text ← text_emotions text;
  from_reactions ← reaction_emotions reactions;
  Ok (distinct (from_text ++ from_reactions)).

Definition indonesian_words : list string :=
  ["dan"; "yang"; "untuk"; "dengan"; "dari"; "ini"; "itu"; "tidak"; "ada";
   "saya"; "kita"; "mereka"].
Definition english_words : list string :=
  ["and"; "the"; "to"; "of"; "a"; "in"; "for"; "is"; "on"; "that"; "you";
   "it"; "with"; "as"].

Definition padded (word : string) : string := " " +:+ word +:+ " ".

Definition detect_language (text : value) : result string :=
  if negb (truthy text) then Ok "unknown" else
  text_lower ← lower_of text;
  Ok (language_of
        (count_hits (map padded indonesian_words) (padded text_lower))
        (count_hits (map padded english_words) (padded text_lower))).

(** [round((count / total_reactions) * 100, 2)] for every reaction. *)
Fixpoint reaction_percentages (total_reactions : value)
  (reactions : list (string * value)) (breakdown : list (string * value))
  : result (list (string * value)) :=
  match reactions with
  | [] => Ok breakdown
  | (reaction_type, count) :: r =>
      share ← true_div count total_reactions;
      reaction_percentages total_reactions r
        (assoc_set (reaction_type +:+ "_percentage")
           (VFloat (round2 (Qmult share (inject_Z 100)))) breakdown)
  end.

(** The body of [create_post_document] inside its [try]. *)
Definition post_document (post : value) : result value :=
  post_id ← get post "post_id" (VStr "");
  message ← get post "message" (VStr "");
  message_rich ← get post "message_rich" message;
  url ← get post "url" (VStr "");
  timestamp_unix ← get post "timestamp" (VInt 0);
  timestamp ←
    match num_of timestamp_unix with
    | Some t =>
        positive ← gt_int timestamp_unix 0;
        if (positive : bool) then dt ← fromtimestamp t; Ok (isoformat dt)
        else Ok (isoformat now)
    | None => Ok (isoformat now)
    end;
  author ← get post "author" (VDict []);
  author_id ← get author "id" (VStr "");
  author_name ← get author "name" (VStr "");
  author_url ← get author "url" (VStr "");
  profile_image_url ← get author "profile_picture_url" (VStr "");
  let user_info := VDict [
    ("id", author_id); ("name", author_name); ("url", author_url);
    ("profile_image_url", profile_image_url)] in
  reactions ← get post "reactions" (VDict []);
  reactions_count ← get post "reactions_count" (VInt 0);
  comments_count ← get post "comments_count" (VInt 0);
  shares_count ← get post "reshare_count" (VInt 0);
  like_count ← get reactions "like" (VInt 0);
  love_count ← get reactions "love" (VInt 0);
  wow_count ← get reactions "wow" (VInt 0);
  haha_count ← get reactions "haha" (VInt 0);
  sad_count ← get reactions "sad" (VInt 0);
  angry_count ← get reactions "angry" (VInt 0);
  care_count ← get reactions "care" (VInt 0);
  let metrics := VDict [
    ("reactions_count", reactions_count); ("comments_count", comments_count);
    ("shares_count", shares_count); ("like_count", like_count);
    ("love_count", love_count); ("wow_count", wow_count);
    ("haha_count", haha_count); ("sad_count", sad_count);
    ("angry_count", angry_count); ("care_count", care_count)] in
  let total_reactions := reactions_count in
  positive ← gt_int total_reactions 0;
  reaction_breakdown ←
    (if (positive : bool) then
       match reactions with
       | VDict kvs => reaction_percentages total_reactions kvs []
       | _ => Raise AttributeError
       end
     else Ok []);
  media_info ← extract_media_info post;
  hashtags ← extract_hashtags message;
  mentions ← extract_mentions message;
  external_urls ← extract_external_urls post;
  post_type ← determine_post_type post;
  sentiment ← analyze_sentiment message;
  emotions ← detect_emotions message reactions;
  partial ← add reactions_count comments_count;
  total_engagements ← add partial shares_count;
  author_title ← get_none post "author_title";
  comments_id ← get post "comments_id" (VStr "");
  shares_id ← get post "shares_id" (VStr "");
  text_format_metadata ← get_none post "text_format_metadata";
  let metadata := VDict [
    ("author_title", author_title); ("comments_id", comments_id);
    ("shares_id", shares_id);
    ("text_format_metadata", text_format_metadata)] in
  language ← detect_language message;
  Ok (VDict [
    ("platform", VStr "facebook");
    ("platform_id", post_id);
    ("content", message);
    ("content_rich", message_rich);
    ("author", user_info);
    ("timestamp", VStr timestamp);
    ("created_timestamp", timestamp_unix);
    ("url", url);
    ("metrics", metrics);
    ("reaction_breakdown", VDict reaction_breakdown);
    ("total_engagements", total_engagements);
    ("hashtags", hashtags);
    ("mentions", mentions);
    ("external_urls", external_urls);
    ("media_info", media_info);
    ("post_type", VStr post_type);
    ("sentiment", VStr sentiment);
    ("emotions", strings emotions);
    ("language", VStr language);
    ("metadata", metadata);
    ("analyzed_at", VStr (isoformat now));
    ("raw_data", post)]).

Definition create_post_document (post : value) : option value :=
  try_or_none (post_document post).

Definition parse_facebook_json (data : value) : list value :=
  omap (λ post,
          match create_post_document post with
          | Some doc => if truthy doc then Some doc else None
          | None => None
          end)
       (extract_posts_from_data data).

End facebook_parser.
End facebook_parser.

(** ** parsers/youtube_parser.py *)

Module youtube_parser.
Section youtube_parser.
Context `{PyRuntime}.

Definition extract_videos_from_data (data : value) : list value :=
  collected (
    d ← lift (get data "data" (VDict []));
    contents ← lift (get d "contents" (VList []));
    for_in contents (λ content,
      ty ← lift (get_none content "type");
      if eq_str ty "video" then
        video ← lift (get content "video" (VDict []));
        if truthy video then append video else skip
      else skip)).

Definition extract_video_id (video : value) : result value :=
  video_id ← get video "videoId" (VStr "");
  video_id ←
    (if negb (truthy video_id) then
       nav_endpoint ← get video "navigationEndpoint" (VDict []);
       watch_endpoint ← get nav_endpoint "watchEndpoint" (VDict []);
       get watch_endpoint "videoId" (VStr "")
     else Ok video_id);
  if negb (truthy video_id) then
    link ← get video "link" (VStr "");
    found ← str_in "watch?v=" link;
    if (found : bool) then
      match link with
      | VStr l =>
          match split "watch?v=" l with
          | _ :: after :: _ =>
              match split "&" after with
              | id :: _ => Ok (VStr id)
              | [] => Raise IndexError
              end
          | _ => Raise IndexError
          end
      | _ => Raise AttributeError
      end
    else Ok video_id
  else Ok video_id.

Definition get_avatar_url (avatar_list : value) : result value :=
  if negb (truthy avatar_list) then Ok (VStr "") else
  avatars ← iter avatar_list;
  sorted_avatars ← sorted_by_get_reverse avatars "height" (VInt 0);
  match sorted_avatars with
  | best :: _ => get best "url" (VStr "")
  | [] => Ok (VStr "")
  end.

Fixpoint any_verified (badges : list value) : result bool :=
  match badges with
  | [] => Ok false
  | badge :: r =>
      ty ← get_none badge "type";
      if eq_str ty "VERIFIED_CHANNEL" then Ok true else
      text ← get_none badge "text";
      if eq_str text "Verified" then Ok true else any_verified r
  end.

Definition is_verified_channel (badges : value) : result bool :=
  l ← iter badges; any_verified l.

Definition extract_thumbnails (video : value) : result value :=
  thumbnails ← get video "thumbnails" (VList []);
  l ← iter thumbnails;
  formatted ← mapM (λ thumb,
                      url ← get thumb "url" (VStr "");
                      width ← get thumb "width" (VInt 0);
                      height ← get thumb "height" (VInt 0);
                      Ok (VDict [("url", url); ("width", width);
                                 ("height", height)])) l;
  Ok (VList formatted).

(** Floor division and remainder keep floats floats, and the layout
    [02d] refuses a float. *)
Definition format_duration (seconds : value) : result string :=
  if eq_int seconds 0 then Ok "00:00" else
  match num_of seconds with
  | Some (NInt s) =>
      let hours := s / 3600 in
      let minutes := (s mod 3600) / 60 in
      let secs := s mod 60 in
      if 0 <? hours
      then Ok (format_0d 2 hours +:+ ":" +:+ format_0d 2 minutes +:+ ":"
               +:+ format_0d 2 secs)
      else Ok (format_0d 2 minutes +:+ ":" +:+ format_0d 2 secs)
  | Some (NFloat _) => Raise ValueError
  | None => Raise TypeError
  end.

(** [datetime.timedelta(...)].  The module opens with
    [from datetime import datetime], so the name [datetime] is the class,
    and the class has no attribute [timedelta]: looking it up raises. *)
Definition datetime_timedelta (microseconds : Z) : result Z :=
  Raise AttributeError.

(** [int(re.findall(r'\d+', text)[0])] *)
Definition first_number (text : value) : result Z :=
  numbers ← findall_in Re.digits text;
  match numbers with
  | n :: _ => Ok (int_of_digits n)
  | [] => Raise IndexError
  end.

(** [now - datetime.timedelta(unit=n)], with [unit] in microseconds. *)
Definition ago (text : value) (unit : Z) : result datetime :=
  n ← first_number text;
  delta ← datetime_timedelta (n * unit);
  minus now delta.

Definition us_per_day : Z := 86400 * 1000000.

Definition parse_youtube_timestamp (published_time_text : value) : string :=
  try_except
    (if negb (truthy published_time_text) then Ok (isoformat now) else
     is_day ← str_in "day" published_time_text;
     timestamp ←
       (if (is_day : bool) then ago published_time_text us_per_day else
        is_week ← str_in "week" published_time_text;
        if (is_week : bool) then ago published_time_text (7 * us_per_day) else
        is_month ← str_in "month" published_time_text;
        if (is_month : bool) then ago published_time_text (30 * us_per_day) else
        is_year ← str_in "year" published_time_text;
        if (is_year : bool) then ago published_time_text (365 * us_per_day) else
        is_hour ← str_in "hour" published_time_text;
        if (is_hour : bool) then ago published_time_text (3600 * 1000000) else
        is_minute ← str_in "minute" published_time_text;
        if (is_minute : bool) then ago published_time_text (60 * 1000000) else
        Ok now);
     Ok (isoformat timestamp))
    (isoformat now).

Definition extract_hashtags (text : value) : result value :=
  if negb (truthy text) then Ok (VList [])
  else hashtags ← findall_in (Re.tagged "#") text; Ok (strings hashtags).

Definition extract_mentions (text : value) : result value :=
  if negb (truthy text) then Ok (VList [])
  else mentions ← findall_in (Re.tagged "@") text; Ok (strings mentions).

Definition categories : list (string * list string) :=
  [("music", ["music"; "song"; "audio"; "album"; "artist"; "band"; "cover";
              "acoustic"; "lyric"]);
   ("gaming", ["gaming"; "game"; "gameplay"; "playthrough"; "walkthrough";
               "review"; "trailer"]);
   ("education", ["tutorial"; "how to"; "learn"; "education"; "course";
                  "lesson"; "guide"; "tips"]);
   ("entertainment", ["comedy"; "funny"; "humor"; "entertainment"; "show";
                      "movie"; "film"]);
   ("vlog", ["vlog"; "daily"; "life"; "routine"; "day in the life";
             "personal"]);
   ("news", ["news"; "breaking"; "report"; "update"; "current events";
             "politics"]);
   ("sports", ["sports"; "football"; "basketball"; "soccer"; "olympics";
               "match"; "game"]);
   ("technology", ["tech"; "technology"; "review"; "unboxing"; "gadget";
                   "smartphone"; "computer"]);
   ("cooking", ["cooking"; "recipe"; "food"; "kitchen"; "chef"; "baking";
                "meal"]);
   ("travel", ["travel"; "trip"; "vacation"; "tour"; "destination";
               "adventure"]);
   ("fashion", ["fashion"; "style"; "outfit"; "clothing"; "beauty"; "makeup"]);
   ("fitness", ["fitness"; "workout"; "exercise"; "health"; "gym";
                "training"]);
   ("diy", ["diy"; "craft"; "handmade"; "build"; "create"; "project"]);
   ("podcast", ["podcast"; "interview"; "discussion"; "talk";
                "conversation"])].

Definition determine_category (title description : value) : string :=
  let content := lower (str title +:+ " " +:+ str description) in
  match matching categories content with
  | category :: _ => category
  | [] => "general"
  end.

Definition positive_words : list string :=
  ["great"; "amazing"; "awesome"; "excellent"; "fantastic"; "wonderful";
   "love"; "best"; "perfect"; "incredible"].
Definition negative_words : list string :=
  ["terrible"; "awful"; "horrible"; "worst"; "hate"; "bad"; "disappointing";
   "failed"; "disaster"].

Definition analyze_sentiment (text : value) : result string :=
  if negb (truthy text) then Ok "neutral" else
  text_lower ← lower_of text;
  Ok (polarity (count_hits positive_words text_lower)
               (count_hits negative_words text_lower)).

Definition emotion_keywords : list (string * list string) :=
  [("excitement", ["excited"; "amazing"; "incredible"; "awesome"; "wow"]);
   ("joy", ["happy"; "joy"; "fun"; "cheerful"; "delighted"]);
   ("love", ["love"; "adore"; "beautiful"; "gorgeous"; "wonderful"]);
   ("curiosity", ["discover"; "explore"; "learn"; "find out"; "reveal"]);
   ("inspiration", ["inspired"; "motivate"; "achieve"; "success"; "dream"]);
   ("humor", ["funny"; "hilarious"; "comedy"; "joke"; "laugh"]);
   ("surprise", ["surprise"; "unexpected"; "shocking"; "unbelievable"]);
   ("nostalgia", ["memories"; "nostalgic"; "remember"; "throwback";
                  "classic"])].

Definition detect_emotions (text : value) : result value :=
  if negb (truthy text) then Ok (VList []) else
  text_lower ← lower_of text;
  Ok (strings (matching emotion_keywords text_lower)).

Definition indonesian_words : list string :=
  ["dan"; "yang"; "untuk"; "dengan"; "dari"; "ini"; "itu"; "tidak"; "ada";
   "saya"; "video"; "channel"].
Definition english_words : list string :=
  ["and"; "the"; "to"; "of"; "a"; "in"; "for"; "is"; "on"; "that"; "video";
   "channel"; "subscribe"].

Definition detect_language (text : value) : result string :=
  if negb (truthy text) then Ok "unknown" else
  text_lower ← lower_of text;
  Ok (language_of (count_hits indonesian_words text_lower)
                  (count_hits english_words text_lower)).

(** The body of [create_video_document] inside its [try]. *)
Definition video_document (video : value) : result value :=
  video_id ← extract_video_id video;
  title ← get video "title" (VStr "");
  description ← get video "descriptionSnippet" (VStr "");
  author ← get video "author" (VDict []);
  channel_id ← get author "channelId" (VStr "");
  channel_title ← get author "title" (VStr "");
  has_base_url ← get_none author "canonicalBaseUrl";
  username ←
    (if truthy has_base_url then
       base_url ← get author "canonicalBaseUrl" (VStr "");
       match base_url with
       | VStr u => Ok (VStr (replace "/@" "" u))
       | _ => Raise AttributeError
       end
     else Ok (VStr ""));
  avatar ← get author "avatar" (VList []);
  profile_image_url ← get_avatar_url avatar;
  author_badges ← get author "badges" (VList []);
  author_badges' ← get author "badges" (VList []);
  is_verified ← is_verified_channel author_badges';
  let channel_info := VDict [
    ("id", channel_id); ("title", channel_title); ("username", username);
    ("profile_image_url", profile_image_url); ("badges", author_badges);
    ("is_verified", VBool is_verified)] in
  stats ← get video "stats" (VDict []);
  view_count ← get stats "views" (VInt 0);
  let metrics := VDict [("view_count", view_count)] in
  duration_seconds ← get video "lengthSeconds" (VInt 0);
  duration_formatted ← format_duration duration_seconds;
  thumbnails ← extract_thumbnails video;
  published_time ← get video "publishedTimeText" (VStr "");
  let timestamp := parse_youtube_timestamp published_time in
  badges ← get video "badges" (VList []);
  is_live ← get video "isLiveNow" (VBool false);
  moving_thumbnails ← get video "movingThumbnails" (VList []);
  let full_content := VStr (str title +:+ " " +:+ str description) in
  sentiment ← analyze_sentiment full_content;
  emotions ← detect_emotions full_content;
  hashtags ← extract_hashtags description;
  mentions ← extract_mentions description;
  let category := determine_category title description in
  let video_url :=
    if truthy video_id
    then "https://www.youtube.com/watch?v=" +:+ str video_id else "" in
  language ← detect_language full_content;
  Ok (VDict [
    ("platform", VStr "youtube");
    ("platform_id", video_id);
    ("content", full_content);
    ("title", title);
    ("description", description);
    ("author", channel_info);
    ("timestamp", VStr timestamp);
    ("published_time_text", published_time);
    ("url", VStr video_url);
    ("metrics", metrics);
    ("duration_seconds", duration_seconds);
    ("duration_formatted", VStr duration_formatted);
    ("thumbnails", thumbnails);
    ("moving_thumbnails", moving_thumbnails);
    ("badges", badges);
    ("is_live", is_live);
    ("hashtags", hashtags);
    ("mentions", mentions);
    ("sentiment", VStr sentiment);
    ("emotions", emotions);
    ("category", VStr category);
    ("language", VStr language);
    ("content_type", VStr "video");
    ("analyzed_at", VStr (isoformat now));
    ("raw_data", video)]).

Definition create_video_document (video : value) : option value :=
  try_or_none (video_document video).

Definition parse_youtube_json (data : value) : list value :=
  omap (λ video,
          match create_video_document video with
          | Some doc => if truthy doc then Some doc else None
          | None => None
          end)
       (extract_videos_from_data data).

End youtube_parser.
End youtube_parser.

(** ** parsers/tiktok_parser.py *)

Module tiktok_parser.
Section tiktok_parser.
Context `{PyRuntime}.

Definition extract_videos_from_data (data : value) : list value :=
  collected (
    d ← lift (get data "data" (VDict []));
    data_array ← lift (get d "data" (VList []));
    for_in data_array (λ item,
      ty ← lift (get_none item "type");
      if eq_int ty 1 then
        video_item ← lift (get item "item" (VDict []));
        if truthy video_item then append video_item else skip
      else skip)).

Definition extract_hashtags (text : value) : result (list string) :=
  if negb (truthy text) then Ok []
  else findall_in (Re.tagged "#") text.

Definition extract_mentions (text : value) : result (list string) :=
  if negb (truthy text) then Ok []
  else findall_in (Re.tagged "@") text.

Definition extract_challenges (video : value) : result value :=
  challenges_data ← get video "challenges" (VList []);
  l ← iter challenges_data;
  challenges ← mapM (λ challenge,
                       id ← get challenge "id" (VStr "");
                       title ← get challenge "title" (VStr "");
                       desc ← get challenge "desc" (VStr "");
                       cover ← get challenge "coverLarger" (VStr "");
                       is_commerce ← get challenge "isCommerce" (VBool false);
                       Ok (VDict [("id", id); ("title", title); ("desc", desc);
                                  ("cover", cover);
                                  ("is_commerce", is_commerce)])) l;
  Ok (VList challenges).

Definition extract_effects (video : value) : result value :=
  effects_data ← get video "effectStickers" (VList []);
  l ← iter effects_data;
  effects ← mapM (λ effect,
                    id ← get effect "ID" (VStr "");
                    name ← get effect "name" (VStr "");
                    icon ← get effect "iconUrl" (VStr "");
                    owner_id ← get effect "ownerId" (VStr "");
                    owner_username ← get effect "ownerUsername" (VStr "");
                    Ok (VDict [("id", id); ("name", name); ("icon", icon);
                               ("owner_id", owner_id);
                               ("owner_username", owner_username)])) l;
  Ok (VList effects).

Definition positive_words : list string :=
  ["love"; "amazing"; "fun"; "cool"; "awesome"; "great"; "happy"; "good";
   "nice"; "best"].
Definition negative_words : list string :=
  ["bad"; "terrible"; "awful"; "hate"; "angry"; "sad"; "disappointed";
   "worst"; "boring"].

Definition analyze_sentiment (text : value) : result string :=
  if negb (truthy text) then Ok "neutral" else
  text_lower ← lower_of text;
  Ok (polarity (count_hits positive_words text_lower)
               (count_hits negative_words text_lower)).

Definition emotion_keywords : list (string * list string) :=
  [("joy", ["happy"; "joy"; "fun"; "excited"; "amazing"; "wonderful";
            "laugh"]);
   ("love", ["love"; "heart"; "adore"; "crush"; "❤️"; "💕"]);
   ("excitement", ["excited"; "wow"; "amazing"; "incredible"; "awesome";
                   "omg"]);
   ("humor", ["funny"; "lol"; "haha"; "hilarious"; "joke"; "comedy"]);
   ("inspiration", ["inspired"; "motivation"; "goals"; "dream"; "believe"]);
   ("creativity", ["creative"; "art"; "design"; "diy"; "tutorial"]);
   ("energy", ["energy"; "power"; "strong"; "fierce"; "bold"])].

Definition detect_emotions (text : value) : result value :=
  if negb (truthy text) then Ok (VList []) else
  text_lower ← lower_of text;
  Ok (strings (matching emotion_keywords text_lower)).

Definition categories : list (string * list string) :=
  [("dance", ["dance"; "dancing"; "choreography"; "moves"; "dancechallenge"]);
   ("comedy", ["funny"; "comedy"; "joke"; "humor"; "meme"; "viral";
               "hilarious"]);
   ("education", ["tutorial"; "how"; "learn"; "education"; "tips"; "diy";
                  "howto"]);
   ("lifestyle", ["lifestyle"; "daily"; "routine"; "life"; "vlog"; "day"]);
   ("food", ["food"; "cooking"; "recipe"; "eat"; "delicious"; "foodie"]);
   ("fashion", ["fashion"; "outfit"; "style"; "clothing"; "ootd";
                "fashiontok"]);
   ("beauty", ["beauty"; "makeup"; "skincare"; "beautytips"; "cosmetics"]);
   ("fitness", ["fitness"; "workout"; "exercise"; "gym"; "health"; "fit"]);
   ("music", ["music"; "singing"; "song"; "cover"; "musician"; "musictok"]);
   ("pets", ["pet"; "dog"; "cat"; "animal"; "cute"; "petsoftiktok"]);
   ("travel", ["travel"; "trip"; "vacation"; "explore"; "traveltok"]);
   ("gaming", ["gaming"; "game"; "gamer"; "videogames"; "esports"])].

(** [any(keyword in hashtags_lower for keyword in keywords)]: membership in
    the list, not containment in a text. *)
Definition any_member (keywords hashtags_lower : list string) : bool :=
  existsb (λ w, existsb (String.eqb w) hashtags_lower) keywords.

Definition determine_category (desc : value) (hashtags : list string)
  (music_info : value) : result string :=
  text_lower ← lower_of desc;
  let hashtags_lower := map lower hashtags in
  match filter (λ kw, any_member kw.2 hashtags_lower = true) categories with
  | (category, _) :: _ => Ok category
  | [] =>
      match matching categories text_lower with
      | category :: _ => Ok category
      | [] =>
          original ← get music_info "original" (VBool false);
          if truthy original then Ok "music" else Ok "general"
      end
  end.

Definition indonesian_words : list string :=
  ["dan"; "yang"; "untuk"; "dengan"; "dari"; "ini"; "itu"; "tidak"; "ada";
   "saya"].
Definition english_words : list string :=
  ["and"; "the"; "to"; "of"; "a"; "in"; "for"; "is"; "on"; "that"].

Definition detect_language (text : value) : result string :=
  if negb (truthy text) then Ok "unknown" else
  text_lower ← lower_of text;
  Ok (language_of (count_hits indonesian_words text_lower)
                  (count_hits english_words text_lower)).

(** [round((total / max(view_count, 1)) * 100 if view_count > 0 else 0, 2)] *)
Definition engagement_rate (total_engagements view_count : value)
  : result value :=
  viewed ← gt_int view_count 0;
  if (viewed : bool) then
    above_one ← gt_int view_count 1;
    let views := if (above_one : bool) || eq_int view_count 1
                 then view_count else VInt 1 in
    rate ← true_div total_engagements views;
    Ok (VFloat (round2 (Qmult rate (inject_Z 100))))
  else Ok (VInt 0).

(** The body of [create_video_document] inside its [try]. *)
Definition video_document (video : value) : result value :=
  video_id ← get video "id" (VStr "");
  desc ← get video "desc" (VStr "");
  create_time ← get video "createTime" (VInt 0);
  timestamp ←
    match num_of create_time with
    | Some t =>
        positive ← gt_int create_time 0;
        if (positive : bool) then dt ← fromtimestamp t; Ok (isoformat dt)
        else Ok (isoformat now)
    | None => Ok (isoformat now)
    end;
  author ← get video "author" (VDict []);
  author_id ← get author "id" (VStr "");
  username ← get author "uniqueId" (VStr "");
  display_name ← get author "nickname" (VStr "");
  followers_count ← get author "followerCount" (VInt 0);
  following_count ← get author "followingCount" (VInt 0);
  verified ← get author "verified" (VBool false);
  avatar_medium ← get author "avatarMedium" (VStr "");
  profile_image_url ← get author "avatarLarger" avatar_medium;
  signature ← get author "signature" (VStr "");
  is_private ← get author "privateAccount" (VBool false);
  let user_info := VDict [
    ("id", author_id); ("username", username);
    ("display_name", display_name); ("followers_count", followers_count);
    ("following_count", following_count); ("verified", verified);
    ("profile_image_url", profile_image_url); ("signature", signature);
    ("is_private", is_private)] in
  stats ← get video "stats" (VDict []);
  view_count ← get stats "playCount" (VInt 0);
  like_count ← get stats "diggCount" (VInt 0);
  comment_count ← get stats "commentCount" (VInt 0);
  share_count ← get stats "shareCount" (VInt 0);
  download_count ← get stats "downloadCount" (VInt 0);
  collect_count ← get stats "collectCount" (VInt 0);
  let metrics := VDict [
    ("view_count", view_count); ("like_count", like_count);
    ("comment_count", comment_count); ("share_count", share_count);
    ("download_count", download_count); ("collect_count", collect_count)] in
  video_info ← get video "video" (VDict []);
  duration ← get video_info "duration" (VInt 0);
  height ← get video_info "height" (VInt 0);
  width ← get video_info "width" (VInt 0);
  ratio ← get video_info "ratio" (VStr "");
  bitrate ← get video_info "bitrate" (VInt 0);
  format ← get video_info "format" (VStr "");
  quality ← get video_info "videoQuality" (VStr "");
  codec ← get video_info "codecType" (VStr "");
  cover ← get video_info "cover" (VStr "");
  dynamic_cover ← get video_info "dynamicCover" (VStr "");
  play_url ← get video_info "playAddr" (VStr "");
  download_url ← get video_info "downloadAddr" (VStr "");
  let video_data := VDict [
    ("duration", duration); ("height", height); ("width", width);
    ("ratio", ratio); ("bitrate", bitrate); ("format", format);
    ("quality", quality); ("codec", codec); ("cover", cover);
    ("dynamic_cover", dynamic_cover); ("play_url", play_url);
    ("download_url", download_url)] in
  music ← get video "music" (VDict []);
  music_id ← get music "id" (VStr "");
  music_title ← get music "title" (VStr "");
  music_author ← get music "authorName" (VStr "");
  original ← get music "original" (VBool false);
  music_duration ← get music "duration" (VInt 0);
  music_play_url ← get music "playUrl" (VStr "");
  cover_medium ← get music "coverMedium" (VStr "");
  music_cover ← get music "coverLarge" cover_medium;
  let music_info := VDict [
    ("id", music_id); ("title", music_title); ("author", music_author);
    ("original", original); ("duration", music_duration);
    ("play_url", music_play_url); ("cover", music_cover)] in
  hashtags ← extract_hashtags desc;
  mentions ← extract_mentions desc;
  challenges ← extract_challenges video;
  effects ← extract_effects video;
  sentiment ← analyze_sentiment desc;
  emotions ← detect_emotions desc;
  category ← determine_category desc hashtags music_info;
  partial ← add like_count comment_count;
  total_engagements ← add partial share_count;
  rate ← engagement_rate total_engagements view_count;
  language ← detect_language desc;
  is_ad ← get video "isAd" (VBool false);
  duet_enabled ← get video "duetEnabled" (VBool true);
  stitch_enabled ← get video "stitchEnabled" (VBool true);
  comment_disabled ← get video "commentDisabled" (VBool false);
  Ok (VDict [
    ("_index", VStr "social_media_posts");
    ("_id", VStr ("tiktok_" +:+ str video_id));
    ("_score", VFloat 1);
    ("_source", VDict [
      ("platform", VStr "tiktok");
      ("platform_id", video_id);
      ("content", desc);
      ("author", user_info);
      ("timestamp", VStr timestamp);
      ("created_time", create_time);
      ("metrics", metrics);
      ("video_data", video_data);
      ("music_info", music_info);
      ("hashtags", strings hashtags);
      ("mentions", strings mentions);
      ("challenges", challenges);
      ("effects", effects);
      ("sentiment", VStr sentiment);
      ("emotions", emotions);
      ("category", VStr category);
      ("engagement_rate", rate);
      ("language", VStr language);
      ("is_ad", is_ad);
      ("duet_enabled", duet_enabled);
      ("stitch_enabled", stitch_enabled);
      ("comment_enabled", VBool (negb (truthy comment_disabled)));
      ("analyzed_at", VStr (isoformat now));
      ("raw_data", video)])]).

Definition create_video_document (video : value) : option value :=
  try_or_none (video_document video).

Definition parse_tiktok_json (data : value) : list value :=
  omap (λ video,
          match create_video_document video with
          | Some doc => if truthy doc then Some doc else None
          | None => None
          end)
       (extract_videos_from_data data).

End tiktok_parser.
End tiktok_parser.

(** ** parsers/instagram_parser.py *)

Module instagram_parser.
Section instagram_parser.
Context `{PyRuntime}.

Definition extract_media_from_grid (data : value) : list value :=
  collected (
    d ← lift (get data "data" (VDict []));
    media_grid ← lift (get d "media_grid" (VDict []));
    sections ← lift (get media_grid "sections" (VList []));
    for_in sections (λ section,
      layout_content ← lift (get section "layout_content" (VDict []));
      one_by_two ← lift (str_in "one_by_two_item" layout_content);
      if (one_by_two : bool) then
        item0 ← lift (subscript layout_content "one_by_two_item");
        clips ← lift (get item0 "clips" (VDict []));
        items ← lift (get clips "items" (VList []));
        for_in items (λ item,
          media ← lift (get item "media" (VDict []));
          if truthy media then append media else skip)
      else
        two_by_two ← lift (str_in "two_by_two_items" layout_content);
        if (two_by_two : bool) then
          items ← lift (subscript layout_content "two_by_two_items");
          for_in items (λ item,
            media ← lift (get item "media" (VDict []));
            if truthy media then append media else skip)
        else
          has_medias ← lift (str_in "medias" layout_content);
          if (has_medias : bool) then
            medias ← lift (subscript layout_content "medias");
            for_in medias append
          else skip)).

Definition is_dict (v : value) : bool :=
  match v with VDict _ => true | _ => false end.

Definition extract_caption (media : value) : result value :=
  has_caption ← str_in "caption" media;
  if (has_caption : bool) then
    caption_obj ← subscript media "caption";
    if is_dict caption_obj then get caption_obj "text" (VStr "")
    else Ok (VStr (if truthy caption_obj then str caption_obj else ""))
  else
    has_edge ← str_in "edge_media_to_caption" media;
    if (has_edge : bool) then
      edge ← subscript media "edge_media_to_caption";
      edges ← get edge "edges" (VList []);
      if truthy edges then
        e0 ← first edges;
        node ← get e0 "node" (VDict []);
        get node "text" (VStr "")
      else Ok (VStr "")
    else
      has_accessibility ← str_in "accessibility_caption" media;
      if (has_accessibility : bool) then subscript media "accessibility_caption"
      else Ok (VStr "").

Definition determine_media_type (media : value) : result string :=
  video_duration ← get_none media "video_duration";
  is_video ← (if truthy video_duration then Ok true else
              flag ← get_none media "is_video";
              if truthy flag then Ok true else str_in "video_url" media);
  if (is_video : bool) then Ok "video" else
  media_type ← get_none media "media_type";
  if eq_int media_type 1 then Ok "image" else
  if eq_int media_type 2 then Ok "video" else
  if eq_int media_type 8 then Ok "carousel" else
  typename ← get media "__typename" (VStr "");
  is_video_type ← str_in "Video" typename;
  if (is_video_type : bool) then Ok "video" else
  is_image_type ← str_in "Image" typename;
  if (is_image_type : bool) then Ok "image" else
  if contains "clips" (lower (str media)) then Ok "clips" else Ok "image".

Definition extract_media_urls (media : value) : result value :=
  has_images ← str_in "image_versions2" media;
  urls ←
    (if (has_images : bool) then
       versions ← subscript media "image_versions2";
       candidates ← get versions "candidates" (VList []);
       l ← iter candidates;
       mapM (λ candidate,
               url ← get candidate "url" (VStr "");
               width ← get candidate "width" (VInt 0);
               height ← get candidate "height" (VInt 0);
               Ok (VDict [("type", VStr "image"); ("url", url);
                          ("width", width); ("height", height)])) l
     else Ok []);
  has_videos ← str_in "video_versions" media;
  if (has_videos : bool) then
    versions ← subscript media "video_versions";
    l ← iter versions;
    videos ← mapM (λ version,
                     url ← get version "url" (VStr "");
                     width ← get version "width" (VInt 0);
                     height ← get version "height" (VInt 0);
                     type_name ← get version "type" (VStr "");
                     Ok (VDict [("type", VStr "video"); ("url", url);
                                ("width", width); ("height", height);
                                ("type_name", type_name)])) l;
    Ok (VList (urls ++ videos))
  else
    has_display ← str_in "display_url" media;
    if (has_display : bool) then
      url ← subscript media "display_url";
      dimensions ← get media "dimensions" (VDict []);
      width ← get dimensions "width" (VInt 0);
      dimensions' ← get media "dimensions" (VDict []);
      height ← get dimensions' "height" (VInt 0);
      Ok (VList (urls ++ [VDict [("type", VStr "image"); ("url", url);
                                 ("width", width); ("height", height)]]))
    else Ok (VList urls).

Definition extract_hashtags (text : value) : result value :=
  if negb (truthy text) then Ok (VList [])
  else hashtags ← findall_in (Re.tagged "#") text; Ok (strings hashtags).

Definition extract_mentions (text : value) : result value :=
  if negb (truthy text) then Ok (VList [])
  else mentions ← findall_in (Re.tagged "@") text; Ok (strings mentions).

Definition extract_location (media : value) : result value :=
  has_location ← str_in "location" media;
  located ← (if (has_location : bool) then
               loc ← subscript media "location"; Ok (truthy loc)
             else Ok false);
  if (located : bool) then
    loc ← subscript media "location";
    id ← get loc "pk" (VStr "");
    name ← get loc "name" (VStr "");
    short_name ← get loc "short_name" (VStr "");
    address ← get loc "address" (VStr "");
    city ← get loc "city" (VStr "");
    lng ← get_none loc "lng";
    lat ← get_none loc "lat";
    Ok (VDict [("id", id); ("name", name); ("short_name", short_name);
               ("address", address); ("city", city); ("lng", lng);
               ("lat", lat)])
  else
    has_lng ← str_in "lng" media;
    both ← (if (has_lng : bool) then str_in "lat" media else Ok false);
    if (both : bool) then
      lng ← subscript media "lng";
      lat ← subscript media "lat";
      Ok (VDict [("lng", lng); ("lat", lat)])
    else Ok (VDict []).

Definition positive_words : list string :=
  ["love"; "amazing"; "beautiful"; "perfect"; "awesome"; "great"; "happy";
   "good"].
Definition negative_words : list string :=
  ["bad"; "terrible"; "awful"; "hate"; "angry"; "sad"; "disappointed";
   "worst"].

Definition analyze_sentiment (text : value) : result string :=
  if negb (truthy text) then Ok "neutral" else
  text_lower ← lower_of text;
  Ok (polarity (count_hits positive_words text_lower)
               (count_hits negative_words text_lower)).

Definition emotion_keywords : list (string * list string) :=
  [("joy", ["happy"; "joy"; "excited"; "amazing"; "wonderful"; "love"]);
   ("love", ["love"; "heart"; "adore"; "crush"; "‚ù§Ô∏è"; "üíï"; "üíñ"]);
   ("excitement", ["excited"; "wow"; "amazing"; "incredible"; "awesome"]);
   ("gratitude", ["thank"; "grateful"; "blessed"; "appreciate"]);
   ("inspiration", ["inspired"; "motivation"; "goals"; "dream"])].

Definition detect_emotions (text : value) : result value :=
  if negb (truthy text) then Ok (VList []) else
  text_lower ← lower_of text;
  Ok (strings (matching emotion_keywords text_lower)).

(** The body of [create_media_document] inside its [try]. *)
Definition media_document (media : value) : result value :=
  pk ← get media "pk" (VStr "");
  media_id ← get media "id" pk;
  media_code ← get media "code" (VStr "");
  caption ← extract_caption media;
  user ← get media "user" (VDict []);
  user ← (if negb (truthy user) then get media "owner" (VDict [])
          else Ok user);
  user_id ← get user "id" (VStr "");
  user_pk ← get user "pk" user_id;
  username ← get user "username" (VStr "");
  name ← get user "name" (VStr "");
  display_name ← get user "full_name" name;
  followers_count ← get user "follower_count" (VInt 0);
  following_count ← get user "following_count" (VInt 0);
  verified ← get user "is_verified" (VBool false);
  profile_image_url ← get user "profile_pic_url" (VStr "");
  is_private ← get user "is_private" (VBool false);
  is_business ← get user "is_business_account" (VBool false);
  biography ← get user "biography" (VStr "");
  let user_info := VDict [
    ("id", VStr (str user_pk)); ("username", username);
    ("display_name", display_name); ("followers_count", followers_count);
    ("following_count", following_count); ("verified", verified);
    ("profile_image_url", profile_image_url); ("is_private", is_private);
    ("is_business", is_business); ("biography", biography)] in
  device_timestamp ← get media "device_timestamp" (VInt 0);
  taken_at ← get media "taken_at" device_timestamp;
  timestamp ←
    match num_of taken_at with
    | Some t => dt ← fromtimestamp t; Ok (isoformat dt)
    | None => Ok (isoformat now)
    end;
  like_count ← get media "like_count" (VInt 0);
  comment_count ← get media "comment_count" (VInt 0);
  play_count ← get media "play_count" (VInt 0);
  repost_count ← get media "media_repost_count" (VInt 0);
  share_count ← get media "reshare_count" (VInt 0);
  let metrics := VDict [
    ("like_count", like_count); ("comment_count", comment_count);
    ("play_count", play_count); ("repost_count", repost_count);
    ("share_count", share_count)] in
  media_type ← determine_media_type media;
  media_urls ← extract_media_urls media;
  hashtags ← extract_hashtags caption;
  mentions ← extract_mentions caption;
  location ← extract_location media;
  let is_video := existsb (String.eqb media_type) ["clips"; "video"; "reel"] in
  video_data ←
    (if is_video then
       duration ← get media "video_duration" (VInt 0);
       view_count ← get media "view_count" (VInt 0);
       play_count' ← get media "play_count" (VInt 0);
       has_audio ← get media "has_audio" (VBool true);
       Ok (VDict [("duration", duration); ("view_count", view_count);
                  ("play_count", play_count'); ("has_audio", has_audio)])
     else Ok (VDict []));
  sentiment ← analyze_sentiment caption;
  emotions ← detect_emotions caption;
  has_liked ← get media "has_liked" (VBool false);
  can_see_insights ← get media "can_see_insights_as_brand" (VBool false);
  filter_type ← get media "filter_type" (VInt 0);
  lng ← get_none media "lng";
  lat ← get_none media "lat";
  Ok (VDict [
    ("platform", VStr "instagram");
    ("platform_id", VStr (str media_id));
    ("content", caption);
    ("author", user_info);
    ("timestamp", VStr timestamp);
    ("metrics", metrics);
    ("hashtags", hashtags);
    ("mentions", mentions);
    ("media_type", VStr media_type);
    ("media_urls", media_urls);
    ("is_video", VBool is_video);
    ("video_data", video_data);
    ("location", location);
    ("sentiment", VStr sentiment);
    ("emotions", emotions);
    ("has_liked", has_liked);
    ("can_see_insights_as_brand", can_see_insights);
    ("code", media_code);
    ("filter_type", filter_type);
    ("lng", lng);
    ("lat", lat);
    ("analyzed_at", VStr (isoformat now));
    ("raw_data", media)]).

Definition create_media_document (media : value) : option value :=
  try_or_none (media_document media).

Definition parse_instagram_json (data : value) : list value :=
  omap (λ media,
          match create_media_document media with
          | Some doc => if truthy doc then Some doc else None
          | None => None
          end)
       (extract_media_from_grid data).

End instagram_parser.
End instagram_parser.

(** ** parse_all.py *)

(** The files the façade reads. *)
Class FileSystem : Type := {
  (** [os.path.exists(path)] *)
  path_exists : string → bool;
  (** [json.load(open(path))] *)
  json_load : string → result value
}.

Module parse_all.
Section parse_all.
Context `{PyRuntime} `{FileSystem}.

(** [SocialMediaParser.__init__]: the registry, in insertion order. *)
Definition parsers : list (string * (value → list value)) :=
  [("twitter", twitter_parser.parse_twitter_json);
   ("instagram", instagram_parser.parse_instagram_json);
   ("tiktok", tiktok_parser.parse_tiktok_json);
   ("facebook", facebook_parser.parse_facebook_json);
   ("youtube", youtube_parser.parse_youtube_json)].

Definition parse_platform_data (platform : string) (data : value)
  : result (list value) :=
  match assoc platform parsers with
  | Some parser_func => Ok (parser_func data)
  | None => Raise ValueError
  end.

(** [os.path.basename(path)]: what follows the last slash. *)
Definition basename (path : string) : string :=
  List.last (split "/" path) "".

Definition parse_file (file_path : string) (platform : option string)
  : result (list value) :=
  platform ←
    match platform with
    | Some p => Ok p
    | None =>
        let filename := lower (basename file_path) in
        match filter (λ name, contains name filename = true) (keys parsers) with
        | platform_name :: _ => Ok platform_name
        | [] => Raise ValueError
        end
    end;
  data ← json_load file_path;
  parse_platform_data platform data.

Definition example_files : list (string * string) :=
  [("twitter", "twitter.json"); ("instagram", "instagram.json");
   ("tiktok", "tiktok.json"); ("facebook", "facebook.json");
   ("youtube", "youtube.json")].

Definition parse_all_examples (examples_dir : string)
  : list (string * list value) :=
  fold_left
    (λ results pf,
       let '(platform, filename) := (pf : string * string) in
       let file_path := examples_dir +:+ "/" +:+ filename in
       if path_exists file_path
       then assoc_set platform
              (try_except (parse_file file_path (Some platform)) []) results
       else assoc_set platform [] results)
    example_files [].

(** Keys of the two tallies: any hashable value, compared with [==]. *)
Definition hashable (v : value) : bool :=
  match v with VList _ | VDict _ => false | _ => true end.

Definition key_eqb (a b : value) : bool :=
  match a, b with
  | VNone, VNone => true
  | VStr s, VStr t => String.eqb s t
  | _, _ =>
      match num_of a, num_of b with
      | Some x, Some y => Qeq_bool (num_Q x) (num_Q y)
      | _, _ => false
      end
  end.

Definition tally : Type := list (value * Z).

Fixpoint count_of (k : value) (t : tally) : Z :=
  match t with
  | [] => 0
  | (k', n) :: r => if key_eqb k k' then n else count_of k r
  end.

Fixpoint set_count (k : value) (n : Z) (t : tally) : tally :=
  match t with
  | [] => [(k, n)]
  | (k', n') :: r =>
      if key_eqb k k' then (k', n) :: r else (k', n') :: set_count k n r
  end.

(** [t[k] = t.get(k, 0) + 1] *)
Definition bump (k : value) (t : tally) : result tally :=
  if hashable k then Ok (set_count k (count_of k t + 1) t)
  else Raise TypeError.

Record platform_stat : Type := mk_stat {
  document_count : Z;
  sentiment_breakdown : tally;
  language_breakdown : tally;
  total_engagement : value;
  avg_engagement : value
}.

Record report : Type := mk_report {
  generated_at : string;
  total_documents : Z;
  platforms : list (string * platform_stat);
  most_active_platform : option string;
  summary_total_engagement : value;
  platforms_processed : Z
}.

(** The counters a platform adds to its engagement, [None] for a platform
    outside the five branches. *)
Definition engagement (platform : string) (metrics : value)
  : result (option value) :=
  let two (a b : string) :=
    x ← get metrics a (VInt 0); y ← get metrics b (VInt 0);
    e ← add x y; Ok (Some e) in
  if String.eqb platform "twitter" then two "like_count" "retweet_count"
  else if String.eqb platform "instagram" then two "like_count" "comment_count"
  else if String.eqb platform "tiktok" then two "like_count" "share_count"
  else if String.eqb platform "facebook"
       then two "reactions_count" "comments_count"
  else if String.eqb platform "youtube"
       then x ← get metrics "view_count" (VInt 0); Ok (Some x)
  else Ok None.

(** One turn of [for doc in documents]. *)
Definition tally_document (platform : string)
  (acc : tally * tally * value) (doc : value)
  : result (tally * tally * value) :=
  let '(sentiments, languages, total_engagement) := acc in
  source ← get doc "_source" (VDict []);
  sentiment ← get source "sentiment" (VStr "neutral");
  sentiments ← bump sentiment sentiments;
  lang ← get source "language" (VStr "unknown");
  languages ← bump lang languages;
  metrics ← get source "metrics" (VDict []);
  e ← engagement platform metrics;
  total_engagement ←
    match e with
    | Some x => add total_engagement x
    | None => Ok total_engagement
    end;
  Ok (sentiments, languages, total_engagement).

Fixpoint tally_documents (platform : string) (acc : tally * tally * value)
  (documents : list value) : result (tally * tally * value) :=
  match documents with
  | [] => Ok acc
  | doc :: r =>
      acc' ← tally_document platform acc doc;
      tally_documents platform acc' r
  end.

Definition empty_sentiments : tally :=
  [(VStr "positive", 0); (VStr "negative", 0); (VStr "neutral", 0)].

Definition platform_stats_of (platform : string) (documents : list value)
  : result platform_stat :=
  match documents with
  | _ :: _ =>
      '(sentiments, languages, total_engagement) ←
        tally_documents platform (empty_sentiments, [], VInt 0) documents;
      avg ← true_div total_engagement (VInt (Z.of_nat (length documents)));
      Ok (mk_stat (Z.of_nat (length documents)) sentiments languages
            total_engagement (VFloat (round2 avg)))
  | [] => Ok (mk_stat 0 empty_sentiments [] (VInt 0) (VInt 0))
  end.

(** [max(keys, key=count)]: a later key replaces the best one only when
    its count is greater. *)
Fixpoint max_from (best : string) (best_count : Z)
  (rest : list (string * platform_stat)) : string :=
  match rest with
  | [] => best
  | (p, st) :: r =>
      if best_count <? document_count st
      then max_from p (document_count st) r
      else max_from best best_count r
  end.

Definition most_active (stats : list (string * platform_stat))
  : option string :=
  match stats with
  | [] => None
  | (p, st) :: r => Some (max_from p (document_count st) r)
  end.

Fixpoint all_stats (results : list (string * list value))
  (platform_stats : list (string * platform_stat))
  : result (list (string * platform_stat)) :=
  match results with
  | [] => Ok platform_stats
  | (platform, documents) :: r =>
      st ← platform_stats_of platform documents;
      all_stats r (assoc_set platform st platform_stats)
  end.

Definition generate_summary_report (results : list (string * list value))
  : result report :=
  let total_documents :=
    fold_left Z.add (map (λ pd, Z.of_nat (length pd.2)) results) 0 in
  platform_stats ← all_stats results [];
  total ← sum (map (λ ps, total_engagement ps.2) platform_stats);
  Ok (mk_report (isoformat now) total_documents platform_stats
        (most_active platform_stats) total
        (Z.of_nat (length (filter (λ ps, 0 < document_count ps.2)
                             platform_stats)))).

End parse_all.
End parse_all.

(** ** main.py *)

(** The five services behind the endpoints: what a search returns for a
    keyword, or the exception it raises.  All five methods are plain
    functions that return the decoded JSON of the reply. *)
Class Services : Type := {
  (** [facebook_service.search_posts(keyword)] *)
  facebook_search_posts : string → result value;
  (** [instagram_service.search(keyword)] *)
  instagram_search : string → result value;
  (** [twitter_service.search(keyword)] *)
  twitter_search : string → result value;
  (** [youtube_service.search(keyword)] *)
  youtube_search : string → result value;
  (** [tiktok_service.search_general(keyword)] *)
  tiktok_search_general : string → result value
}.

Module main.

(** What a handler gives back: the response model, or the [HTTPException]
    it raises, of which the status code is kept. *)
Inductive answer : Type :=
| APIResponse (status message : string) (data : value)
| HTTPException (status_code : Z).

(** How the body of a handler ends: it returns, or it raises a Python
    exception or an [HTTPException]. *)
Inductive outcome (A : Type) : Type :=
| Returned (a : A)
| Raised (e : exn)
| RaisedHTTP (status_code : Z).
Arguments Returned {A} a.
Arguments Raised {A} e.
Arguments RaisedHTTP {A} status_code.

Definition bind {A B} (f : A → outcome B) (m : outcome A) : outcome B :=
  match m with
  | Returned a => f a
  | Raised e => Raised e
  | RaisedHTTP c => RaisedHTTP c
  end.

#[export] Instance outcome_ret : MRet outcome := @Returned.
#[export] Instance outcome_bind : MBind outcome := @bind.

Definition py {A} (r : result A) : outcome A :=
  match r with Ok a => Returned a | Raise e => Raised e end.

(** [try: body except Exception as e: raise HTTPException(status_code=500,
    detail=str(e))]; an [HTTPException] is an [Exception] too. *)
Definition guarded (body : outcome answer) : answer :=
  match body with
  | Returned a => a
  | Raised _ | RaisedHTTP _ => HTTPException 500
  end.

(** [await call(...)] where [call] is a plain function: the call is made,
    and what it returns, a decoded JSON value, cannot be awaited. *)
Definition await_plain (call : result value) : outcome value :=
  _ ← py call; Raised TypeError.

(** [await loop.run_in_executor(None, call, ...)]: what the call returns or
    raises. *)
Definition await_in_executor (call : result value) : outcome value := py call.

(** [d[k] = v] *)
Definition set_item (d : value) (k : string) (v : value) : result value :=
  match d with
  | VDict kvs => Ok (VDict (assoc_set k v kvs))
  | _ => Raise TypeError
  end.

(** [doc['_source']['source_socmed'] = source_socmed]; the document keeps
    the dictionary that has been changed. *)
Definition tag_document (source_socmed : string) (doc : value)
  : result value :=
  source ← subscript doc "_source";
  source ← set_item source "source_socmed" (VStr source_socmed);
  set_item doc "_source" source.

(** [for doc in parsed_documents: doc['_source']['source_socmed'] = ...] *)
Definition tag_documents (source_socmed : string) (parsed_documents : list value)
  : result (list value) :=
  mapM (tag_document source_socmed) parsed_documents.

Definition len (l : list value) : value := VInt (Z.of_nat (length l)).

Definition upper_char (c : ascii) : ascii :=
  let n := N_of_ascii c in
  if ((97 <=? n) && (n <=? 122))%N then ascii_of_N (n - 32) else c.

(** [s.capitalize()] *)
Definition capitalize (s : string) : string :=
  match s with
  | "" => ""
  | String c r => String (upper_char c) (lower r)
  end.

Section main.
Context `{PyRuntime} `{Services}.

(** The common end of the five search handlers. *)
Definition search_response (message : string) (result : value)
  (parsed_documents : list value) : answer :=
  APIResponse "success" message
    (VDict [("raw_data", result);
            ("parsed_documents", VList parsed_documents);
            ("total_documents", len parsed_documents)]).

Definition get_facebook_page_get (keyword : string) : answer :=
  guarded (
    result ← await_in_executor (facebook_search_posts keyword);
    let parsed_documents := facebook_parser.parse_facebook_json result in
    parsed_documents ← py (tag_documents "facebook" parsed_documents);
    Returned (search_response "Facebook search results retrieved and parsed"
                result parsed_documents)).

Definition get_instagram_user_get (keyword : string) : answer :=
  guarded (
    result ← await_plain (instagram_search keyword);
    let parsed_documents := instagram_parser.parse_instagram_json result in
    parsed_documents ← py (tag_documents "instagram" parsed_documents);
    Returned (search_response "Instagram search results retrieved and parsed"
                result parsed_documents)).

Definition get_twitter_trending_get (keyword : string) : answer :=
  guarded (
    result ← await_plain (twitter_search keyword);
    let parsed_documents := twitter_parser.parse_twitter_json result in
    parsed_documents ← py (tag_documents "twitter" parsed_documents);
    Returned (search_response "Twitter trending topics retrieved and parsed"
                result parsed_documents)).

Definition get_youtube_video_get (keyword : string) : answer :=
  guarded (
    result ← await_plain (youtube_search keyword);
    let parsed_documents := youtube_parser.parse_youtube_json result in
    parsed_documents ← py (tag_documents "youtube" parsed_documents);
    Returned (search_response "YouTube video details retrieved and parsed"
                result parsed_documents)).

Definition get_tiktok_trending (keyword : string) : answer :=
  guarded (
    result ← await_plain (tiktok_search_general keyword);
    let parsed_documents := tiktok_parser.parse_tiktok_json result in
    parsed_documents ← py (tag_documents "tiktok" parsed_documents);
    Returned (search_response "TikTok trending content retrieved and parsed"
                result parsed_documents)).

Definition get_parsed_data (platform keyword : string) : answer :=
  guarded (
    let platform := lower platform in
    '(parsed_documents, source_socmed) ←
      (if String.eqb platform "facebook" then
         result ← await_in_executor (facebook_search_posts keyword);
         Returned (facebook_parser.parse_facebook_json result, "facebook")
       else if String.eqb platform "instagram" then
         result ← await_plain (instagram_search keyword);
         Returned (instagram_parser.parse_instagram_json result, "instagram")
       else if String.eqb platform "twitter" then
         result ← await_plain (twitter_search keyword);
         Returned (twitter_parser.parse_twitter_json result, "twitter")
       else if String.eqb platform "youtube" then
         result ← await_plain (youtube_search keyword);
         Returned (youtube_parser.parse_youtube_json result, "youtube")
       else if String.eqb platform "tiktok" then
         result ← await_plain (tiktok_search_general keyword);
         Returned (tiktok_parser.parse_tiktok_json result, "tiktok")
       else RaisedHTTP 400);
    parsed_documents ← py (tag_documents source_socmed parsed_documents);
    Returned (APIResponse "success"
                (capitalize platform
                   +:+ " search results parsed successfully")
                (VDict [("platform", VStr platform);
                        ("source_socmed", VStr source_socmed);
                        ("documents", VList parsed_documents);
                        ("total_documents", len parsed_documents);
                        ("search_keyword", VStr keyword)]))).

End main.
End main.

(** ** Sample inputs *)

Module Samples.

(** A host in UTC whose clock reads 2024-05-17T10:30:00.123456; no timestamp
    parses, and sorting with keys of mixed types is refused. *)
Definition runtime : PyRuntime := {|
  now := mk_datetime 2024 5 17 10 30 0 123456 None;
  utc_offset := 0;
  float_str := λ _, "0.0";
  strptime := λ _ _, Raise ValueError;
  sorted_reverse := λ _, Raise TypeError |}.

(** No file exists. *)
Definition no_files : FileSystem := {|
  path_exists := λ _, false;
  json_load := λ _, Raise OSError |}.

Definition timeline_entry (tweet : value) : value :=
  VDict [("content", VDict [
    ("entryType", VStr "TimelineTimelineItem");
    ("itemContent", VDict [
      ("itemType", VStr "TimelineTweet");
      ("tweet_results", VDict [("result", tweet)])])])].

Definition timeline (tweets : list value) : value :=
  VDict [("data", VDict [("result", VDict [("timeline", VDict [
    ("instructions", VList [VDict [
      ("type", VStr "TimelineAddEntries");
      ("entries", VList (map timeline_entry tweets))]])])])])].

(** A tweet in French. *)
Definition tweet_fr : value :=
  VDict [("rest_id", VStr "17");
         ("legacy", VDict [("full_text", VStr "Bonjour tout le monde");
                           ("lang", VStr "fr")])].

(** A tweet without [rest_id]. *)
Definition tweet_without_id : value :=
  VDict [("legacy", VDict [("full_text", VStr "I love this")])].

Definition tweet_en : value :=
  VDict [("rest_id", VStr "18");
         ("legacy", VDict [("full_text", VStr "so happy today");
                           ("lang", VStr "en")])].

Definition facebook_post : value :=
  VDict [("type", VStr "post"); ("post_id", VStr "p1");
         ("message", VStr "A great day with the team #Win @bob");
         ("reactions", VDict [("love", VInt 40); ("like", VInt 60)]);
         ("reactions_count", VInt 100); ("comments_count", VInt 7)].

Definition facebook_data : value :=
  VDict [("data", VDict [("results", VList [facebook_post])])].

Definition youtube_video : value :=
  VDict [("videoId", VStr "abc"); ("title", VStr "Amazing Video");
         ("descriptionSnippet", VStr "learn #Coq with @me");
         ("lengthSeconds", VInt 125);
         ("publishedTimeText", VStr "3 days ago");
         ("stats", VDict [("views", VInt 900)])].

Definition youtube_data : value :=
  VDict [("data", VDict [("contents", VList [
    VDict [("type", VStr "video"); ("video", youtube_video)]])])].

Definition tiktok_video : value :=
  VDict [("id", VStr "v9"); ("desc", VStr "so fun #Dance @amy");
         ("stats", VDict [("playCount", VInt 200); ("diggCount", VInt 30);
                          ("shareCount", VInt 3)])].

Definition tiktok_data : value :=
  VDict [("data", VDict [("data", VList [
    VDict [("type", VInt 1); ("item", tiktok_video)]])])].

(** A media item without [taken_at] and [device_timestamp]. *)
Definition instagram_media : value :=
  VDict [("id", VInt 77); ("caption", VDict [("text", VStr "Blessed #sun")]);
         ("like_count", VInt 5)].

Definition instagram_data : value :=
  VDict [("data", VDict [("media_grid", VDict [("sections", VList [
    VDict [("layout_content", VDict [("medias", VList [instagram_media])])]])])])].

End Samples.

(** * The vocabulary of the properties *)

Definition envelope_keys : list string := ["_index"; "_id"; "_score"; "_source"].

(** The fields of the canonical document that every parser fills in. *)
Definition canonical_fields : list string :=
  ["platform"; "platform_id"; "content"; "author"; "timestamp"; "metrics";
   "hashtags"; "mentions"; "sentiment"; "emotions"; "raw_data"].

(** [has_fields fields kvs]: every field is a key of the dictionary. *)
Definition has_fields (fields : list string) (kvs : list (string * value))
  : Prop :=
  Forall (λ k, is_Some (assoc k kvs)) fields.

(** [lacks_fields fields kvs]: no field is a key of the dictionary. *)
Definition lacks_fields (fields : list string) (kvs : list (string * value))
  : Prop :=
  Forall (λ k, assoc k kvs = None) fields.

(** A document wrapped in the search-index envelope. *)
Definition enveloped (platform : string) (doc : value) : Prop :=
  ∃ kvs src,
    doc = VDict kvs ∧ keys kvs = envelope_keys ∧
    assoc "_source" kvs = Some (VDict src) ∧
    has_fields canonical_fields src ∧
    assoc "platform" src = Some (VStr platform).

(** A document with its fields at the top level and no envelope key. *)
Definition flat (platform : string) (doc : value) : Prop :=
  ∃ kvs,
    doc = VDict kvs ∧ has_fields canonical_fields kvs ∧
    lacks_fields envelope_keys kvs ∧
    assoc "platform" kvs = Some (VStr platform).

(** A field of a document, read under [_source] when the document is
    wrapped and at the top level otherwise. *)
Definition field (doc : value) (k : string) : option value :=
  match doc with
  | VDict kvs =>
      match assoc "_source" kvs with
      | Some (VDict src) => assoc k src
      | _ => assoc k kvs
      end
  | _ => None
  end.

(** The tweet is a dictionary whose [rest_id] is absent or the empty
    string. *)
Definition rest_id_missing_or_empty (tweet : value) : Prop :=
  ∃ kvs, tweet = VDict kvs ∧
         (assoc "rest_id" kvs = None ∨ assoc "rest_id" kvs = Some (VStr "")).



(** The reactions of the scenario: 40 love, 60 like. *)
Definition love_40_like_60 : value :=
  VDict [("love", VInt 40); ("like", VInt 60)].

(** Two decimal digits. *)
Definition two_digits (n : Z) : string :=
  String (digit (n / 10)) (String (digit (n mod 10)) "").

(** The hours: two digits, more when two do not suffice. *)
Definition hours_field (h : Z) : string :=
  if h <? 10 then two_digits h else decimal h.

(** [MM:SS] below one hour, [HH:MM:SS] from one hour on. *)
Definition duration_layout (s : Z) : string :=
  if s <? 3600
  then two_digits (s / 60) +:+ ":" +:+ two_digits (s mod 60)
  else hours_field (s / 3600) +:+ ":" +:+ two_digits (s mod 3600 / 60)
       +:+ ":" +:+ two_digits (s mod 60).

Definition language_tags : list string := ["en"; "id"; "mixed"; "unknown"].

(** Keywords found anywhere in the text. *)
Definition substring_hits (words : list string) (text : string) : Z :=
  count_hits words text.

(** Keywords found as words of their own, between blanks or at an end of
    the text. *)
Definition word_hits (words : list string) (text : string) : Z :=
  count_hits (map facebook_parser.padded words) (facebook_parser.padded text).

(** The guess by two word lists: [unknown] for an empty content, else the
    list with more hits, [mixed] on a tie. *)
Definition language_guess (hits : list string → string → Z)
  (indonesian english : list string) (content : value) (language : string)
  : Prop :=
  language ∈ language_tags ∧
  (truthy content = false ∨ ∃ s, content = VStr s) ∧
  (truthy content = false → language = "unknown") ∧
  (∀ s, content = VStr s → s ≠ "" →
        let i := hits indonesian (lower s) in
        let e := hits english (lower s) in
        (e < i → language = "id") ∧ (i < e → language = "en") ∧
        (i = e → language = "mixed")).

(** The documents a parser returns for a platform. *)
Definition parsed `{PyRuntime} (platform : string) (data : value)
  : list value :=
  match assoc platform parse_all.parsers with
  | Some parser_func => parser_func data
  | None => []
  end.

(** The claim of the spec: every document has a language tag of the four. *)
Definition language_is_tagged (doc : value) : Prop :=
  ∃ language, field doc "language" = Some (VStr language) ∧
              language ∈ language_tags.

(** The registry's platforms in insertion order. *)
Definition registry : list string :=
  ["twitter"; "instagram"; "tiktok"; "facebook"; "youtube"].

(** The documents of a platform in a batch result. *)
Definition documents_of (results : list (string * list value)) (p : string)
  : list value :=
  default [] (assoc p results).

(** [p] has the most documents, and every platform before it in the batch
    result has fewer. *)
Definition earliest_largest (results : list (string * list value))
  (p : string) : Prop :=
  ∃ before docs after,
    results = before ++ (p, docs) :: after ∧
    Forall (λ x, (length x.2 < length docs)%nat) before ∧
    Forall (λ x, (length x.2 ≤ length docs)%nat) after.

(** The claim of the spec: [p] has the most documents, and every platform
    of the batch result that the registry lists before [p] has fewer. *)
Definition largest_first_in_registry (results : list (string * list value))
  (p : string) : Prop :=
  ∃ before after,
    registry = before ++ p :: after ∧ p ∈ keys results ∧
    (∀ q, q ∈ keys results →
          (length (documents_of results q) ≤ length (documents_of results p))%nat) ∧
    (∀ q, q ∈ before → q ∈ keys results →
          (length (documents_of results q) < length (documents_of results p))%nat).

(** The statistics follow the batch result, platform by platform. *)
Definition follows (pd : string * list value)
  (ps : string * parse_all.platform_stat)
  : Prop :=
  ps.1 = pd.1 ∧ parse_all.document_count ps.2 = Z.of_nat (length pd.2).

(** A batch result that lists youtube before twitter, with the one document
    each parser returns for its sample. *)
Definition youtube_then_twitter : list (string * list value) :=
  [("youtube",
    youtube_parser.parse_youtube_json (H := Samples.runtime)
      Samples.youtube_data);
   ("twitter",
    twitter_parser.parse_twitter_json (H := Samples.runtime)
      (Samples.timeline [Samples.tweet_en]))].

(** The sample batch: the documents the facebook and the tiktok parser
    return for one post and one video. *)
Definition sample_results : list (string * list value) :=
  [("facebook",
    facebook_parser.parse_facebook_json (H := Samples.runtime)
      Samples.facebook_data);
   ("tiktok",
    tiktok_parser.parse_tiktok_json (H := Samples.runtime)
      Samples.tiktok_data)].

(** ** The vocabulary of the further properties *)



(** The sentiment analysers of the five parsers. *)
Definition sentiment_analysers : list (value → result string) :=
  [twitter_parser.analyze_sentiment; facebook_parser.analyze_sentiment;
   youtube_parser.analyze_sentiment; tiktok_parser.analyze_sentiment;
   instagram_parser.analyze_sentiment].

(** The language detectors of the three parsers that have one. *)
Definition language_detectors : list (value → result string) :=
  [facebook_parser.detect_language; youtube_parser.detect_language;
   tiktok_parser.detect_language].

(** The emotion detectors that read the text alone, each with its keyword
    table. *)
Definition emotion_detectors
  : list ((value → result value) * list (string * list string)) :=
  [(twitter_parser.detect_emotions, twitter_parser.emotion_keywords);
   (youtube_parser.detect_emotions, youtube_parser.emotion_keywords);
   (tiktok_parser.detect_emotions, tiktok_parser.emotion_keywords);
   (instagram_parser.detect_emotions, instagram_parser.emotion_keywords)].

(** The entries a response lists under [data][k]. *)
Definition entries_of (data : value) (k : string) (entries : list value)
  : Prop :=
  ∃ d, get data "data" (VDict []) = Ok d ∧
       get d k (VList []) = Ok (VList entries).

Definition dictionary (v : value) : bool :=
  match v with VDict _ => true | _ => false end.

(** The end of the well-formed entries: the end of the list, or an entry
    that is not a dictionary. *)
Definition malformed_from (rest : list value) : Prop :=
  match rest with [] => True | bad :: _ => dictionary bad = false end.

(** What the facebook extractor keeps of an entry: the entry itself when its
    type is [post]. *)
Definition kept_post (entry : value) : option value :=
  match get_none entry "type" with
  | Ok ty => if eq_str ty "post" then Some entry else None
  | Raise _ => None
  end.

(** What the youtube extractor keeps of an entry: its non-empty [video] when
    its type is [video]. *)
Definition kept_video (entry : value) : option value :=
  match get_none entry "type", get entry "video" (VDict []) with
  | Ok ty, Ok video =>
      if eq_str ty "video" && truthy video then Some video else None
  | _, _ => None
  end.

(** What the tiktok extractor keeps of an entry: its non-empty [item] when
    its type is 1. *)
Definition kept_item (entry : value) : option value :=
  match get_none entry "type", get entry "item" (VDict []) with
  | Ok ty, Ok item =>
      if eq_int ty 1 && truthy item then Some item else None
  | _, _ => None
  end.

(** A facebook response with a malformed entry between two posts. *)
Definition facebook_data_broken : value :=
  VDict [("data", VDict [("results",
    VList [Samples.facebook_post; VStr "oops"; Samples.facebook_post])])].

(** The extractor of each platform: the items its parser builds documents
    from. *)
Definition extractors : list (string * (value → list value)) :=
  [("twitter", twitter_parser.extract_tweets_from_timeline);
   ("instagram", instagram_parser.extract_media_from_grid);
   ("tiktok", tiktok_parser.extract_videos_from_data);
   ("facebook", facebook_parser.extract_posts_from_data);
   ("youtube", youtube_parser.extract_videos_from_data)].

(** The documents are built, in order, from the items [kept]; each carries
    its item as [raw_data]. *)
Definition built_from (documents kept : list value) : Prop :=
  Forall2 (λ doc item, field doc "raw_data" = Some item) documents kept.

(** The number of documents a tally has counted. *)
Definition counted (t : parse_all.tally) : Z :=
  fold_right Z.add 0 (map snd t).

(** All documents of a batch result. *)
Definition all_documents (results : list (string * list value)) : list value :=
  concat (map snd results).

(** The characters of a video id: letters, digits, the underscore and the
    hyphen. *)
Definition is_id_char (c : ascii) : bool := Re.is_word c || Ascii.eqb c "-".

Fixpoint id_text (s : string) : bool :=
  match s with
  | "" => true
  | String c r => is_id_char c && id_text r
  end.

(** The address the youtube parser gives a video. *)
Definition watch_url (id : string) : string :=
  "https://www.youtube.com/watch?v=" +:+ id.

(** A video known by its link alone. *)
Definition linked_video (link : string) : value :=
  VDict [("title", VStr "Clip"); ("link", VStr link)].

(** What may follow the id in a link: nothing, or [&] and further
    parameters. *)
Definition id_end (rest : string) : Prop :=
  rest = "" ∨ ∃ query, rest = String "&" query.

(** The text the youtube parser looks for category keywords in. *)
Definition category_text `{PyRuntime} (title description : value) : string :=
  lower (str title +:+ " " +:+ str description).

(** No keyword of the bucket occurs in the text. *)
Definition misses (text : string) (bucket : string * list string) : Prop :=
  any_hit bucket.2 text = false.

(** No keyword of the bucket is one of the hashtags, in lower case. *)
Definition misses_hashtags (hashtags : list string)
  (bucket : string * list string) : Prop :=
  tiktok_parser.any_member bucket.2 (map lower hashtags) = false.

(** A length that is a whole number of seconds, or zero. *)
Definition whole_seconds (secs : value) : Prop :=
  eq_int secs 0 = true ∨ ∃ z, num_of secs = Some (NInt z).

(** A video whose length is given as text. *)
Definition video_with_text_length : value :=
  VDict [("videoId", VStr "abc"); ("title", VStr "Clip");
         ("lengthSeconds", VStr "125")].

Definition media_types : list string := ["video"; "image"; "carousel"; "clips"].

(** The media types instagram counts as videos. *)
Definition video_types : list string := ["video"; "clips"].

Definition sentiment_labels : list string := ["positive"; "negative"; "neutral"].

(** The sentiment analysers that test the text before they read it: all but
    twitter's. *)
Definition guarded_sentiment_analysers : list (value → result string) :=
  [facebook_parser.analyze_sentiment; youtube_parser.analyze_sentiment;
   tiktok_parser.analyze_sentiment; instagram_parser.analyze_sentiment].

(** A tweet whose text is [None]. *)
Definition tweet_without_text : value :=
  VDict [("rest_id", VStr "19"); ("legacy", VDict [("full_text", VNone)])].

(** Every character of the text may stand in the body of a URL. *)
Fixpoint url_text (s : string) : bool :=
  match s with
  | "" => true
  | String c r => Re.is_url_char c && url_text r
  end.

(** [url] is written in [message]: a scheme, then one or more URL
    characters, up to the first character that is none or to the end. *)
Definition url_in (message url : string) : Prop :=
  ∃ scheme body before after,
    scheme ∈ ["https://"; "http://"] ∧ body ≠ "" ∧ url_text body = true ∧
    url = scheme +:+ body ∧
    message = before +:+ url +:+ after ∧
    match after with "" => True | String c _ => Re.is_url_char c = false end.

(** The value, if it counts as true. *)
Definition if_truthy (v : value) : list value :=
  if truthy v then [v] else [].

(** A post with links in its fields and in its message. *)
Definition post_with_links : value :=
  VDict [("external_url", VStr "ftp://files.example/a");
         ("message", VStr "see https://example.org/a?b=1 and http://x.y!")].

(** The height of an avatar as the sort reads it: the number under
    [height], zero when there is none. *)
Definition height (avatar : value) : option num :=
  match get avatar "height" (VInt 0) with
  | Ok h => num_of h
  | Raise _ => None
  end.

(** Among [avatars], none is taller than [best]. *)
Definition tallest (avatars : list value) (best : value) : Prop :=
  best ∈ avatars ∧
  ∃ h, height best = Some h ∧
       ∀ a ha, a ∈ avatars → height a = Some ha → Qle (num_Q ha) (num_Q h).

Definition avatars_of_two_sizes : list value :=
  [VDict [("url", VStr "small.png"); ("height", VInt 48)];
   VDict [("url", VStr "large.png"); ("height", VInt 176)];
   VDict [("url", VStr "plain.png")]].

(** Services that answer every search with the sample of their platform. *)
Definition sample_services : Services := {|
  facebook_search_posts := λ _, Ok Samples.facebook_data;
  instagram_search := λ _, Ok Samples.instagram_data;
  twitter_search := λ _, Ok (Samples.timeline [Samples.tweet_en]);
  youtube_search := λ _, Ok Samples.youtube_data;
  tiktok_search_general := λ _, Ok Samples.tiktok_data |}.

(** * Properties *)

(** ** Reasoning about code in the error monad *)

Lemma bind_Ok {A B} (f : A → result B) (m : result A) (b : B) :
  m ≫= f = Ok b → ∃ a, m = Ok a ∧ f a = Ok b.
Proof. destruct m as [a|e]; [eauto | discriminate]. Qed.

Lemma try_or_none_Some {A} (m : result A) (a : A) :
  try_or_none m = Some a → m = Ok a.
Proof. destruct m; simpl; congruence. Qed.

(** Splits a chain of binds that ended well into its steps. *)
Ltac split_binds H :=
  repeat (cbv beta zeta in H;
          lazymatch type of H with
          | _ ≫= _ = Ok _ =>
              let a := fresh "x" in
              let E := fresh "Step" in
              apply bind_Ok in H; destruct H as (a & E & H)
          end);
  cbv beta zeta in H.

Lemma elem_of_documents {A} (build : A → option value) (items : list A)
  (doc : value) :
  doc ∈ omap (λ item, match build item with
                      | Some d => if truthy d then Some d else None
                      | None => None
                      end) items →
  ∃ item, item ∈ items ∧ build item = Some doc.
Proof.
  rewrite list_elem_of_omap. intros (item & Hin & Hb).
  exists item. split; [done|].
  destruct (build item) as [d|]; [|discriminate].
  destruct (truthy d); congruence.
Qed.

(** ** The shape of the documents *)

Ltac fields_by_computation :=
  repeat first [ apply Forall_nil_2 | apply Forall_cons_2 ];
  first [ reflexivity | by eexists ].

Ltac merge_steps :=
  repeat match goal with
         | H1 : ?m = Ok ?a, H2 : ?m = Ok ?b |- _ =>
             rewrite H1 in H2; injection H2 as <-
         end.

Section Shapes.
Context `{PyRuntime}.

Import twitter_parser.

Lemma tweet_document_inv (tweet doc : value) :
  create_tweet_document tweet = Some doc →
  ∃ kvs legacy lang rest_id created_at,
    doc = VDict kvs ∧ flat "twitter" doc ∧
    get tweet "legacy" (VDict []) = Ok legacy ∧
    get legacy "lang" (VStr "") = Ok lang ∧
    assoc "language" kvs = Some lang ∧
    get tweet "rest_id" (VStr "") = Ok rest_id ∧ truthy rest_id = true ∧
    assoc "platform_id" kvs = Some rest_id ∧
    get legacy "created_at" (VStr "") = Ok created_at ∧
    assoc "timestamp" kvs = Some (VStr (parse_twitter_timestamp created_at)) ∧
    assoc "raw_data" kvs = Some tweet.
Proof.
  unfold create_tweet_document, try_except.
  destruct (tweet_document tweet) as [r|] eqn:Hd; [|discriminate].
  intros ->. unfold tweet_document in Hd. split_binds Hd.
  merge_steps.
  match type of Hd with
  | (if negb (truthy ?r) then _ else _) = _ => destruct (truthy r) eqn:Hr
  end; simpl in Hd; [|discriminate].
  injection Hd as <-.
  eexists _, _, _, _, _.
  split; [reflexivity|].
  split; [eexists; split; [reflexivity|]; repeat split; fields_by_computation|].
  repeat split; try eassumption; try reflexivity.
Qed.


Ltac flat_shape :=
  eexists; split; [reflexivity|]; repeat split; fields_by_computation.

Import facebook_parser.

Lemma post_document_inv (post doc : value) :
  create_post_document post = Some doc →
  ∃ kvs message reactions emotions language timestamp_unix,
    doc = VDict kvs ∧ flat "facebook" doc ∧
    get post "message" (VStr "") = Ok message ∧
    assoc "content" kvs = Some message ∧
    detect_language message = Ok language ∧
    assoc "language" kvs = Some (VStr language) ∧
    get post "reactions" (VDict []) = Ok reactions ∧
    detect_emotions message reactions = Ok emotions ∧
    assoc "emotions" kvs = Some (strings emotions) ∧
    get post "timestamp" (VInt 0) = Ok timestamp_unix ∧
    (positive_number timestamp_unix = false →
     assoc "timestamp" kvs = Some (VStr (isoformat now))).
Proof.
  intros Hd%try_or_none_Some. unfold post_document in Hd. split_binds Hd.
  merge_steps. injection Hd as <-.
  eexists _, _, _, _, _, _.
  split; [reflexivity|]. split; [flat_shape|].
  repeat split; try eassumption; try reflexivity.
  intros Hpos. unfold positive_number in Hpos. simpl. do 2 f_equal.
  match goal with
  | S : match num_of ?t with _ => _ end = Ok ?ts |- ?ts = _ =>
      unfold gt_int in S; destruct (num_of t); simpl in S;
      [rewrite Hpos in S|]; congruence
  end.
Qed.

Lemma video_document_inv (video doc : value) :
  youtube_parser.create_video_document video = Some doc →
  ∃ kvs title description language secs duration published_time,
    doc = VDict kvs ∧ flat "youtube" doc ∧
    get video "title" (VStr "") = Ok title ∧
    get video "descriptionSnippet" (VStr "") = Ok description ∧
    assoc "content" kvs
      = Some (VStr (str title +:+ " " +:+ str description)) ∧
    youtube_parser.detect_language
      (VStr (str title +:+ " " +:+ str description)) = Ok language ∧
    assoc "language" kvs = Some (VStr language) ∧
    get video "lengthSeconds" (VInt 0) = Ok secs ∧
    youtube_parser.format_duration secs = Ok duration ∧
    assoc "duration_formatted" kvs = Some (VStr duration) ∧
    get video "publishedTimeText" (VStr "") = Ok published_time ∧
    assoc "timestamp" kvs
      = Some (VStr (youtube_parser.parse_youtube_timestamp published_time)).
Proof.
  intros Hd%try_or_none_Some.
  unfold youtube_parser.video_document in Hd. split_binds Hd.
  merge_steps. injection Hd as <-.
  eexists _, _, _, _, _, _, _.
  split; [reflexivity|]. split; [flat_shape|].
  repeat split; try eassumption; try reflexivity.
Qed.

Lemma tiktok_document_inv (video doc : value) :
  tiktok_parser.create_video_document video = Some doc →
  ∃ kvs src desc language create_time,
    doc = VDict kvs ∧ enveloped "tiktok" doc ∧
    assoc "_source" kvs = Some (VDict src) ∧
    get video "desc" (VStr "") = Ok desc ∧
    assoc "content" src = Some desc ∧
    tiktok_parser.detect_language desc = Ok language ∧
    assoc "language" src = Some (VStr language) ∧
    get video "createTime" (VInt 0) = Ok create_time ∧
    (positive_number create_time = false →
     assoc "timestamp" src = Some (VStr (isoformat now))).
Proof.
  intros Hd%try_or_none_Some.
  unfold tiktok_parser.video_document in Hd. split_binds Hd.
  merge_steps. injection Hd as <-.
  eexists _, _, _, _, _.
  split; [reflexivity|].
  split.
  { eexists _, _. split; [reflexivity|].
    repeat split; fields_by_computation. }
  repeat split; try eassumption; try reflexivity.
  intros Hpos. unfold positive_number in Hpos. simpl. do 2 f_equal.
  match goal with
  | S : match num_of ?t with _ => _ end = Ok ?ts |- ?ts = _ =>
      unfold gt_int in S; destruct (num_of t); simpl in S;
      [rewrite Hpos in S|]; congruence
  end.
Qed.

Lemma media_document_inv (media doc : value) :
  instagram_parser.create_media_document media = Some doc →
  ∃ kvs device_timestamp taken_at,
    doc = VDict kvs ∧ flat "instagram" doc ∧
    assoc "language" kvs = None ∧
    get media "device_timestamp" (VInt 0) = Ok device_timestamp ∧
    get media "taken_at" device_timestamp = Ok taken_at ∧
    match num_of taken_at with
    | Some t =>
        ∃ dt, fromtimestamp t = Ok dt ∧
              assoc "timestamp" kvs = Some (VStr (isoformat dt))
    | None => assoc "timestamp" kvs = Some (VStr (isoformat now))
    end.
Proof.
  intros Hd%try_or_none_Some.
  unfold instagram_parser.media_document in Hd. split_binds Hd.
  merge_steps. injection Hd as <-.
  eexists _, _, _.
  split; [reflexivity|]. split; [flat_shape|].
  repeat split; try eassumption; try reflexivity.
  match goal with
  | S : match num_of ?t with _ => _ end = Ok ?ts |- _ =>
      destruct (num_of t); simpl in S
  end.
  - match goal with
    | S : _ ≫= _ = Ok _ |- _ =>
        apply bind_Ok in S; destruct S as (dt & Hdt & S); injection S as <-
    end.
    by exists dt.
  - simpl. congruence.
Qed.

End Shapes.

(** ** Envelope and flat documents *)

(** Opens the existentials and conjunctions of a hypothesis. *)
Ltac open_conj H :=
  repeat lazymatch type of H with
         | ∃ _, _ => destruct H as [? H]
         | _ ∧ _ => destruct H as [? H]
         end.

Lemma elem_of_parse_inv {A} (build : A → option value) (items : list A)
  (P : value → Prop) (doc : value) :
  (∀ item d, build item = Some d → P d) →
  doc ∈ omap (λ item, match build item with
                      | Some d => if truthy d then Some d else None
                      | None => None
                      end) items →
  P doc.
Proof.
  intros HP (item & _ & Hb)%elem_of_documents. eauto.
Qed.

(** C10.  A document returned by the tiktok parser is a dictionary with
    exactly the keys [_index], [_id], [_score], [_source], and holds the
    canonical fields under [_source]; a document returned by the twitter,
    instagram, facebook or youtube parser holds the canonical fields at the
    top level and has none of the four envelope keys. *)
Theorem C10_envelope_only_for_tiktok `{PyRuntime} (data doc : value) :
  (doc ∈ tiktok_parser.parse_tiktok_json data → enveloped "tiktok" doc) ∧
  (doc ∈ twitter_parser.parse_twitter_json data → flat "twitter" doc) ∧
  (doc ∈ instagram_parser.parse_instagram_json data → flat "instagram" doc) ∧
  (doc ∈ facebook_parser.parse_facebook_json data → flat "facebook" doc) ∧
  (doc ∈ youtube_parser.parse_youtube_json data → flat "youtube" doc).
Proof.
  repeat split; apply elem_of_parse_inv; intros item d Hd.
  - apply tiktok_document_inv in Hd. open_conj Hd. assumption.
  - apply tweet_document_inv in Hd. open_conj Hd. assumption.
  - apply media_document_inv in Hd. open_conj Hd. assumption.
  - apply post_document_inv in Hd. open_conj Hd. assumption.
  - apply video_document_inv in Hd. open_conj Hd. assumption.
Qed.

(** ** Tweets without an id *)

Lemma built_documents_eq {A} (build : A → option value) (items : list A) :
  (∀ item d, build item = Some d → truthy d = true) →
  omap (λ item, match build item with
                | Some d => if truthy d then Some d else None
                | None => None
                end) items
  = omap build items.
Proof.
  intros Ht. apply list_omap_ext, Forall2_same_length_lookup_2; [done|].
  intros i x y Hx Hy. assert (x = y) as -> by congruence.
  destruct (build y) as [d|] eqn:Hb; [|done].
  by rewrite (Ht _ _ Hb).
Qed.

Lemma tweet_document_truthy `{PyRuntime} (tweet doc : value) :
  twitter_parser.create_tweet_document tweet = Some doc → truthy doc = true.
Proof.
  intros (kvs & ? & ? & ? & ? & -> & (kvs' & [= <-] & _ & _ & Hp) & _)
    %tweet_document_inv.
  by destruct kvs.
Qed.

(** C2.  A tweet whose [rest_id] is missing or empty gets no document, and
    the batch it sits in yields what the other tweets yield: the documents
    built for the tweets before it, then those built for the tweets after
    it, one for each tweet the builder accepts. *)
Theorem C2_tweet_without_id_is_dropped `{PyRuntime} (tweet : value)
  (Hid : rest_id_missing_or_empty tweet) :
  twitter_parser.create_tweet_document tweet = None ∧
  ∀ data before after,
    twitter_parser.extract_tweets_from_timeline data
      = before ++ tweet :: after →
    twitter_parser.parse_twitter_json data
      = omap twitter_parser.create_tweet_document (before ++ after).
Proof.
  assert (twitter_parser.create_tweet_document tweet = None) as Hnone.
  { destruct (twitter_parser.create_tweet_document tweet) as [doc|] eqn:Hd;
      [|done].
    apply tweet_document_inv in Hd
      as (? & ? & ? & rest_id & ? & _ & _ & _ & _ & _ & Hget & Htrue & _).
    destruct Hid as (kvs & -> & [Hk|Hk]); simpl in Hget; rewrite Hk in Hget;
      injection Hget as <-; discriminate. }
  split; [done|].
  intros data before after Hbatch.
  unfold twitter_parser.parse_twitter_json. rewrite Hbatch.
  rewrite built_documents_eq by apply tweet_document_truthy.
  rewrite !omap_app. simpl. by rewrite Hnone.
Qed.

Lemma C2_witness :
  rest_id_missing_or_empty Samples.tweet_without_id ∧
  twitter_parser.create_tweet_document (H := Samples.runtime)
    Samples.tweet_without_id = None ∧
  length (twitter_parser.parse_twitter_json (H := Samples.runtime)
            (Samples.timeline [Samples.tweet_fr; Samples.tweet_without_id;
                               Samples.tweet_en])) = 2%nat.
Proof.
  assert (rest_id_missing_or_empty Samples.tweet_without_id) as Hid.
  { eexists. split; [reflexivity|]. left. reflexivity. }
  split; [exact Hid|].
  destruct (C2_tweet_without_id_is_dropped (H := Samples.runtime)
              Samples.tweet_without_id Hid) as [Hnone Hbatch].
  split; [exact Hnone|].
  rewrite (Hbatch _ [Samples.tweet_fr] [Samples.tweet_en]); reflexivity.
Defined.

(** ** Hashtags and mentions *)

Lemma append_empty (s : string) : "" +:+ s = s.
Proof. reflexivity. Qed.

Lemma append_String (c : ascii) (a b : string) :
  String c a +:+ b = String c (a +:+ b).
Proof. reflexivity. Qed.

Section Scan.
Variable pattern : string → option (string * nat).



End Scan.






Lemma strings_inj (a b : list string) : strings a = strings b → a = b.
Proof.
  unfold strings. intros [= E]. revert b E.
  induction a as [|x a IH]; intros [|y b] E; try discriminate; [done|].
  injection E as -> E. f_equal. by apply IH.
Defined.

Lemma string_app_nonempty (a : string) (c : ascii) (b : string) :
  a +:+ String c b ≠ "".
Proof. by destruct a. Qed.



(** ** Emotions of a facebook post *)

Lemma distinct_spec (l : list string) :
  NoDup (facebook_parser.distinct l) ∧
  ∀ e, e ∈ facebook_parser.distinct l ↔ e ∈ l.
Proof.
  unfold facebook_parser.distinct. split; [apply NoDup_elements|].
  intros e. by rewrite elem_of_elements, elem_of_list_to_set.
Qed.

Lemma matching_nil (table : list (string * list string)) (text : string) :
  (∀ k keywords keyword,
     (k, keywords) ∈ table → keyword ∈ keywords →
     contains keyword text = false) →
  matching table text = [].
Proof.
  intros Hno. unfold matching.
  induction table as [|[k kws] table IH]; [reflexivity|].
  rewrite filter_cons_False.
  - apply IH. intros k' kws' kw Hin Hkw.
    apply (Hno k' kws' kw); [by right | done].
  - simpl. unfold any_hit. intros Hex.
    apply existsb_exists in Hex as (kw & Hin & Hc).
    rewrite (Hno k kws kw) in Hc; [discriminate | by left |].
    by apply list_elem_of_In.
Qed.

(** A check by computation that no keyword of a table occurs in a text. *)
Lemma keywords_absent_by_check (table : list (string * list string))
  (text : string) :
  forallb (λ kw : string * list string,
             forallb (λ k, negb (contains k text)) kw.2) table = true →
  ∀ k keywords keyword,
    (k, keywords) ∈ table → keyword ∈ keywords →
    contains keyword text = false.
Proof.
  intros Hall k keywords keyword Hin Hkw.
  rewrite forallb_forall in Hall.
  apply list_elem_of_In in Hin, Hkw.
  specialize (Hall _ Hin). simpl in Hall.
  rewrite forallb_forall in Hall. specialize (Hall _ Hkw).
  by apply negb_true_iff in Hall.
Defined.

Lemma detect_emotions_union (text reactions : value)
  (from_text from_reactions : list string) :
  facebook_parser.text_emotions text = Ok from_text →
  facebook_parser.reaction_emotions reactions = Ok from_reactions →
  ∃ emotions,
    facebook_parser.detect_emotions text reactions = Ok emotions ∧
    NoDup emotions ∧
    ∀ e, e ∈ emotions ↔ e ∈ from_text ∨ e ∈ from_reactions.
Proof.
  intros Ht Hr. unfold facebook_parser.detect_emotions. rewrite Ht, Hr. simpl.
  eexists. split; [reflexivity|].
  destruct (distinct_spec (from_text ++ from_reactions)) as [Hnd Hel].
  split; [done|]. intros e. by rewrite Hel, elem_of_app.
Qed.

Lemma reaction_emotions_love_40_like_60 :
  facebook_parser.reaction_emotions love_40_like_60 = Ok ["love"].
Proof. reflexivity. Qed.

(** C6.  For a message without any emotion keyword and the reactions
    [{"love": 40, "like": 60}], [detect_emotions] returns a list without
    duplicates that has [love] and does not have [humor]; so does the
    [emotions] field of the document built for such a post.  In general the
    result holds the emotions found in the text together with those derived
    from the reactions, each once. *)
Theorem C6_love_share_adds_love (message : string)
  (Hno : ∀ emotion keywords keyword,
     (emotion, keywords) ∈ facebook_parser.emotion_keywords →
     keyword ∈ keywords → contains keyword (lower message) = false) :
  (∃ emotions,
     facebook_parser.detect_emotions (VStr message) love_40_like_60
       = Ok emotions ∧
     NoDup emotions ∧ "love" ∈ emotions ∧ ("humor" ∉ emotions) ∧
     ∀ (rt : PyRuntime) post doc,
       facebook_parser.create_post_document post = Some doc →
       get post "message" (VStr "") = Ok (VStr message) →
       get post "reactions" (VDict []) = Ok love_40_like_60 →
       ∃ kvs, doc = VDict kvs ∧
              assoc "emotions" kvs = Some (strings emotions)) ∧
  (∀ text reactions from_text from_reactions,
     facebook_parser.text_emotions text = Ok from_text →
     facebook_parser.reaction_emotions reactions = Ok from_reactions →
     ∃ emotions,
       facebook_parser.detect_emotions text reactions = Ok emotions ∧
       NoDup emotions ∧
       ∀ e, e ∈ emotions ↔ e ∈ from_text ∨ e ∈ from_reactions).
Proof.
  split; [|apply detect_emotions_union].
  assert (facebook_parser.text_emotions (VStr message) = Ok []) as Ht.
  { unfold facebook_parser.text_emotions. simpl.
    destruct (negb (message =? "")%string); [|reflexivity].
    by rewrite matching_nil. }
  destruct (detect_emotions_union _ _ _ _ Ht reaction_emotions_love_40_like_60)
    as (emotions & Hd & Hnd & Hel).
  exists emotions. split; [done|]. split; [done|].
  split; [apply Hel; right; by left|].
  split.
  - rewrite Hel. intros [Hin|Hin]; [by apply elem_of_nil in Hin|].
    apply list_elem_of_singleton in Hin. discriminate.
  - intros rt post doc Hdoc Hm Hr.
    apply post_document_inv in Hdoc
      as (kvs & m & r & es & ? & ? & -> & _ & Hm' & _ & _ & _ & Hr' & Hes
          & Hfield & _).
    rewrite Hm in Hm'. injection Hm' as <-.
    rewrite Hr in Hr'. injection Hr' as <-.
    rewrite Hd in Hes. injection Hes as <-.
    by exists kvs.
Qed.

Lemma C6_witness :
  ∃ emotions,
    facebook_parser.detect_emotions
      (VStr "A great day with the team #Win @bob") love_40_like_60
      = Ok emotions ∧
    NoDup emotions ∧ "love" ∈ emotions ∧ ("humor" ∉ emotions).
Proof.
  destruct (C6_love_share_adds_love "A great day with the team #Win @bob")
    as [(emotions & Hd & Hnd & Hlove & Hhumor & _) _].
  - by apply keywords_absent_by_check.
  - exact (ex_intro _ emotions (conj Hd (conj Hnd (conj Hlove Hhumor)))).
Defined.

(** ** The layout of a duration *)

Lemma format_two_digits (n : Z) :
  0 ≤ n < 100 → format_0d 2 n = two_digits n.
Proof.
  intros Hn.
  assert (∀ k : nat, (k < 100)%nat →
            format_0d 2 (Z.of_nat k) = two_digits (Z.of_nat k)) as Hall.
  { intros k Hk. do 100 (destruct k as [|k]; [reflexivity|]). lia. }
  rewrite <- (Z2Nat.id n) by lia. apply Hall. lia.
Qed.

Lemma decimal_fuel_length (fuel : nat) (n : Z) (acc : string) :
  (String.length acc < String.length (decimal_fuel fuel n acc))%nat.
Proof.
  revert n acc. induction fuel as [|fuel IH]; intros n acc; simpl; [lia|].
  destruct (n <? 10); simpl; [lia|].
  specialize (IH (n / 10) (String (digit (n mod 10)) acc)). simpl in IH. lia.
Qed.

Lemma decimal_two_or_more (n : Z) :
  10 ≤ n → (2 ≤ String.length (decimal n))%nat.
Proof.
  intros Hn. unfold decimal.
  assert (3 ≤ Z.log2 n) as Hlog by (apply (Z.log2_le_mono 8 n); lia).
  destruct (Z.to_nat (Z.log2 n)) as [|fuel] eqn:Hf; [lia|].
  simpl. destruct (Z.ltb_spec n 10) as [|_]; [lia|].
  pose proof (decimal_fuel_length fuel (n / 10) (String (digit (n mod 10)) "")).
  simpl in *. lia.
Qed.

Lemma format_hours (h : Z) : 0 ≤ h → format_0d 2 h = hours_field h.
Proof.
  intros Hh. unfold hours_field.
  destruct (Z.ltb_spec h 10) as [Hlt|Hge]; [apply format_two_digits; lia|].
  unfold format_0d. destruct (Z.ltb_spec h 0) as [|_]; [lia|].
  pose proof (decimal_two_or_more h Hge) as Hlen.
  replace (2 - String.length (decimal h))%nat with 0%nat by lia.
  reflexivity.
Qed.

Lemma format_duration_layout (s : Z) :
  0 ≤ s → youtube_parser.format_duration (VInt s) = Ok (duration_layout s).
Proof.
  intros Hs. unfold youtube_parser.format_duration, duration_layout, eq_int.
  simpl num_of. cbv iota. simpl num_Q.
  destruct (Qeq_bool (inject_Z s) (inject_Z 0)) eqn:Hz.
  - apply Qeq_bool_iff in Hz. unfold Qeq in Hz. simpl in Hz.
    assert (s = 0) as -> by lia. reflexivity.
  - assert (0 ≤ s / 3600) by (apply Z.div_pos; lia).
    assert (0 ≤ s mod 3600 < 3600) by (apply Z.mod_pos_bound; lia).
    assert (0 ≤ s mod 3600 / 60 < 60).
    { split; [apply Z.div_pos; lia|]. apply Z.div_lt_upper_bound; lia. }
    assert (0 ≤ s mod 60 < 60) by (apply Z.mod_pos_bound; lia).
    destruct (Z.ltb_spec s 3600) as [Hlt|Hge].
    + rewrite Z.div_small, Z.mod_small by lia. simpl (0 <? 0).
      cbv iota.
      assert (0 ≤ s / 60 < 60).
      { split; [apply Z.div_pos; lia|]. apply Z.div_lt_upper_bound; lia. }
      by rewrite !format_two_digits by lia.
    + assert (1 ≤ s / 3600) by (apply Z.div_le_lower_bound; lia).
      destruct (Z.ltb_spec 0 (s / 3600)) as [_|]; [|lia].
      by rewrite format_hours, !format_two_digits by lia.
Qed.

(** C7.  A duration of [s] seconds, [s] not negative, is laid out as
    [MM:SS] with two digits each when it is under one hour, and as
    [HH:MM:SS] from one hour on; 125 seconds give ["02:05"] and 0 seconds
    give ["00:00"]; the document of a video whose [lengthSeconds] is [s]
    carries that text as [duration_formatted]. *)
Theorem C7_duration_layout (s : Z) (Hs : 0 ≤ s) :
  youtube_parser.format_duration (VInt s) = Ok (duration_layout s) ∧
  youtube_parser.format_duration (VInt 125) = Ok "02:05" ∧
  youtube_parser.format_duration (VInt 0) = Ok "00:00" ∧
  ∀ (rt : PyRuntime) video doc,
    youtube_parser.create_video_document video = Some doc →
    get video "lengthSeconds" (VInt 0) = Ok (VInt s) →
    ∃ kvs, doc = VDict kvs ∧
           assoc "duration_formatted" kvs = Some (VStr (duration_layout s)).
Proof.
  split; [by apply format_duration_layout|].
  split; [reflexivity|]. split; [reflexivity|].
  intros rt video doc Hdoc Hlen.
  apply video_document_inv in Hdoc
    as (kvs & ? & ? & ? & secs & duration & ? & -> & _ & _ & _ & _ & _ & _
        & Hsecs & Hfmt & Hfield & _).
  rewrite Hlen in Hsecs. injection Hsecs as <-.
  rewrite format_duration_layout in Hfmt by done. injection Hfmt as <-.
  by exists kvs.
Qed.

Lemma C7_witness :
  youtube_parser.format_duration (VInt 3725) = Ok "01:02:05" ∧
  ∃ kvs,
    youtube_parser.create_video_document (H := Samples.runtime)
      Samples.youtube_video = Some (VDict kvs) ∧
    assoc "duration_formatted" kvs = Some (VStr "02:05").
Proof.
  split.
  - exact (proj1 (C7_duration_layout 3725 ltac:(lia))).
  - destruct (C7_duration_layout 125 ltac:(lia)) as (_ & _ & _ & Hdoc).
    destruct (Hdoc Samples.runtime Samples.youtube_video _ eq_refl eq_refl)
      as (kvs & Heq & Hfield).
    exists kvs. split; [by rewrite <- Heq | exact Hfield].
Defined.

(** ** The language of a document *)

Lemma language_of_guess (hits : list string → string → Z)
  (indonesian english : list string) (content : value) (language : string) :
  (if negb (truthy content) then Ok "unknown"
   else text_lower ← lower_of content;
        Ok (language_of (hits indonesian text_lower)
                        (hits english text_lower))) = Ok language →
  language_guess hits indonesian english content language.
Proof.
  intros Hd. unfold language_guess.
  destruct (truthy content) eqn:Ht; simpl in Hd.
  - destruct content as [| | | |s| |]; try discriminate Hd.
    simpl in Hd. injection Hd as <-. unfold language_of.
    split.
    { destruct (Z.ltb_spec (hits english (lower s))
                           (hits indonesian (lower s)));
        [|destruct (Z.ltb_spec (hits indonesian (lower s))
                               (hits english (lower s)))];
        unfold language_tags;
        repeat first [apply list_elem_of_here | apply list_elem_of_further]. }
    split; [right; by exists s|]. split; [discriminate|].
    intros s' [= <-] _. simpl.
    destruct (Z.ltb_spec (hits english (lower s)) (hits indonesian (lower s)));
      [|destruct (Z.ltb_spec (hits indonesian (lower s))
                             (hits english (lower s)))];
      (repeat split; intros; first [reflexivity | lia]).
  - injection Hd as <-.
    split; [unfold language_tags;
            repeat first [apply list_elem_of_here | apply list_elem_of_further]|].
    split; [by left|]. split; [done|].
    intros s -> Hs. simpl in Ht. destruct (String.eqb_spec s ""); done.
Qed.

Lemma field_flat (platform : string) (kvs : list (string * value))
  (k : string) :
  flat platform (VDict kvs) → field (VDict kvs) k = assoc k kvs.
Proof.
  intros (kvs' & [= <-] & _ & Hlacks & _). unfold field.
  unfold lacks_fields, envelope_keys in Hlacks.
  rewrite !Forall_cons in Hlacks. destruct Hlacks as (_ & _ & _ & -> & _).
  reflexivity.
Qed.

Lemma field_enveloped (kvs src : list (string * value)) (k : string) :
  assoc "_source" kvs = Some (VDict src) → field (VDict kvs) k = assoc k src.
Proof. intros Hs. unfold field. by rewrite Hs. Qed.

(** A French tweet is tagged [fr], the language the platform reports, and an
    instagram document has no language at all. *)
Lemma C4_counterexample :
  (∃ doc,
     doc ∈ parsed (H := Samples.runtime) "twitter"
             (Samples.timeline [Samples.tweet_fr]) ∧
     field doc "language" = Some (VStr "fr") ∧ ¬ language_is_tagged doc) ∧
  (∃ doc,
     doc ∈ parsed (H := Samples.runtime) "instagram" Samples.instagram_data ∧
     field doc "language" = None ∧ ¬ language_is_tagged doc).
Proof.
  split.
  - eexists. split; [vm_compute; apply list_elem_of_here|].
    split; [reflexivity|].
    intros (language & Hf & Hin). vm_compute in Hf. injection Hf as <-.
    unfold language_tags in Hin.
    repeat (apply elem_of_cons in Hin as [Hin|Hin]; [discriminate|]).
    by apply elem_of_nil in Hin.
  - eexists. split; [vm_compute; apply list_elem_of_here|].
    split; [reflexivity|].
    intros (language & Hf & _). vm_compute in Hf. discriminate.
Qed.

(** C4, amended.  The documents of the tiktok, facebook and youtube parsers
    carry a language that is one of [en], [id], [mixed], [unknown] and is
    the guess by the parser's two word lists over the document's content:
    [unknown] for an empty content, [id] when the Indonesian hits are more,
    [en] when the English hits are more, [mixed] on a tie.  Tiktok and
    youtube count a word wherever it occurs in the text, facebook counts it
    as a word of its own.  A twitter document carries the [lang] of the
    tweet's [legacy] record, the empty string when there is none, and an
    instagram document has no language field. *)
Theorem C4_language_by_platform `{PyRuntime} (data doc : value) :
  (doc ∈ parsed "tiktok" data →
   ∃ content language,
     field doc "content" = Some content ∧
     field doc "language" = Some (VStr language) ∧
     language_guess substring_hits tiktok_parser.indonesian_words
       tiktok_parser.english_words content language) ∧
  (doc ∈ parsed "facebook" data →
   ∃ content language,
     field doc "content" = Some content ∧
     field doc "language" = Some (VStr language) ∧
     language_guess word_hits facebook_parser.indonesian_words
       facebook_parser.english_words content language) ∧
  (doc ∈ parsed "youtube" data →
   ∃ content language,
     field doc "content" = Some content ∧
     field doc "language" = Some (VStr language) ∧
     language_guess substring_hits youtube_parser.indonesian_words
       youtube_parser.english_words content language) ∧
  (doc ∈ parsed "twitter" data →
   ∃ tweet legacy lang,
     field doc "raw_data" = Some tweet ∧
     get tweet "legacy" (VDict []) = Ok legacy ∧
     get legacy "lang" (VStr "") = Ok lang ∧
     field doc "language" = Some lang) ∧
  (doc ∈ parsed "instagram" data → field doc "language" = None).
Proof.
  repeat split; unfold parsed; simpl;
    intros (item & _ & Hd)%elem_of_documents.
  - apply tiktok_document_inv in Hd
      as (kvs & src & desc & l & ? & -> & _ & Hsrc & _ & Hc & Hl & Hf & _).
    exists desc, l. rewrite !(field_enveloped _ _ _ Hsrc).
    split; [done|]. split; [done|]. by apply language_of_guess.
  - apply post_document_inv in Hd
      as (kvs & m & ? & ? & l & ? & -> & Hflat & _ & Hc & Hl & Hf & _).
    exists m, l. rewrite !(field_flat _ _ _ Hflat).
    split; [done|]. split; [done|]. by apply language_of_guess.
  - apply video_document_inv in Hd
      as (kvs & t & de & l & ? & ? & ? & -> & Hflat & _ & _ & Hc & Hl & Hf & _).
    eexists _, l. rewrite !(field_flat _ _ _ Hflat).
    split; [exact Hc|]. split; [done|]. by apply language_of_guess.
  - apply tweet_document_inv in Hd
      as (kvs & legacy & lang & ? & ? & -> & Hflat & Hleg & Hlang & Hf & _
          & _ & _ & _ & _ & Hraw).
    exists item, legacy, lang. rewrite !(field_flat _ _ _ Hflat). done.
  - apply media_document_inv in Hd
      as (kvs & ? & ? & -> & Hflat & Hnone & _).
    by rewrite (field_flat _ _ _ Hflat).
Qed.

Lemma C4_witness :
  ∃ doc content,
    doc ∈ parsed (H := Samples.runtime) "tiktok" Samples.tiktok_data ∧
    field doc "content" = Some content ∧
    field doc "language" = Some (VStr "mixed") ∧
    language_guess substring_hits tiktok_parser.indonesian_words
      tiktok_parser.english_words content "mixed".
Proof.
  assert (∃ doc, parsed (H := Samples.runtime) "tiktok" Samples.tiktok_data
                 = [doc] ∧ field doc "language" = Some (VStr "mixed"))
    as (doc & Hdocs & Hlang).
  { eexists. split; [vm_compute; reflexivity | reflexivity]. }
  assert (doc ∈ parsed (H := Samples.runtime) "tiktok" Samples.tiktok_data)
    as Hin by (rewrite Hdocs; apply list_elem_of_here).
  destruct (C4_language_by_platform (H := Samples.runtime)
              Samples.tiktok_data doc) as (Htiktok & _).
  destruct (Htiktok Hin) as (content & language & Hc & Hl & Hg).
  rewrite Hlang in Hl. injection Hl as <-.
  exact (ex_intro _ doc (ex_intro _ content (conj Hin (conj Hc (conj Hlang Hg))))).
Defined.

(** ** The most active platform *)

Section MostActive.
Context `{PyRuntime}.
Import parse_all.

Lemma registry_keys : keys parsers = registry.
Proof. reflexivity. Qed.

Lemma max_from_spec (rest : list (string * platform_stat)) (best : string)
  (best_count : Z) :
  (max_from best best_count rest = best ∧
   Forall (λ x, document_count x.2 ≤ best_count) rest) ∨
  (∃ b st a,
     rest = b ++ (max_from best best_count rest, st) :: a ∧
     best_count < document_count st ∧
     Forall (λ x, document_count x.2 < document_count st) b ∧
     Forall (λ x, document_count x.2 ≤ document_count st) a).
Proof.
  revert best best_count.
  induction rest as [|[q st] rest IH]; intros best best_count; simpl.
  - left. split; [reflexivity | constructor].
  - destruct (Z.ltb_spec best_count (document_count st)) as [Hlt|Hge].
    + right. destruct (IH q (document_count st))
        as [[-> Hall] | (b & st' & a & Heq & Hlt' & Hb & Ha)].
      * exists [], st, rest. split; [reflexivity|]. split; [done|].
        split; [constructor | done].
      * exists ((q, st) :: b), st', a.
        split; [simpl; by rewrite <- Heq|]. split; [lia|].
        split; [|done]. constructor; [simpl; lia | done].
    + destruct (IH best best_count)
        as [[-> Hall] | (b & st' & a & Heq & Hlt' & Hb & Ha)].
      * left. split; [reflexivity|]. constructor; [simpl; lia | done].
      * right. exists ((q, st) :: b), st', a.
        split; [simpl; by rewrite <- Heq|]. split; [lia|].
        split; [|done]. constructor; [simpl; lia | done].
Qed.

Lemma most_active_spec (stats : list (string * platform_stat)) :
  match most_active stats with
  | Some p =>
      ∃ b st a,
        stats = b ++ (p, st) :: a ∧
        Forall (λ x, document_count x.2 < document_count st) b ∧
        Forall (λ x, document_count x.2 ≤ document_count st) a
  | None => stats = []
  end.
Proof.
  destruct stats as [|[p st] rest]; simpl; [reflexivity|].
  destruct (max_from_spec rest p (document_count st))
    as [[-> Hall] | (b & st' & a & Heq & Hlt & Hb & Ha)].
  - exists [], st, rest. split; [reflexivity|]. split; [constructor | done].
  - exists ((p, st) :: b), st', a.
    split; [simpl; by rewrite <- Heq|].
    split; [constructor; [simpl; lia | done] | done].
Qed.

Lemma platform_stats_count (platform : string) (documents : list value)
  (st : platform_stat) :
  platform_stats_of platform documents = Ok st →
  document_count st = Z.of_nat (length documents).
Proof.
  unfold platform_stats_of. destruct documents as [|d ds]; [by intros [= <-]|].
  intros Hst. split_binds Hst.
  match goal with x : (tally * tally * value)%type |- _ =>
    destruct x as [[? ?] ?] end.
  split_binds Hst. by injection Hst as <-.
Qed.

Lemma assoc_set_fresh {A} (k : string) (v : A) (kvs : list (string * A)) :
  k ∉ keys kvs → assoc_set k v kvs = kvs ++ [(k, v)].
Proof.
  induction kvs as [|[k' v'] kvs IH]; intros Hk; simpl; [reflexivity|].
  unfold keys in Hk. simpl in Hk. apply not_elem_of_cons in Hk as [Hne Hk].
  destruct (String.eqb_spec k k'); [done|]. by rewrite IH.
Qed.

Lemma all_stats_follow (results : list (string * list value))
  (acc stats : list (string * platform_stat)) :
  NoDup (keys acc ++ keys results) →
  all_stats results acc = Ok stats →
  ∃ new, stats = acc ++ new ∧ Forall2 follows results new.
Proof.
  revert acc. induction results as [|[p docs] results IH]; intros acc Hnd Hs.
  - simpl in Hs. injection Hs as <-. exists []. by rewrite app_nil_r.
  - simpl in Hs. apply bind_Ok in Hs as (st & Hst & Hs).
    unfold keys in Hnd. simpl in Hnd.
    rewrite assoc_set_fresh in Hs.
    + apply IH in Hs as (new & -> & Hnew).
      * exists ((p, st) :: new). rewrite <- app_assoc. split; [reflexivity|].
        constructor; [|done]. split; [reflexivity|].
        simpl. by apply (platform_stats_count p).
      * unfold keys. rewrite map_app. simpl.
        by rewrite <- app_assoc.
    + apply NoDup_app in Hnd as (_ & Hdis & _).
      intros Hin. apply (Hdis p Hin). by left.
Qed.

Lemma most_active_earliest_largest (results : list (string * list value))
  (r : report) :
  NoDup (keys results) →
  generate_summary_report results = Ok r →
  match most_active_platform r with
  | Some p => earliest_largest results p
  | None => results = []
  end.
Proof.
  intros Hnd Hr. unfold generate_summary_report in Hr. split_binds Hr.
  injection Hr as <-. simpl.
  match goal with Hs : all_stats results [] = Ok ?stats |- _ =>
    apply all_stats_follow in Hs as (new & -> & Hnew); [|done];
    simpl; pose proof (most_active_spec new) as Hm
  end.
  destruct (most_active new) as [p|].
  - destruct Hm as (b & st & a & -> & Hb & Ha).
    apply Forall2_app_inv_r in Hnew as (rb & ra' & Hrb & Hra & ->).
    apply Forall2_cons_inv_r in Hra as ([q docs] & ra & [Hq Hc] & Hra & ->).
    simpl in Hq, Hc. subst q.
    exists rb, docs, ra. split; [reflexivity|]. rewrite Hc in *. split.
    + clear -Hrb Hb. induction Hrb as [|x y rb b [_ Hxy] _ IH];
        [constructor|].
      apply Forall_cons in Hb as [Hy Hb].
      constructor; [lia | by apply IH].
    + clear -Hra Ha. induction Hra as [|x y ra a [_ Hxy] _ IH];
        [constructor|].
      apply Forall_cons in Ha as [Hy Ha].
      constructor; [lia | by apply IH].
  - subst new. by apply Forall2_nil_inv_r in Hnew.
Qed.

Lemma assoc_app_l {A} (k : string) (l1 l2 : list (string * A)) :
  k ∈ keys l1 → assoc k (l1 ++ l2) = assoc k l1.
Proof.
  induction l1 as [|[k' v] l1 IH]; intros Hk; [by apply elem_of_nil in Hk|].
  simpl. destruct (String.eqb_spec k k') as [|Hne]; [reflexivity|].
  apply IH. unfold keys in Hk. simpl in Hk.
  by apply elem_of_cons in Hk as [|].
Qed.

Lemma assoc_app_r {A} (k : string) (l1 l2 : list (string * A)) :
  k ∉ keys l1 → assoc k (l1 ++ l2) = assoc k l2.
Proof.
  induction l1 as [|[k' v] l1 IH]; intros Hk; [reflexivity|].
  unfold keys in Hk. simpl in Hk. apply not_elem_of_cons in Hk as [Hne Hk].
  simpl. destruct (String.eqb_spec k k'); [done | by apply IH].
Qed.

Lemma assoc_elem_of {A} (k : string) (v : A) (l : list (string * A)) :
  assoc k l = Some v → (k, v) ∈ l.
Proof.
  induction l as [|[k' v'] l IH]; [discriminate|]. simpl.
  destruct (String.eqb_spec k k') as [->|_].
  - intros [= ->]. by left.
  - intros Hv. right. by apply IH.
Qed.

Lemma assoc_of_key {A} (k : string) (l : list (string * A)) :
  k ∈ keys l → ∃ v, assoc k l = Some v.
Proof.
  induction l as [|[k' v'] l IH]; intros Hk; [by apply elem_of_nil in Hk|].
  simpl. destruct (String.eqb_spec k k') as [|Hne]; [by eexists|].
  apply IH. unfold keys in Hk. simpl in Hk.
  by apply elem_of_cons in Hk as [|].
Qed.

(** When the batch result lists the platforms as the registry does, the
    earliest of the largest platforms is the registry's earliest. *)
Lemma earliest_largest_in_registry (results : list (string * list value))
  (p : string) :
  keys results = registry →
  earliest_largest results p → largest_first_in_registry results p.
Proof.
  intros Hkeys (rb & docs & ra & -> & Hb & Ha).
  assert (NoDup (keys (rb ++ (p, docs) :: ra))) as Hnd.
  { rewrite Hkeys. unfold registry. apply NoDup_ListNoDup.
    repeat constructor; simpl; intuition discriminate. }
  unfold keys in Hkeys, Hnd. rewrite map_app in Hkeys, Hnd.
  simpl in Hkeys, Hnd.
  apply NoDup_app in Hnd as (_ & Hdis & _).
  assert (p ∉ keys rb) as Hp.
  { intros Hin. apply (Hdis p Hin). by left. }
  assert (documents_of (rb ++ (p, docs) :: ra) p = docs) as Hdocs.
  { unfold documents_of. rewrite assoc_app_r by done. simpl.
    by rewrite String.eqb_refl. }
  exists (keys rb), (keys ra). split; [done|].
  split; [unfold keys; rewrite map_app; simpl; set_solver|].
  rewrite Hdocs. split.
  - intros q Hq. apply assoc_of_key in Hq as (dq & Hdq).
    unfold documents_of. rewrite Hdq. simpl.
    apply assoc_elem_of in Hdq.
    apply elem_of_app in Hdq as [Hin|Hin].
    + rewrite Forall_forall in Hb. specialize (Hb _ Hin). simpl in Hb. lia.
    + apply elem_of_cons in Hin as [[= _ ->]|Hin]; [lia|].
      rewrite Forall_forall in Ha. by specialize (Ha _ Hin).
  - intros q Hq _. unfold documents_of. rewrite assoc_app_l by done.
    apply assoc_of_key in Hq as (dq & Hdq). rewrite Hdq. simpl.
    apply assoc_elem_of in Hdq.
    rewrite Forall_forall in Hb. by specialize (Hb _ Hdq).
Qed.

Lemma parse_all_examples_keys `{FileSystem} (examples_dir : string) :
  keys (parse_all_examples examples_dir) = registry.
Proof.
  unfold parse_all_examples, example_files. simpl.
  repeat destruct (path_exists _); reflexivity.
Qed.

End MostActive.

(** With one document each, youtube comes out as the most active platform
    because the batch result lists it first, although the registry lists
    twitter before youtube. *)
Lemma C8_counterexample :
  ∃ r,
    parse_all.generate_summary_report (H := Samples.runtime)
      youtube_then_twitter = Ok r ∧
    parse_all.most_active_platform r = Some "youtube" ∧
    ¬ largest_first_in_registry youtube_then_twitter "youtube" ∧
    largest_first_in_registry youtube_then_twitter "twitter".
Proof.
  eexists. split; [vm_compute; reflexivity|]. split; [reflexivity|]. split.
  - intros (before & after & Hreg & _ & _ & Hless).
    assert ("twitter" ∈ before) as Hin.
    { unfold registry in Hreg.
      destruct before as [|q before]; [discriminate|].
      injection Hreg as <- _. by left. }
    specialize (Hless "twitter" Hin). vm_compute in Hless.
    assert ("twitter" ∈ ["youtube"; "twitter"]) as Hk
      by (right; left).
    specialize (Hless Hk). lia.
  - exists [], ["instagram"; "tiktok"; "facebook"; "youtube"].
    split; [reflexivity|]. split; [right; left|]. split.
    + intros q Hq. unfold keys, youtube_then_twitter in Hq. simpl in Hq.
      apply elem_of_cons in Hq as [->|Hq]; [vm_compute; lia|].
      apply list_elem_of_singleton in Hq as ->. vm_compute. lia.
    + intros q Hq. by apply elem_of_nil in Hq.
Qed.

(** C8, amended.  The most active platform of a summary report has the
    largest document count, and among the platforms with that count it is
    the one the batch result lists first; it is absent exactly when the
    batch result is empty.  When the batch result lists the platforms in the
    registry's order (twitter, instagram, tiktok, facebook, youtube), as
    every result of [parse_all_examples] does, it is the one the registry
    lists first. *)
Theorem C8_most_active_is_earliest_largest `{PyRuntime}
  (results : list (string * list value)) (r : parse_all.report)
  (Hdict : NoDup (keys results))
  (Hr : parse_all.generate_summary_report results = Ok r) :
  match parse_all.most_active_platform r with
  | Some p => earliest_largest results p
  | None => results = []
  end ∧
  (keys results = registry →
   ∃ p, parse_all.most_active_platform r = Some p ∧
        largest_first_in_registry results p) ∧
  (∀ (fs : FileSystem) examples_dir,
     keys (parse_all.parse_all_examples examples_dir) = registry).
Proof.
  pose proof (most_active_earliest_largest results r Hdict Hr) as Hm.
  split; [exact Hm|]. split; [|intros; apply parse_all_examples_keys].
  intros Hkeys. destruct (parse_all.most_active_platform r) as [p|].
  - exists p. split; [reflexivity|].
    by apply earliest_largest_in_registry.
  - subst results. discriminate Hkeys.
Qed.

Lemma C8_witness :
  ∃ r,
    parse_all.generate_summary_report (H := Samples.runtime)
      youtube_then_twitter = Ok r ∧
    earliest_largest youtube_then_twitter "youtube".
Proof.
  assert (NoDup (keys youtube_then_twitter)) as Hdict.
  { apply NoDup_ListNoDup. repeat constructor; simpl; intuition discriminate. }
  destruct (parse_all.generate_summary_report (H := Samples.runtime)
              youtube_then_twitter) as [r|e] eqn:Hr; [|discriminate Hr].
  destruct (C8_most_active_is_earliest_largest (H := Samples.runtime)
              youtube_then_twitter r Hdict Hr) as (Hm & _).
  assert (parse_all.most_active_platform r = Some "youtube") as Hp.
  { vm_compute in Hr. injection Hr as <-. reflexivity. }
  rewrite Hp in Hm.
  exact (ex_intro _ r (conj eq_refl Hm)).
Defined.

(** ** Relative publication times *)

Lemma ago_caught `{PyRuntime} (text : value) (unit : Z) :
  try_except
    (youtube_parser.ago text unit ≫= λ timestamp, Ok (isoformat timestamp))
    (isoformat now)
  = isoformat now.
Proof.
  unfold youtube_parser.ago.
  by destruct (youtube_parser.first_number text) as [n|e].
Qed.

Lemma parse_youtube_timestamp_now `{PyRuntime} (text : value) :
  youtube_parser.parse_youtube_timestamp text = isoformat now.
Proof.
  unfold youtube_parser.parse_youtube_timestamp.
  destruct (negb (truthy text)); [reflexivity|].
  destruct (str_in "day" text) as [[|]|]; simpl;
    [apply ago_caught | | reflexivity].
  destruct (str_in "week" text) as [[|]|]; simpl;
    [apply ago_caught | | reflexivity].
  destruct (str_in "month" text) as [[|]|]; simpl;
    [apply ago_caught | | reflexivity].
  destruct (str_in "year" text) as [[|]|]; simpl;
    [apply ago_caught | | reflexivity].
  destruct (str_in "hour" text) as [[|]|]; simpl;
    [apply ago_caught | | reflexivity].
  destruct (str_in "minute" text) as [[|]|]; simpl;
    [apply ago_caught | reflexivity | reflexivity].
Qed.

(** C3, as the code behaves.  [parse_youtube_timestamp] answers with the
    current time whatever the text is, because the subtraction is never
    reached: on a host whose clock reads 2024-05-17T10:30:00.123456 the text
    ["3 days ago"] gives that very time, where three days earlier would be
    2024-05-14T10:30:00.123456. *)
Theorem C3_three_days_ago_gives_now :
  (∀ (rt : PyRuntime) (text : value),
     youtube_parser.parse_youtube_timestamp text = isoformat now) ∧
  youtube_parser.parse_youtube_timestamp (H := Samples.runtime)
    (VStr "3 days ago") = "2024-05-17T10:30:00.123456" ∧
  (dt ← minus (now (PyRuntime := Samples.runtime))
              (3 * youtube_parser.us_per_day);
   Ok (isoformat dt)) = Ok "2024-05-14T10:30:00.123456".
Proof.
  split; [intros; apply parse_youtube_timestamp_now|].
  split; reflexivity.
Qed.

(** ** Missing capture times *)

(** C5, as the code behaves.  The instagram builder gives a media item
    without [taken_at] and [device_timestamp] the timestamp of second 0 of
    the epoch, 1970-01-01T00:00:00 on a host in UTC, not the current time;
    the facebook and tiktok builders give an item without a time the
    current time. *)
Theorem C5_instagram_timestamp_is_epoch :
  (∃ doc,
     instagram_parser.create_media_document (H := Samples.runtime)
       Samples.instagram_media = Some doc ∧
     field doc "timestamp" = Some (VStr "1970-01-01T00:00:00") ∧
     isoformat (now (PyRuntime := Samples.runtime))
       = "2024-05-17T10:30:00.123456") ∧
  (∀ (rt : PyRuntime) media doc,
     instagram_parser.create_media_document media = Some doc →
     get media "device_timestamp" (VInt 0) = Ok (VInt 0) →
     get media "taken_at" (VInt 0) = Ok (VInt 0) →
     ∃ dt, fromtimestamp (NInt 0) = Ok dt ∧
           field doc "timestamp" = Some (VStr (isoformat dt))) ∧
  (∀ (rt : PyRuntime) post doc,
     facebook_parser.create_post_document post = Some doc →
     get post "timestamp" (VInt 0) = Ok (VInt 0) →
     field doc "timestamp" = Some (VStr (isoformat now))) ∧
  (∀ (rt : PyRuntime) video doc,
     tiktok_parser.create_video_document video = Some doc →
     get video "createTime" (VInt 0) = Ok (VInt 0) →
     field doc "timestamp" = Some (VStr (isoformat now))).
Proof.
  split; [eexists; split; [vm_compute; reflexivity|]; by split|].
  split; [|split].
  - intros rt media doc Hd Hdev Htaken.
    apply media_document_inv in Hd
      as (kvs & dev & taken & -> & Hflat & _ & Hdev' & Htaken' & Hts).
    rewrite Hdev in Hdev'. injection Hdev' as <-.
    rewrite Htaken in Htaken'. injection Htaken' as <-.
    simpl in Hts. destruct Hts as (dt & Hdt & Hts).
    exists dt. by rewrite (field_flat _ _ _ Hflat).
  - intros rt post doc Hd Hts.
    apply post_document_inv in Hd
      as (kvs & ? & ? & ? & ? & ts & -> & Hflat & _ & _ & _ & _ & _ & _ & _
          & Hts' & Hrule).
    rewrite Hts in Hts'. injection Hts' as <-.
    rewrite (field_flat _ _ _ Hflat). by apply Hrule.
  - intros rt video doc Hd Hts.
    apply tiktok_document_inv in Hd
      as (kvs & src & ? & ? & ts & -> & _ & Hsrc & _ & _ & _ & _ & Hts'
          & Hrule).
    rewrite Hts in Hts'. injection Hts' as <-.
    rewrite (field_enveloped _ _ _ Hsrc). by apply Hrule.
Qed.

(** ** The tallies of the summary report *)

(** A document without the key [_source] counts as neutral, of unknown
    language and without engagement, whatever its own fields say. *)
Lemma tally_document_flat `{PyRuntime} (platform : string)
  (kvs : list (string * value)) (sentiments languages : parse_all.tally)
  (total : Z) :
  assoc "_source" kvs = None → platform ∈ registry →
  parse_all.tally_document platform (sentiments, languages, VInt total)
    (VDict kvs)
  = Ok (parse_all.set_count (VStr "neutral")
          (parse_all.count_of (VStr "neutral") sentiments + 1) sentiments,
        parse_all.set_count (VStr "unknown")
          (parse_all.count_of (VStr "unknown") languages + 1) languages,
        VInt total).
Proof.
  intros Hsrc Hp. unfold parse_all.tally_document. simpl. rewrite Hsrc. simpl.
  unfold registry in Hp.
  repeat (apply elem_of_cons in Hp as [->|Hp];
          [simpl; by rewrite Z.add_0_r|]).
  by apply elem_of_nil in Hp.
Qed.

(** C1, as the code behaves.  The facebook parser returns for the sample
    post a document that is positive, in English, with 100 reactions and 7
    comments; the summary report counts it as neutral, of unknown language
    and with no engagement, because it looks for the fields under
    [_source].  The tiktok document of the same batch, which has the
    envelope, is counted with its own sentiment, language and engagement.
    Every document without the key [_source] is counted like the facebook
    one. *)
Theorem C1_flat_documents_are_not_tallied :
  (∃ doc metrics,
     facebook_parser.parse_facebook_json (H := Samples.runtime)
       Samples.facebook_data = [doc] ∧
     field doc "sentiment" = Some (VStr "positive") ∧
     field doc "language" = Some (VStr "en") ∧
     field doc "metrics" = Some metrics ∧
     get metrics "reactions_count" (VInt 0) = Ok (VInt 100) ∧
     get metrics "comments_count" (VInt 0) = Ok (VInt 7)) ∧
  (∃ r facebook tiktok,
     parse_all.generate_summary_report (H := Samples.runtime) sample_results
       = Ok r ∧
     parse_all.platforms r = [("facebook", facebook); ("tiktok", tiktok)] ∧
     parse_all.sentiment_breakdown facebook
       = [(VStr "positive", 0); (VStr "negative", 0); (VStr "neutral", 1)] ∧
     parse_all.language_breakdown facebook = [(VStr "unknown", 1)] ∧
     parse_all.total_engagement facebook = VInt 0 ∧
     parse_all.sentiment_breakdown tiktok
       = [(VStr "positive", 1); (VStr "negative", 0); (VStr "neutral", 0)] ∧
     parse_all.language_breakdown tiktok = [(VStr "mixed", 1)] ∧
     parse_all.total_engagement tiktok = VInt 33) ∧
  (∀ (rt : PyRuntime) platform kvs sentiments languages total,
     assoc "_source" kvs = None → platform ∈ registry →
     parse_all.tally_document platform (sentiments, languages, VInt total)
       (VDict kvs)
     = Ok (parse_all.set_count (VStr "neutral")
             (parse_all.count_of (VStr "neutral") sentiments + 1) sentiments,
           parse_all.set_count (VStr "unknown")
             (parse_all.count_of (VStr "unknown") languages + 1) languages,
           VInt total)).
Proof.
  split; [eexists _, _; split; [vm_compute; reflexivity|]; by repeat split|].
  split; [|intros; by apply tally_document_flat].
  eexists _, _, _. split; [vm_compute; reflexivity|]. by repeat split.
Qed.

(** ** Texts: lower case and containment *)

Lemma lower_char_idemp (c : ascii) : lower_char (lower_char c) = lower_char c.
Proof. destruct c as [[] [] [] [] [] [] [] []]; reflexivity. Qed.

Lemma lower_idemp (s : string) : lower (lower s) = lower s.
Proof.
  induction s as [|c r IH]; [reflexivity|].
  simpl. by rewrite lower_char_idemp, IH.
Qed.

Lemma lower_app (a b : string) : lower (a +:+ b) = lower a +:+ lower b.
Proof.
  induction a as [|c r IH]; simpl.
  - by rewrite !append_empty.
  - by rewrite !append_String, <- IH.
Qed.

Lemma lower_empty (s : string) : lower s = "" ↔ s = "".
Proof. destruct s; simpl; split; congruence. Qed.

Lemma truthy_lower (s : string) : truthy (VStr (lower s)) = truthy (VStr s).
Proof. by destruct s. Qed.

Lemma append_assoc (a b c : string) : (a +:+ b) +:+ c = a +:+ (b +:+ c).
Proof.
  induction a as [|x r IH]; [by rewrite !append_empty|].
  by rewrite !append_String, IH.
Qed.

Lemma prefix_app (w r : string) : String.prefix w (w +:+ r) = true.
Proof.
  induction w as [|c w IH]; [by destruct r|].
  rewrite append_String. simpl.
  destruct (ascii_dec c c); [done|congruence].
Qed.

Lemma prefix_inv (w s : string) :
  String.prefix w s = true → ∃ r, s = w +:+ r.
Proof.
  revert s. induction w as [|c w IH]; intros s Hp.
  - exists s. by rewrite append_empty.
  - destruct s as [|d s]; [discriminate|]. simpl in Hp.
    destruct (ascii_dec c d) as [->|]; [|discriminate].
    destruct (IH _ Hp) as [r ->]. exists r. by rewrite append_String.
Qed.

Lemma contains_unfold (w s : string) :
  contains w s
  = String.prefix w s
    || match s with "" => false | String _ r => contains w r end.
Proof. by destruct s. Qed.

Lemma contains_inv (w s : string) :
  contains w s = true → ∃ a b, s = a +:+ (w +:+ b).
Proof.
  induction s as [|c s IH]; rewrite contains_unfold.
  - rewrite orb_false_r. intros [b ->]%prefix_inv. exists "", b.
    by rewrite append_empty.
  - intros [[b Hb]%prefix_inv|Hc]%orb_true_iff.
    + exists "", b. by rewrite append_empty.
    + destruct (IH Hc) as (a & b & ->). exists (String c a), b.
      by rewrite append_String.
Qed.

Lemma contains_app (a w b : string) : contains w (a +:+ (w +:+ b)) = true.
Proof.
  induction a as [|c a IH].
  - rewrite append_empty, contains_unfold, prefix_app. done.
  - rewrite append_String, contains_unfold, IH. apply orb_true_r.
Qed.

Lemma contains_within (w s pre post : string) :
  contains w s = true → contains w (pre +:+ (s +:+ post)) = true.
Proof.
  intros (a & b & ->)%contains_inv.
  rewrite !append_assoc, <- (append_assoc pre a).
  apply contains_app.
Qed.
(** ** What a scan reports *)

Section ScanSound.
Variable pattern : string → option (string * nat).

Lemma findall_from_elem (tok s : string) (skip : nat) :
  tok ∈ Re.findall_from pattern skip s →
  ∃ a b n, s = a +:+ b ∧ pattern b = Some (tok, n).
Proof.
  revert skip. induction s as [|c r IH]; intros skip; simpl.
  - intros Hin. by apply elem_of_nil in Hin.
  - assert (Hlater : ∀ k, tok ∈ Re.findall_from pattern k r →
              ∃ a b n, String c r = a +:+ b ∧ pattern b = Some (tok, n)).
    { intros k Hin. destruct (IH _ Hin) as (a & b & n & -> & Hp).
      exists (String c a), b, n. by rewrite append_String. }
    destruct skip as [|k]; [|apply Hlater].
    destruct (pattern (String c r)) as [[t n]|] eqn:E; [|apply Hlater].
    intros [->|Hin]%elem_of_cons; [|by eapply Hlater].
    exists "", (String c r), n. by rewrite append_empty.
Qed.

End ScanSound.

Lemma run_split (cls : ascii → bool) (s : string) :
  ∃ rest, s = Re.run cls s +:+ rest ∧
          match rest with "" => True | String c _ => cls c = false end.
Proof.
  induction s as [|c r (rest & Hr & Hb)]; simpl.
  - by exists "".
  - destruct (cls c) eqn:E.
    + exists rest. by rewrite append_String, <- Hr.
    + exists (String c r). by rewrite append_empty.
Qed.








(** ** Sentiment, emotions and language of a text *)

(** X2: the sentiment, the language and the emotions found for a text are
    those found for the same text in lower case, in every parser: the
    analyses do not see the case of letters. *)
Theorem X2_analysis_ignores_case (s : string) :
  (∀ analyze, analyze ∈ sentiment_analysers →
     analyze (VStr (lower s)) = analyze (VStr s)) ∧
  (∀ detect, detect ∈ language_detectors →
     detect (VStr (lower s)) = detect (VStr s)) ∧
  (∀ detect table, (detect, table) ∈ emotion_detectors →
     detect (VStr (lower s)) = detect (VStr s)) ∧
  (∀ reactions,
     facebook_parser.detect_emotions (VStr (lower s)) reactions
     = facebook_parser.detect_emotions (VStr s) reactions).
Proof.
  assert (Hlow : lower_of (VStr (lower s)) = lower_of (VStr s))
    by (simpl; by rewrite lower_idemp).
  repeat split.
  - unfold sentiment_analysers. intros analyze Hin.
    repeat (apply elem_of_cons in Hin as [->|Hin];
            [cbv beta delta [twitter_parser.analyze_sentiment
               facebook_parser.analyze_sentiment
               youtube_parser.analyze_sentiment
               tiktok_parser.analyze_sentiment
               instagram_parser.analyze_sentiment];
             by rewrite ?truthy_lower, Hlow|]).
    by apply elem_of_nil in Hin.
  - unfold language_detectors. intros detect Hin.
    repeat (apply elem_of_cons in Hin as [->|Hin];
            [cbv beta delta [facebook_parser.detect_language
               youtube_parser.detect_language tiktok_parser.detect_language];
             by rewrite ?truthy_lower, Hlow|]).
    by apply elem_of_nil in Hin.
  - unfold emotion_detectors. intros detect table Hin.
    repeat (apply elem_of_cons in Hin as [[= -> ->]|Hin];
            [cbv beta delta [twitter_parser.detect_emotions
               youtube_parser.detect_emotions tiktok_parser.detect_emotions
               instagram_parser.detect_emotions];
             by rewrite ?truthy_lower, Hlow|]).
    by apply elem_of_nil in Hin.
  - intros reactions.
    unfold facebook_parser.detect_emotions, facebook_parser.text_emotions.
    rewrite truthy_lower, Hlow. reflexivity.
Qed.

Lemma matching_sublist (table : list (string * list string)) (text : string) :
  sublist (matching table text) (keys table).
Proof.
  unfold matching, keys.
  induction table as [|[k kws] table IH]; [constructor|].
  rewrite filter_cons. simpl.
  destruct (decide (any_hit kws text = true)); simpl; by constructor.
Qed.

Lemma apply_rules_elem (reactions total : value)
  (rules : list (string * Q * string)) (emotions : list string) :
  facebook_parser.apply_rules reactions total rules = Ok emotions →
  ∀ e, e ∈ emotions → e ∈ map snd rules.
Proof.
  revert emotions. induction rules as [|[[kind threshold] emotion] r IH];
    intros emotions; simpl.
  - intros [= <-] e Hin. by apply elem_of_nil in Hin.
  - intros Hr. split_binds Hr. injection Hr as <-.
    intros e Hin. apply elem_of_cons.
    match goal with
    | Hin : e ∈ (if ?b then _ else _) |- _ => destruct b
    end.
    + apply elem_of_cons in Hin as [->|Hin]; [by left|].
      right. by eapply IH.
    + right. by eapply IH.
Qed.

Lemma reaction_emotions_elem (reactions : value) (emotions : list string) :
  facebook_parser.reaction_emotions reactions = Ok emotions →
  ∀ e, e ∈ emotions → e ∈ keys facebook_parser.emotion_keywords.
Proof.
  unfold facebook_parser.reaction_emotions.
  assert (Hnil : ∀ e : string, e ∈ @nil string →
                   e ∈ keys facebook_parser.emotion_keywords)
    by (intros e Hin; by apply elem_of_nil in Hin).
  destruct (truthy reactions); [|by intros [= <-]].
  intros Hr. split_binds Hr.
  match type of Hr with
  | (if ?b then _ else _) = _ => destruct b
  end; [|by injection Hr as <-].
  intros e Hin. eapply apply_rules_elem in Hin; [|exact Hr].
  simpl in Hin.
  repeat (apply elem_of_cons in Hin as [->|Hin];
          [apply list_elem_of_In; simpl; tauto|]).
  by apply elem_of_nil in Hin.
Qed.

Lemma text_emotions_elem (text : value) (emotions : list string) :
  facebook_parser.text_emotions text = Ok emotions →
  ∀ e, e ∈ emotions → e ∈ keys facebook_parser.emotion_keywords.
Proof.
  unfold facebook_parser.text_emotions.
  destruct (truthy text).
  - intros Hr. split_binds Hr. injection Hr as <-.
    intros e Hin. eapply elem_of_sublist; [exact Hin|].
    apply matching_sublist.
  - intros [= <-] e Hin. by apply elem_of_nil in Hin.
Qed.

(** X3: the emotions a parser reports are labels of its keyword table, in
    the order of the table and without repeats; facebook, which adds the
    emotions read off the reactions, still reports only labels of its table,
    each once. *)
Theorem X3_emotions_are_labels_of_the_table :
  (∀ detect table text v,
     (detect, table) ∈ emotion_detectors → detect text = Ok v →
     ∃ emotions, v = strings emotions ∧ sublist emotions (keys table) ∧
                 NoDup emotions) ∧
  (∀ text reactions emotions,
     facebook_parser.detect_emotions text reactions = Ok emotions →
     NoDup emotions ∧
     ∀ e, e ∈ emotions → e ∈ keys facebook_parser.emotion_keywords).
Proof.
  split.
  - intros detect table text v Hin Hv.
    assert (Hbody :
      NoDup (keys table) ∧
      ((truthy text = false ∧ v = strings []) ∨
       ∃ text_lower, v = strings (matching table text_lower))).
    { unfold emotion_detectors in Hin.
      repeat (apply elem_of_cons in Hin as [[= -> ->]|Hin];
              [split; [by apply (bool_decide_unpack _); vm_compute|];
               cbv beta delta [twitter_parser.detect_emotions
                 youtube_parser.detect_emotions tiktok_parser.detect_emotions
                 instagram_parser.detect_emotions] in Hv;
               try (destruct (truthy text) eqn:Ht; simpl in Hv;
                    [|left; split; [done|by injection Hv as <-]]);
               split_binds Hv; injection Hv as <-; right; eexists;
               reflexivity|]).
      by apply elem_of_nil in Hin. }
    destruct Hbody as [Hnd [[_ ->]|[text_lower ->]]].
    + exists []. split; [done|]. split; [apply sublist_nil_l|constructor].
    + eexists. split; [done|].
      split; [apply matching_sublist|].
      exact (sublist_NoDup _ _ Hnd (matching_sublist _ _)).
  - intros text reactions emotions Hd.
    unfold facebook_parser.detect_emotions in Hd. split_binds Hd.
    injection Hd as <-.
    match goal with
    | |- NoDup (facebook_parser.distinct ?l) ∧ _ =>
        destruct (distinct_spec l) as [Hnd Hin]
    end.
    split; [exact Hnd|]. intros e He. apply Hin in He.
    apply elem_of_app in He as [He|He].
    + eapply text_emotions_elem; eassumption.
    + eapply reaction_emotions_elem; eassumption.
Qed.
Lemma any_hit_within (keywords : list string) (s pre post : string) :
  any_hit keywords (lower s) = true →
  any_hit keywords (lower (pre +:+ (s +:+ post))) = true.
Proof.
  unfold any_hit. rewrite !lower_app.
  induction keywords as [|w r IH]; [done|]. simpl.
  intros [Hw|Hr]%orb_true_iff.
  - by rewrite (contains_within _ _ _ _ Hw).
  - rewrite (IH Hr). apply orb_true_r.
Qed.

Lemma matching_within (table : list (string * list string))
  (s pre post e : string) :
  e ∈ matching table (lower s) →
  e ∈ matching table (lower (pre +:+ (s +:+ post))).
Proof.
  unfold matching.
  induction table as [|[k kws] table IH]; [done|].
  rewrite !filter_cons. simpl.
  destruct (decide (any_hit kws (lower s) = true)) as [Hs|Hs]; simpl.
  - rewrite decide_True by (by apply any_hit_within). simpl.
    intros [->|Hin]%elem_of_cons; [by left|]. right. by apply IH.
  - intros Hin%IH.
    destruct (decide _); simpl; [by right|done].
Qed.

Lemma within_nonempty (s pre post : string) :
  s ≠ "" → truthy (VStr (pre +:+ (s +:+ post))) = true.
Proof.
  destruct s as [|c r]; [done|]. intros _. rewrite append_String.
  pose proof (string_app_nonempty pre c (r +:+ post)) as Hne.
  simpl. destruct (pre +:+ String c (r +:+ post)); [done|reflexivity].
Qed.

Lemma emotion_detector_body (detect : value → result value)
  (table : list (string * list string)) :
  (detect, table) ∈ emotion_detectors →
  ∀ t, ∃ emotions,
    detect (VStr t) = Ok (strings emotions) ∧
    (emotions = matching table (lower t) ∨ (t = "" ∧ emotions = [])).
Proof.
  unfold emotion_detectors. intros Hin t.
  repeat (apply elem_of_cons in Hin as [[= -> ->]|Hin];
          [cbv beta delta [twitter_parser.detect_emotions
             youtube_parser.detect_emotions tiktok_parser.detect_emotions
             instagram_parser.detect_emotions];
           try (destruct t as [|c r];
                [exists []; split; [reflexivity|by right]|]);
           eexists; split; [reflexivity|by left]|]).
  by apply elem_of_nil in Hin.
Qed.

(** X4: text added before or after a text never takes an emotion away: the
    emotions found in a text are among those found in every text that
    contains it, in all five parsers. *)
Theorem X4_longer_text_keeps_emotions (pre s post : string) :
  (∀ detect table, (detect, table) ∈ emotion_detectors →
     ∃ emotions emotions',
       detect (VStr s) = Ok (strings emotions) ∧
       detect (VStr (pre +:+ s +:+ post)) = Ok (strings emotions') ∧
       ∀ e, e ∈ emotions → e ∈ emotions') ∧
  (∀ reactions emotions,
     facebook_parser.detect_emotions (VStr s) reactions = Ok emotions →
     ∃ emotions',
       facebook_parser.detect_emotions (VStr (pre +:+ s +:+ post)) reactions
       = Ok emotions' ∧
       ∀ e, e ∈ emotions → e ∈ emotions').
Proof.
  split.
  - intros detect table Hin.
    destruct (emotion_detector_body _ _ Hin s) as (emotions & Hs & Hes).
    destruct (emotion_detector_body _ _ Hin (pre +:+ s +:+ post))
      as (emotions' & Hb & Hes').
    exists emotions, emotions'. split; [exact Hs|]. split; [exact Hb|].
    destruct Hes' as [->|[Hbig ->]].
    + destruct Hes as [->|[_ ->]]; [intros e; apply matching_within|].
      intros e He. by apply elem_of_nil in He.
    + assert (s = "") as ->.
      { destruct s as [|c r]; [done|]. rewrite append_String in Hbig.
        by apply string_app_nonempty in Hbig. }
      rewrite Hbig, Hs in Hb.
      apply (f_equal (λ r, try_except r VNone)) in Hb. simpl in Hb.
      apply strings_inj in Hb as ->.
      intros e He. by apply elem_of_nil in He.
  - intros reactions emotions Hd.
    unfold facebook_parser.detect_emotions in Hd. split_binds Hd.
    injection Hd as <-.
    match goal with
    | Ht : facebook_parser.text_emotions _ = Ok ?ft,
      Hr : facebook_parser.reaction_emotions _ = Ok ?fr |- _ =>
        rename Ht into Htext; rename Hr into Hreact;
        rename ft into from_text; rename fr into from_reactions
    end.
    assert (∃ from_text',
              facebook_parser.text_emotions (VStr (pre +:+ s +:+ post))
              = Ok from_text' ∧
              ∀ e, e ∈ from_text → e ∈ from_text') as (from_text' & Hbig & Hsub).
    { unfold facebook_parser.text_emotions in *.
      destruct (decide (s = "")) as [->|Hs].
      - simpl in Htext. injection Htext as <-.
        destruct (truthy (VStr (pre +:+ "" +:+ post))); simpl;
          eexists; (split; [reflexivity|]);
          intros e He; by apply elem_of_nil in He.
      - rewrite (within_nonempty s pre post Hs).
        assert (Hsmall : truthy (VStr s) = true) by (by destruct s).
        rewrite Hsmall in Htext. simpl in Htext. injection Htext as <-.
        eexists. split; [reflexivity|]. intros e. apply matching_within. }
    destruct (detect_emotions_union _ _ _ _ Hbig Hreact)
      as (emotions' & Hd' & _ & Hin').
    exists emotions'. split; [exact Hd'|].
    intros e He. apply Hin'.
    destruct (distinct_spec (from_text ++ from_reactions)) as [_ Hin].
    apply Hin in He. apply elem_of_app in He as [He|He]; [left|right].
    + by apply Hsub.
    + exact He.
Qed.
(** ** Extraction loops *)

Lemma collected_lift {A} (a : A) (f : A → emit unit) :
  collected (lift (Ok a) ≫= f) = collected (f a).
Proof.
  unfold collected, mbind, emit_bind, Emit.bind, lift.
  by destruct (f a).
Qed.

Lemma collected_for_in (l : list value) (body : value → emit unit) :
  collected (for_in (VList l) body) = collected (for_each l body).
Proof. exact (collected_lift l (λ l, for_each l body)). Qed.

Lemma collected_for_each_cons (x : value) (r : list value)
  (body : value → emit unit) :
  collected (for_each (x :: r) body)
  = match body x with
    | (out, Ok _) => out ++ collected (for_each r body)
    | (out, Raise _) => out
    end.
Proof.
  simpl. unfold collected, mbind, emit_bind, Emit.bind.
  destruct (body x) as [out [[]|e]]; [|done].
  by destruct (for_each r body).
Qed.

(** A loop over entries of which the first [good] ones are handled without
    an exception, and the next one, if any, raises before it appends. *)
Lemma collected_until_malformed (body : value → emit unit)
  (kept : value → option value) (good rest : list value) :
  Forall (λ x, body x = (option_list (kept x), Ok tt)) good →
  match rest with
  | [] => True
  | bad :: _ => ∃ e, body bad = ([], Raise e)
  end →
  collected (for_each (good ++ rest) body) = omap kept good.
Proof.
  intros Hgood Hrest. induction Hgood as [|x good Hx _ IH]; simpl app.
  - destruct rest as [|bad after]; [done|].
    rewrite collected_for_each_cons. by destruct Hrest as [e ->].
  - rewrite collected_for_each_cons, Hx, IH. simpl.
    by destruct (kept x).
Qed.

Lemma extract_until_malformed (data : value) (k : string)
  (body : value → emit unit) (kept : value → option value)
  (good rest : list value) :
  (∀ x, dictionary x = true → body x = (option_list (kept x), Ok tt)) →
  (∀ x, dictionary x = false → ∃ e, body x = ([], Raise e)) →
  Forall (λ e, dictionary e = true) good → malformed_from rest →
  entries_of data k (good ++ rest) →
  collected (d ← lift (get data "data" (VDict []));
             entries ← lift (get d k (VList []));
             for_in entries body)
  = omap kept good.
Proof.
  intros Hdict Hbad Hgood Hrest (d & -> & Hentries).
  rewrite collected_lift, Hentries, collected_lift, collected_for_in.
  apply collected_until_malformed.
  - eapply Forall_impl; [exact Hgood|]. apply Hdict.
  - destruct rest as [|bad after]; [done|]. by apply Hbad.
Qed.

(** X5: the extractors of facebook, youtube and tiktok keep, in order, what
    they want of the entries up to the first entry that is not a dictionary;
    that entry ends the extraction, and no entry after it is looked at. *)
Theorem X5_extraction_stops_at_malformed_entry (data : value)
  (good rest : list value)
  (Hgood : Forall (λ entry, dictionary entry = true) good)
  (Hrest : malformed_from rest) :
  (entries_of data "results" (good ++ rest) →
   facebook_parser.extract_posts_from_data data = omap kept_post good) ∧
  (entries_of data "contents" (good ++ rest) →
   youtube_parser.extract_videos_from_data data = omap kept_video good) ∧
  (entries_of data "data" (good ++ rest) →
   tiktok_parser.extract_videos_from_data data = omap kept_item good).
Proof.
  repeat split; intros Hentries.
  - unfold facebook_parser.extract_posts_from_data.
    eapply extract_until_malformed; try eassumption.
    + intros [| | | | | |kvs]; try discriminate. intros _.
      unfold kept_post. simpl.
      by destruct (eq_str _ "post").
    + intros [| | | | | |kvs]; try discriminate; intros _; by eexists.
  - unfold youtube_parser.extract_videos_from_data.
    eapply extract_until_malformed; try eassumption.
    + intros [| | | | | |kvs]; try discriminate. intros _.
      unfold kept_video. simpl.
      destruct (eq_str _ "video"); [|done]. simpl.
      by destruct (truthy _).
    + intros [| | | | | |kvs]; try discriminate; intros _; by eexists.
  - unfold tiktok_parser.extract_videos_from_data.
    eapply extract_until_malformed; try eassumption.
    + intros [| | | | | |kvs]; try discriminate. intros _.
      unfold kept_item. simpl.
      destruct (eq_int _ 1); [|done]. simpl.
      by destruct (truthy _).
    + intros [| | | | | |kvs]; try discriminate; intros _; by eexists.
Qed.

Lemma X5_witness :
  facebook_parser.extract_posts_from_data facebook_data_broken
  = [Samples.facebook_post].
Proof.
  refine (proj1 (X5_extraction_stops_at_malformed_entry facebook_data_broken
                   [Samples.facebook_post]
                   [VStr "oops"; Samples.facebook_post] _ _) _).
  - repeat constructor.
  - reflexivity.
  - eexists. split; reflexivity.
Defined.

(** ** Documents and the items they are built from *)

Section RawData.
Context `{PyRuntime}.

Lemma tweet_document_raw (tweet doc : value) :
  twitter_parser.create_tweet_document tweet = Some doc →
  field doc "raw_data" = Some tweet.
Proof.
  intros Hd. destruct (tweet_document_inv _ _ Hd) as (kvs & Hrest).
  open_conj Hrest. subst doc.
  erewrite field_flat by eassumption. assumption.
Qed.

Lemma post_document_raw (post doc : value) :
  facebook_parser.create_post_document post = Some doc →
  field doc "raw_data" = Some post.
Proof.
  intros Hd%try_or_none_Some.
  unfold facebook_parser.post_document in Hd. split_binds Hd.
  by injection Hd as <-.
Qed.

Lemma youtube_document_raw (video doc : value) :
  youtube_parser.create_video_document video = Some doc →
  field doc "raw_data" = Some video.
Proof.
  intros Hd%try_or_none_Some.
  unfold youtube_parser.video_document in Hd. split_binds Hd.
  by injection Hd as <-.
Qed.

Lemma tiktok_document_raw (video doc : value) :
  tiktok_parser.create_video_document video = Some doc →
  field doc "raw_data" = Some video.
Proof.
  intros Hd%try_or_none_Some.
  unfold tiktok_parser.video_document in Hd. split_binds Hd.
  by injection Hd as <-.
Qed.

Lemma media_document_raw (media doc : value) :
  instagram_parser.create_media_document media = Some doc →
  field doc "raw_data" = Some media.
Proof.
  intros Hd%try_or_none_Some.
  unfold instagram_parser.media_document in Hd. split_binds Hd.
  by injection Hd as <-.
Qed.

Lemma documents_built_from (build : value → option value)
  (items : list value) :
  (∀ item d, build item = Some d → field d "raw_data" = Some item) →
  ∃ kept,
    sublist kept items ∧
    built_from (omap (λ item, match build item with
                              | Some d => if truthy d then Some d else None
                              | None => None
                              end) items) kept.
Proof.
  intros Hraw. induction items as [|item items (kept & Hsub & Hb)].
  - exists []. split; constructor.
  - simpl. destruct (build item) as [d|] eqn:E;
      [destruct (truthy d)|]; simpl.
    + exists (item :: kept). split; [by constructor|].
      constructor; [by apply Hraw|done].
    + exists kept. split; [by constructor|done].
    + exists kept. split; [by constructor|done].
Qed.

End RawData.

(** X6: the documents a parser returns are built, in order, from some of
    the items its extractor found: each document carries its item as
    [raw_data], no item gives two documents, and there are never more
    documents than items. *)
Theorem X6_documents_follow_the_extracted_items `{PyRuntime}
  (platform : string) (parse extract : value → list value) (data : value)
  (Hparse : (platform, parse) ∈ parse_all.parsers)
  (Hextract : (platform, extract) ∈ extractors) :
  (∃ kept, sublist kept (extract data) ∧ built_from (parse data) kept) ∧
  (length (parse data) ≤ length (extract data))%nat.
Proof.
  assert (∃ kept, sublist kept (extract data) ∧ built_from (parse data) kept)
    as (kept & Hsub & Hb).
  { unfold parse_all.parsers in Hparse. unfold extractors in Hextract.
    repeat (apply elem_of_cons in Hparse as [[Hp ->]%pair_equal_spec|Hparse]);
      [subst platform ..|by apply elem_of_nil in Hparse];
      repeat (apply elem_of_cons in Hextract
                as [[Hp ->]%pair_equal_spec|Hextract];
              [try discriminate Hp|]);
      try (by apply elem_of_nil in Hextract);
      apply documents_built_from;
      first [ apply tweet_document_raw | apply media_document_raw
            | apply tiktok_document_raw | apply post_document_raw
            | apply youtube_document_raw ]. }
  split; [by exists kept|].
  rewrite (Forall2_length _ _ _ Hb). by apply sublist_length.
Qed.

Lemma X6_witness :
  ∃ kept,
    sublist kept (facebook_parser.extract_posts_from_data
                    Samples.facebook_data) ∧
    built_from (facebook_parser.parse_facebook_json (H := Samples.runtime)
                  Samples.facebook_data) kept.
Proof.
  refine (proj1 (X6_documents_follow_the_extracted_items (H := Samples.runtime)
                   "facebook" _ _ Samples.facebook_data _ _)).
  - unfold parse_all.parsers. do 3 apply list_elem_of_further.
    apply list_elem_of_here.
  - unfold extractors. do 3 apply list_elem_of_further.
    apply list_elem_of_here.
Defined.
(** ** The summary report *)

Section Report.
Context `{PyRuntime}.
Import parse_all.

Lemma total_documents_from (results : list (string * list value)) (n : Z) :
  fold_left Z.add (map (λ pd, Z.of_nat (length pd.2)) results) n
  = n + Z.of_nat (length (all_documents results)).
Proof.
  unfold all_documents. revert n.
  induction results as [|[p docs] results IH]; intros n; simpl.
  - lia.
  - rewrite IH, length_app. lia.
Qed.

Lemma processed_follow (results : list (string * list value))
  (stats : list (string * platform_stat)) :
  Forall2 follows results stats →
  length (filter (λ ps, 0 < document_count ps.2) stats)
  = length (filter (λ pd, (0 < length pd.2)%nat) results).
Proof.
  induction 1 as [|pd ps results stats [_ Hcount] _ IH]; [done|].
  rewrite !filter_cons.
  destruct (decide (0 < document_count ps.2)) as [Hp|Hp];
    destruct (decide (0 < length pd.2)%nat) as [Hd|Hd]; simpl;
    first [ by rewrite IH | lia ].
Qed.

Lemma counted_set_count (k : value) (t : tally) :
  counted (set_count k (count_of k t + 1) t) = counted t + 1.
Proof.
  unfold counted. induction t as [|[k' n] t IH]; simpl; [lia|].
  destruct (key_eqb k k'); simpl; lia.
Qed.

Lemma keys_set_count (k : value) (n : Z) (t : tally) :
  ∃ new, map fst (set_count k n t) = map fst t ++ new.
Proof.
  induction t as [|[k' n'] t [new IH]]; simpl.
  - by exists [k].
  - destruct (key_eqb k k'); simpl.
    + exists []. by rewrite app_nil_r.
    + exists new. by rewrite IH.
Qed.

Lemma bump_counted (k : value) (t t' : tally) :
  bump k t = Ok t' →
  counted t' = counted t + 1 ∧ ∃ new, map fst t' = map fst t ++ new.
Proof.
  unfold bump. destruct (hashable k); [|discriminate].
  intros [= <-]. split; [apply counted_set_count|apply keys_set_count].
Qed.

Lemma tally_document_counted (platform : string) (doc : value)
  (sentiments languages sentiments' languages' : tally)
  (total total' : value) :
  tally_document platform (sentiments, languages, total) doc
  = Ok (sentiments', languages', total') →
  counted sentiments' = counted sentiments + 1 ∧
  counted languages' = counted languages + 1 ∧
  ∃ new, map fst sentiments' = map fst sentiments ++ new.
Proof.
  unfold tally_document. intros Ht. split_binds Ht.
  injection Ht as <- <- <-.
  repeat match goal with
         | Hb : bump _ _ = Ok _ |- _ => apply bump_counted in Hb as [? ?]
         end.
  done.
Qed.

Lemma tally_documents_counted (platform : string) (documents : list value)
  (sentiments languages sentiments' languages' : tally)
  (total total' : value) :
  tally_documents platform (sentiments, languages, total) documents
  = Ok (sentiments', languages', total') →
  counted sentiments' = counted sentiments + Z.of_nat (length documents) ∧
  counted languages' = counted languages + Z.of_nat (length documents) ∧
  ∃ new, map fst sentiments' = map fst sentiments ++ new.
Proof.
  revert sentiments languages total.
  induction documents as [|doc documents IH];
    intros sentiments languages total; simpl.
  - intros [= <- <- <-]. repeat split; [lia..|].
    exists []. by rewrite app_nil_r.
  - intros Ht. apply bind_Ok in Ht as ([[s1 l1] e1] & Hdoc & Ht).
    apply tally_document_counted in Hdoc as (Hs & Hl & new1 & Hk).
    apply IH in Ht as (Hs' & Hl' & new & Hk').
    repeat split; [lia..|].
    exists (new1 ++ new). by rewrite Hk', Hk, app_assoc.
Qed.

End Report.

(** X7: the report counts every document: a platform's [document_count] is
    the number of its documents, [total_documents] is the number of all
    documents of the batch, and [platforms_processed] is the number of
    platforms that have a document. *)
Theorem X7_report_counts_every_document `{PyRuntime}
  (results : list (string * list value)) (r : parse_all.report)
  (Hdict : NoDup (keys results))
  (Hr : parse_all.generate_summary_report results = Ok r) :
  Forall2 follows results (parse_all.platforms r) ∧
  parse_all.total_documents r = Z.of_nat (length (all_documents results)) ∧
  parse_all.platforms_processed r
  = Z.of_nat (length (filter (λ pd, (0 < length pd.2)%nat) results)).
Proof.
  unfold parse_all.generate_summary_report in Hr. split_binds Hr.
  injection Hr as <-. simpl.
  match goal with
  | Hs : parse_all.all_stats results [] = Ok _ |- _ =>
      apply all_stats_follow in Hs as (new & -> & Hnew); [|done]
  end.
  simpl. split; [exact Hnew|].
  split; [by rewrite total_documents_from|].
  by rewrite (processed_follow _ _ Hnew).
Qed.

Lemma X7_witness :
  ∃ r,
    parse_all.generate_summary_report (H := Samples.runtime) sample_results
    = Ok r ∧
    parse_all.total_documents r = 2 ∧ parse_all.platforms_processed r = 2.
Proof.
  assert (NoDup (keys sample_results)) as Hdict.
  { apply NoDup_ListNoDup. repeat constructor; simpl; intuition discriminate. }
  destruct (parse_all.generate_summary_report (H := Samples.runtime)
              sample_results) as [r|e] eqn:Hr; [|discriminate Hr].
  destruct (X7_report_counts_every_document (H := Samples.runtime)
              sample_results r Hdict Hr) as (_ & Htotal & Hprocessed).
  exact (ex_intro _ r (conj eq_refl (conj Htotal Hprocessed))).
Defined.

(** X8: every document of a platform is counted in exactly one sentiment
    and in exactly one language: the counts of either breakdown add up to
    the number of documents, and the breakdown of sentiments always opens
    with [positive], [negative] and [neutral]. *)
Theorem X8_every_document_is_counted_once (platform : string)
  (documents : list value) (st : parse_all.platform_stat)
  (Hst : parse_all.platform_stats_of platform documents = Ok st) :
  counted (parse_all.sentiment_breakdown st) = Z.of_nat (length documents) ∧
  counted (parse_all.language_breakdown st) = Z.of_nat (length documents) ∧
  ∃ others,
    map fst (parse_all.sentiment_breakdown st)
    = [VStr "positive"; VStr "negative"; VStr "neutral"] ++ others.
Proof.
  unfold parse_all.platform_stats_of in Hst.
  destruct documents as [|doc documents].
  - injection Hst as <-. simpl. repeat split. by exists [].
  - apply bind_Ok in Hst as ([[sentiments languages] total] & Ht & Hst).
    split_binds Hst. injection Hst as <-.
    apply tally_documents_counted in Ht as (Hs & Hl & new & Hk).
    simpl parse_all.sentiment_breakdown. simpl parse_all.language_breakdown.
    repeat split; [exact Hs|exact Hl|]. by exists new.
Qed.

Lemma X8_witness :
  ∃ st,
    parse_all.platform_stats_of "tiktok"
      (tiktok_parser.parse_tiktok_json (H := Samples.runtime)
         Samples.tiktok_data) = Ok st ∧
    counted (parse_all.sentiment_breakdown st) = 1.
Proof.
  destruct (parse_all.platform_stats_of "tiktok"
              (tiktok_parser.parse_tiktok_json (H := Samples.runtime)
                 Samples.tiktok_data)) as [st|e] eqn:Hst;
    [|discriminate Hst].
  destruct (X8_every_document_is_counted_once _ _ st Hst) as (Hs & _).
  exact (ex_intro _ st (conj eq_refl Hs)).
Defined.
(** ** Reading a file *)

Section Files.
Context `{PyRuntime} `{FileSystem}.
Import parse_all.

Lemma parse_platform_data_registry (platform : string) (data : value) :
  parse_platform_data platform data
  = if bool_decide (platform ∈ registry) then Ok (parsed platform data)
    else Raise ValueError.
Proof.
  unfold parse_platform_data, parsed.
  destruct (assoc platform parsers) as [parser_func|] eqn:E.
  - rewrite bool_decide_eq_true_2; [done|].
    rewrite <- registry_keys. unfold keys.
    apply assoc_elem_of in E.
    apply list_elem_of_In, in_map_iff. exists (platform, parser_func).
    split; [done|]. by apply list_elem_of_In.
  - rewrite bool_decide_eq_false_2; [done|].
    rewrite <- registry_keys. intros [v Hv]%assoc_of_key. congruence.
Qed.

Lemma filter_none {A} (P : A → Prop) `{!∀ x, Decision (P x)} (l : list A) :
  Forall (λ x, ¬ P x) l → filter P l = [].
Proof.
  induction 1 as [|x l Hx _ IH]; [done|].
  by rewrite filter_cons_False.
Qed.

End Files.

(** X9: without a platform argument, [parse_file] takes the first platform
    of the registry whose name occurs in the lower-cased base name of the
    path, whatever else the name contains, and then does what it does when
    that platform is given: it loads the file and runs that platform's
    parser. *)
Theorem X9_platform_detected_from_file_name `{PyRuntime} `{FileSystem}
  (file_path platform : string) (before after : list string)
  (Hregistry : registry = before ++ platform :: after)
  (Hname : contains platform (lower (parse_all.basename file_path)) = true)
  (Hbefore : Forall (λ p, contains p (lower (parse_all.basename file_path))
                          = false) before) :
  parse_all.parse_file file_path None
  = parse_all.parse_file file_path (Some platform) ∧
  parse_all.parse_file file_path (Some platform)
  = (data ← json_load file_path; Ok (parsed platform data)).
Proof.
  unfold parse_all.parse_file. split.
  - rewrite registry_keys, Hregistry, filter_app, filter_cons_True by done.
    rewrite filter_none; [done|].
    eapply Forall_impl; [exact Hbefore|]. simpl. congruence.
  - simpl. destruct (json_load file_path) as [data|e]; [|done]. simpl.
    rewrite parse_platform_data_registry, bool_decide_eq_true_2; [done|].
    rewrite Hregistry. apply elem_of_app. right. by left.
Qed.

Lemma X9_witness :
  parse_all.parse_file (H := Samples.runtime) (H0 := Samples.no_files)
    "runs/Instagram-vs-TikTok.json" None
  = parse_all.parse_file (H := Samples.runtime) (H0 := Samples.no_files)
      "runs/Instagram-vs-TikTok.json" (Some "instagram").
Proof.
  refine (proj1 (X9_platform_detected_from_file_name
                   (H := Samples.runtime) (H0 := Samples.no_files)
                   "runs/Instagram-vs-TikTok.json" "instagram"
                   ["twitter"] ["tiktok"; "facebook"; "youtube"] _ _ _)).
  - reflexivity.
  - reflexivity.
  - repeat constructor.
Defined.

(** X10: what [parse_file] and [parse_platform_data] refuse.  A file whose
    name shows no platform of the registry is refused with [ValueError]
    before it is opened; a platform that is given but not in the registry
    (the comparison sees the case of letters) is refused only after the file
    has been loaded, so that a failure to load comes first; and
    [parse_platform_data] raises for exactly the platforms outside the
    registry. *)
Theorem X10_unknown_platform_is_refused `{PyRuntime} `{FileSystem}
  (file_path platform : string) (data : value) :
  (Forall (λ p, contains p (lower (parse_all.basename file_path)) = false)
     registry →
   parse_all.parse_file file_path None = Raise ValueError) ∧
  (platform ∉ registry →
   parse_all.parse_file file_path (Some platform)
   = (_ ← json_load file_path; Raise ValueError)) ∧
  (platform ∉ registry ↔
   parse_all.parse_platform_data platform data = Raise ValueError) ∧
  parse_all.parse_platform_data "Twitter" data = Raise ValueError.
Proof.
  repeat split.
  - intros Hnone. unfold parse_all.parse_file.
    rewrite registry_keys, filter_none; [done|].
    eapply Forall_impl; [exact Hnone|]. simpl. congruence.
  - intros Hp. unfold parse_all.parse_file. simpl.
    destruct (json_load file_path) as [d|e]; [|done]. simpl.
    by rewrite parse_platform_data_registry, bool_decide_eq_false_2.
  - intros Hp.
    by rewrite parse_platform_data_registry, bool_decide_eq_false_2.
  - rewrite parse_platform_data_registry.
    destruct (bool_decide_reflect (platform ∈ registry)); [discriminate|done].
Qed.
(** ** The id of a video *)

Lemma string_of_list_ascii_snoc (l : list ascii) (c : ascii) (r : string) :
  string_of_list_ascii (l ++ [c]) +:+ r
  = string_of_list_ascii l +:+ String c r.
Proof.
  induction l as [|x l IH]; simpl.
  - by rewrite append_String, !append_empty.
  - by rewrite !append_String, IH.
Qed.

Lemma append_empty_r (s : string) : s +:+ "" = s.
Proof.
  induction s as [|c r IH]; [done|]. by rewrite append_String, IH.
Qed.

Lemma split_from_String (sep : string) (c : ascii) (r : string)
  (cur : list ascii) :
  split_from sep 0 cur (String c r)
  = if String.prefix sep (String c r)
    then string_of_list_ascii (rev cur)
           :: split_from sep (String.length sep - 1) [] r
    else split_from sep 0 (c :: cur) r.
Proof. reflexivity. Qed.

Lemma split_from_head (sep s : string) (cur : list ascii) :
  ∃ piece more,
    split_from sep 0 cur s
    = (string_of_list_ascii (rev cur) +:+ piece) :: more.
Proof.
  revert cur. induction s as [|c r IH]; intros cur.
  - exists "", []. by rewrite append_empty_r.
  - rewrite split_from_String. destruct (String.prefix sep (String c r)).
    + eexists "", _. rewrite append_empty_r. reflexivity.
    + destruct (IH (c :: cur)) as (piece & more & ->).
      exists (String c piece), more. simpl.
      by rewrite string_of_list_ascii_snoc.
Qed.

Lemma id_char_not (c : ascii) :
  is_id_char c = true → c ≠ "?"%char ∧ c ≠ "&"%char ∧ c ≠ "="%char.
Proof.
  intros Hc. repeat split; intros ->; discriminate Hc.
Qed.

Lemma prefix_String (a : ascii) (s1 : string) (b : ascii) (s2 : string) :
  String.prefix (String a s1) (String b s2)
  = if ascii_dec a b then String.prefix s1 s2 else false.
Proof. reflexivity. Qed.

(** Decides a prefix test character by character. *)
Ltac compare_characters :=
  repeat (rewrite prefix_String;
          let E := fresh "E" in
          destruct (ascii_dec _ _) as [E|];
          [try discriminate E; try subst|reflexivity]);
  try reflexivity.

Lemma no_separator_in_id (a rest : string) :
  id_text a = true → id_end rest →
  String.prefix "watch?v=" (a +:+ rest) = false.
Proof.
  intros Ha Hrest.
  do 6 (destruct a as [|? a];
        [rewrite ?append_String, append_empty;
         destruct Hrest as [->|[q ->]]; by compare_characters
        |simpl in Ha; apply andb_prop in Ha as [? Ha]]).
  rewrite !append_String. compare_characters.
  match goal with Hc : is_id_char "?" = true |- _ => discriminate Hc end.
Qed.

Lemma split_passes_id (id rest : string) (cur : list ascii) :
  id_text id = true → id_end rest →
  split_from "watch?v=" 0 cur (id +:+ rest)
  = split_from "watch?v=" 0 (rev (list_ascii_of_string id) ++ cur) rest.
Proof.
  revert cur. induction id as [|c id IH]; intros cur Hid Hrest.
  - by rewrite append_empty.
  - pose proof (no_separator_in_id _ _ Hid Hrest) as Hno.
    simpl in Hid. apply andb_prop in Hid as [_ Hid].
    rewrite append_String in *.
    rewrite split_from_String, Hno, IH by done.
    simpl. by rewrite <- app_assoc.
Qed.

Lemma split_at_ampersand (id rest : string) (cur : list ascii) :
  id_text id = true → id_end rest →
  ∃ more,
    split_from "&" 0 cur (id +:+ rest)
    = (string_of_list_ascii (rev cur) +:+ id) :: more.
Proof.
  revert cur. induction id as [|c id IH]; intros cur Hid Hrest.
  - rewrite append_empty.
    rewrite append_empty_r.
    destruct Hrest as [->|[q ->]].
    + by exists [].
    + exists (split_from "&" 0 [] q). by destruct q.
  - simpl in Hid. apply andb_prop in Hid as [Hc Hid].
    apply id_char_not in Hc as (_ & Hamp & _).
    rewrite append_String, split_from_String, prefix_String.
    destruct (ascii_dec "&" c) as [<-|_]; [done|].
    destruct (IH (c :: cur) Hid Hrest) as [more ->].
    exists more. simpl. by rewrite string_of_list_ascii_snoc.
Qed.

Lemma id_from_watch_url (id rest : string) :
  id_text id = true → id_end rest →
  ∃ before after more more',
    split "watch?v=" (watch_url id +:+ rest) = before :: after :: more ∧
    split "&" after = id :: more'.
Proof.
  intros Hid Hrest.
  assert (split "watch?v=" (watch_url id +:+ rest)
          = "https://www.youtube.com/"
              :: split_from "watch?v=" 0 [] (id +:+ rest)) as ->.
  { unfold watch_url. rewrite append_assoc.
    generalize (id +:+ rest). intros t. by destruct t. }
  rewrite split_passes_id by done. rewrite app_nil_r.
  destruct Hrest as [->|[query ->]].
  - exists "https://www.youtube.com/", id, [].
    destruct (split_at_ampersand id "" [] Hid) as [more Hmore]; [by left|].
    rewrite append_empty, append_empty_r in Hmore. exists more. split; [|exact Hmore].
    simpl. rewrite rev_involutive. by rewrite string_of_list_ascii_of_string.
  - change (split_from "watch?v=" 0 (rev (list_ascii_of_string id))
              (String "&" query))
      with (split_from "watch?v=" 0
              ("&"%char :: rev (list_ascii_of_string id)) query).
    destruct (split_from_head "watch?v=" query
                ("&"%char :: rev (list_ascii_of_string id)))
      as (piece & more & ->).
    simpl rev. rewrite rev_involutive, string_of_list_ascii_snoc.
    rewrite string_of_list_ascii_of_string.
    destruct (split_at_ampersand id (String "&" piece) [] Hid)
      as [more' Hmore]; [right; by eexists|].
    rewrite append_empty in Hmore.
    by exists "https://www.youtube.com/", (id +:+ String "&" piece), more, more'.
Qed.
Lemma youtube_document_id `{PyRuntime} (video doc : value) :
  youtube_parser.create_video_document video = Some doc →
  ∃ video_id title description,
    youtube_parser.extract_video_id video = Ok video_id ∧
    get video "title" (VStr "") = Ok title ∧
    get video "descriptionSnippet" (VStr "") = Ok description ∧
    field doc "platform_id" = Some video_id ∧
    field doc "url"
    = Some (VStr (if truthy video_id
                  then "https://www.youtube.com/watch?v=" +:+ str video_id
                  else "")) ∧
    field doc "category"
    = Some (VStr (youtube_parser.determine_category title description)).
Proof.
  intros Hd%try_or_none_Some.
  unfold youtube_parser.video_document in Hd. split_binds Hd.
  injection Hd as <-. by eexists _, _, _.
Qed.

(** X11: the address a youtube document gets leads back to its id.  From a
    video that has no [videoId] and no navigation endpoint, but a link made
    of the watch address, an id of letters, digits, [_] and [-], and
    possibly further parameters after [&], the parser reads exactly that id;
    and the document it builds has that id and the watch address of that id
    as its [url]. *)
Theorem X11_watch_url_leads_back_to_the_id `{PyRuntime}
  (kvs : list (string * value)) (id rest : string)
  (Hid : id ≠ "" ∧ id_text id = true) (Hrest : id_end rest)
  (Hno_id : assoc "videoId" kvs = None ∧
            assoc "navigationEndpoint" kvs = None)
  (Hlink : assoc "link" kvs = Some (VStr (watch_url id +:+ rest))) :
  youtube_parser.extract_video_id (VDict kvs) = Ok (VStr id) ∧
  ∀ doc,
    youtube_parser.create_video_document (VDict kvs) = Some doc →
    field doc "platform_id" = Some (VStr id) ∧
    field doc "url" = Some (VStr (watch_url id)).
Proof.
  destruct Hid as [Hne Hid]. destruct Hno_id as [Hvid Hnav].
  assert (Hextract : youtube_parser.extract_video_id (VDict kvs)
                     = Ok (VStr id)).
  { unfold youtube_parser.extract_video_id, get.
    rewrite Hvid, Hnav, Hlink.
    cbn -[contains split String.append watch_url].
    assert (contains "watch?v=" (watch_url id +:+ rest) = true) as ->.
    { unfold watch_url. rewrite append_assoc.
      apply (contains_app "https://www.youtube.com/" "watch?v=" (id +:+ rest)). }
    destruct (id_from_watch_url id rest Hid Hrest)
      as (before & after & more & more' & -> & ->).
    reflexivity. }
  split; [exact Hextract|].
  intros doc (video_id & title & description & Hv & _ & _ & Hpid & Hurl & _)
    %youtube_document_id.
  rewrite Hextract in Hv. injection Hv as <-.
  split; [exact Hpid|]. rewrite Hurl. simpl.
  destruct id; [done|reflexivity].
Qed.

Lemma X11_witness :
  youtube_parser.extract_video_id
    (linked_video "https://www.youtube.com/watch?v=dQw4w9WgXcQ&t=42s")
  = Ok (VStr "dQw4w9WgXcQ").
Proof.
  refine (proj1 (X11_watch_url_leads_back_to_the_id (H := Samples.runtime)
                   [("title", VStr "Clip");
                    ("link", VStr "https://www.youtube.com/watch?v=dQw4w9WgXcQ&t=42s")]
                   "dQw4w9WgXcQ" "&t=42s" _ _ _ _)).
  - split; [discriminate|reflexivity].
  - right. by eexists.
  - split; reflexivity.
  - reflexivity.
Defined.
(** ** Categories *)

Lemma filter_first {A} (P : A → Prop) `{!∀ x, Decision (P x)}
  (before : list A) (x : A) (after : list A) :
  P x → Forall (λ y, ¬ P y) before →
  filter P (before ++ x :: after) = x :: filter P after.
Proof.
  intros Hx Hbefore. rewrite filter_app, filter_none by done.
  by rewrite filter_cons_True.
Qed.

Lemma filter_nil_Forall {A} (P : A → Prop) `{!∀ x, Decision (P x)}
  (l : list A) :
  filter P l = [] ↔ Forall (λ y, ¬ P y) l.
Proof.
  split; [|apply filter_none].
  induction l as [|x l IH]; [constructor|].
  rewrite filter_cons. destruct (decide (P x)); [discriminate|].
  intros Hl. constructor; [done|by apply IH].
Qed.

Lemma not_true_false (b : bool) : b ≠ true ↔ b = false.
Proof. destruct b; split; congruence. Qed.

Lemma matching_first (before : list (string * list string))
  (category : string) (keywords : list string)
  (after : list (string * list string)) (text : string) :
  any_hit keywords text = true → Forall (misses text) before →
  matching (before ++ (category, keywords) :: after) text
  = category :: matching after text.
Proof.
  intros Hhit Hbefore. unfold matching.
  rewrite filter_first; [done|done|].
  eapply Forall_impl; [exact Hbefore|].
  intros bucket. unfold misses. congruence.
Qed.

Lemma matching_nil_iff (table : list (string * list string)) (text : string) :
  matching table text = [] ↔ Forall (misses text) table.
Proof.
  unfold matching, misses. split.
  - intros Hm. apply map_eq_nil in Hm. apply filter_nil_Forall in Hm.
    eapply Forall_impl; [exact Hm|]. intros bucket. apply not_true_false.
  - intros Hm. rewrite filter_none; [done|].
    eapply Forall_impl; [exact Hm|]. intros bucket. apply not_true_false.
Qed.

Lemma any_hit_elem (keywords : list string) (keyword text : string) :
  keyword ∈ keywords → contains keyword text = true →
  any_hit keywords text = true.
Proof.
  unfold any_hit. intros Hin Hc. apply existsb_exists.
  exists keyword. split; [by apply list_elem_of_In|done].
Qed.

(** X12: the youtube category of a video is the first bucket of the table,
    in the order of the table, one of whose keywords occurs in the
    lower-cased title and description, and [general] exactly when no keyword
    of any bucket occurs.  So a keyword that an earlier bucket lists as well
    never decides: a text showing [game] or [review] is filed under [gaming]
    (or under [music], the only bucket before it), never under [sports] or
    [technology], which list the same words. *)
Theorem X12_category_is_the_first_bucket_that_hits `{PyRuntime}
  (title description : value) :
  (∀ before category keywords after,
     youtube_parser.categories = before ++ (category, keywords) :: after →
     any_hit keywords (category_text title description) = true →
     Forall (misses (category_text title description)) before →
     youtube_parser.determine_category title description = category) ∧
  (youtube_parser.determine_category title description = "general" ↔
   Forall (misses (category_text title description))
     youtube_parser.categories) ∧
  (contains "game" (category_text title description) = true ∨
   contains "review" (category_text title description) = true →
   youtube_parser.determine_category title description
     ∈ ["music"; "gaming"]) ∧
  (∀ video doc,
     youtube_parser.create_video_document video = Some doc →
     get video "title" (VStr "") = Ok title →
     get video "descriptionSnippet" (VStr "") = Ok description →
     field doc "category"
     = Some (VStr (youtube_parser.determine_category title description))).
Proof.
  assert (Hfirst : ∀ before category keywords after,
     youtube_parser.categories = before ++ (category, keywords) :: after →
     any_hit keywords (category_text title description) = true →
     Forall (misses (category_text title description)) before →
     youtube_parser.determine_category title description = category).
  { intros before category keywords after Htable Hhit Hbefore.
    unfold youtube_parser.determine_category. fold (category_text title description).
    by rewrite Htable, matching_first. }
  split; [exact Hfirst|]. split; [|split].
  - unfold youtube_parser.determine_category.
    fold (category_text title description).
    rewrite <- matching_nil_iff.
    pose proof (matching_sublist youtube_parser.categories
                  (category_text title description)) as Hsub.
    destruct (matching _ _) as [|category rest] eqn:E; [done|].
    split; [|discriminate]. intros ->. exfalso.
    pose proof (elem_of_sublist _ _ "general" (list_elem_of_here _ _) Hsub)
      as Hin.
    apply list_elem_of_In in Hin. simpl in Hin.
    intuition discriminate.
  - intros Hshared.
    assert (∃ music gaming rest,
              youtube_parser.categories
              = ("music", music) :: ("gaming", gaming) :: rest ∧
              "game" ∈ gaming ∧ "review" ∈ gaming)
      as (music & gaming & rest & Htable & Hgame & Hreview).
    { eexists _, _, _. split; [reflexivity|].
      split; apply list_elem_of_In; simpl; tauto. }
    destruct (any_hit music (category_text title description)) eqn:Hmusic.
    + rewrite (Hfirst [] "music" music _ Htable Hmusic (Forall_nil_2 _)).
      apply list_elem_of_here.
    + rewrite (Hfirst [("music", music)] "gaming" gaming rest Htable).
      * apply list_elem_of_further, list_elem_of_here.
      * destruct Hshared as [Hc|Hc].
        -- exact (any_hit_elem _ _ _ Hgame Hc).
        -- exact (any_hit_elem _ _ _ Hreview Hc).
      * constructor; [exact Hmusic|constructor].
  - intros video doc
      (video_id & title' & description' & _ & Ht & Hd & _ & _ & Hc)
      %youtube_document_id Htitle Hdescription.
    rewrite Ht in Htitle. rewrite Hd in Hdescription.
    injection Htitle as ->. injection Hdescription as ->. exact Hc.
Qed.
(** X13: tiktok files a video by its hashtags before it looks at the
    description: the first bucket of the table one of whose keywords is a
    hashtag of the video (compared in lower case, as a whole) decides,
    whatever the description says; only when no bucket has such a keyword
    does the first bucket decide of which a keyword occurs in the lower-cased
    description; and when that fails too, an original sound makes the video
    [music], anything else [general]. *)
Theorem X13_hashtags_decide_before_the_description (desc : string)
  (hashtags : list string) (music_info : value) :
  (∀ before category keywords after,
     tiktok_parser.categories = before ++ (category, keywords) :: after →
     tiktok_parser.any_member keywords (map lower hashtags) = true →
     Forall (misses_hashtags hashtags) before →
     tiktok_parser.determine_category (VStr desc) hashtags music_info
     = Ok category) ∧
  (Forall (misses_hashtags hashtags) tiktok_parser.categories →
   ∀ before category keywords after,
     tiktok_parser.categories = before ++ (category, keywords) :: after →
     any_hit keywords (lower desc) = true →
     Forall (misses (lower desc)) before →
     tiktok_parser.determine_category (VStr desc) hashtags music_info
     = Ok category) ∧
  (Forall (misses_hashtags hashtags) tiktok_parser.categories →
   Forall (misses (lower desc)) tiktok_parser.categories →
   tiktok_parser.determine_category (VStr desc) hashtags music_info
   = (original ← get music_info "original" (VBool false);
      Ok (if truthy original then "music" else "general"))).
Proof.
  assert (Hnone : Forall (misses_hashtags hashtags) tiktok_parser.categories →
            filter (λ kw : string * list string,
                      tiktok_parser.any_member kw.2 (map lower hashtags)
                      = true) tiktok_parser.categories = []).
  { intros Hm. apply filter_none.
    eapply Forall_impl; [exact Hm|]. intros bucket. apply not_true_false. }
  repeat split.
  - intros before category keywords after Htable Hhit Hbefore.
    unfold tiktok_parser.determine_category. simpl lower_of.
    cbn [mbind result_bind Py.bind]. rewrite Htable, filter_first; [done|done|].
    eapply Forall_impl; [exact Hbefore|]. intros bucket. apply not_true_false.
  - intros Hm before category keywords after Htable Hhit Hbefore.
    unfold tiktok_parser.determine_category. simpl lower_of.
    cbn [mbind result_bind Py.bind]. rewrite (Hnone Hm).
    by rewrite Htable, matching_first.
  - intros Hm Htext.
    unfold tiktok_parser.determine_category. simpl lower_of.
    cbn [mbind result_bind Py.bind]. rewrite (Hnone Hm).
    apply matching_nil_iff in Htext. rewrite Htext.
    destruct (get music_info "original" (VBool false)) as [original|]; [|done].
    simpl. by destruct (truthy original).
Qed.

Lemma X13_witness :
  tiktok_parser.determine_category (VStr "my cat is so funny")
    ["Dance"; "fyp"] (VDict [])
  = Ok "dance".
Proof.
  refine (proj1 (X13_hashtags_decide_before_the_description
                   "my cat is so funny" ["Dance"; "fyp"] (VDict []))
            [] "dance" _ _ eq_refl _ _).
  - reflexivity.
  - constructor.
Defined.

(** ** Videos that give no document *)

Lemma omap_unfold {A B} (f : A → option B) (x : A) (l : list A) :
  omap f (x :: l)
  = match f x with Some y => y :: omap f l | None => omap f l end.
Proof. reflexivity. Qed.

Lemma omap_shorter {A B} (f : A → option B) (l : list A) :
  (length (omap f l) ≤ length l)%nat.
Proof.
  induction l as [|x l IH]; [done|].
  rewrite omap_unfold. destruct (f x); simpl; lia.
Qed.

Lemma dropped_item_shortens {A B} (f : A → option B) (items : list A)
  (item : A) :
  item ∈ items → f item = None →
  (length (omap f items) < length items)%nat.
Proof.
  intros Hin Hnone.
  induction items as [|x items IH]; [by apply elem_of_nil in Hin|].
  rewrite omap_unfold.
  apply elem_of_cons in Hin as [<-|Hin].
  - rewrite Hnone. pose proof (omap_shorter f items). simpl. lia.
  - specialize (IH Hin). destruct (f x); simpl; lia.
Qed.

(** X14: a youtube video whose [lengthSeconds] is not a whole number (a
    text such as ["125"], a fraction, [None]) and is not zero gives no
    document: formatting the duration raises, the builder answers [None],
    and the parser returns fewer documents than it found videos. *)
Theorem X14_video_without_whole_seconds_is_dropped `{PyRuntime}
  (video secs : value)
  (Hsecs : get video "lengthSeconds" (VInt 0) = Ok secs)
  (Hbad : ¬ whole_seconds secs) :
  (∃ e, youtube_parser.format_duration secs = Raise e) ∧
  youtube_parser.create_video_document video = None ∧
  ∀ data,
    video ∈ youtube_parser.extract_videos_from_data data →
    (length (youtube_parser.parse_youtube_json data)
     < length (youtube_parser.extract_videos_from_data data))%nat.
Proof.
  assert (Hraise : ∃ e, youtube_parser.format_duration secs = Raise e).
  { unfold youtube_parser.format_duration.
    destruct (eq_int secs 0) eqn:Hz; [destruct Hbad; by left|].
    destruct (num_of secs) as [[z|q]|] eqn:Hn; [|by eexists..].
    destruct Hbad. right. by exists z. }
  assert (Hnone : youtube_parser.create_video_document video = None).
  { destruct (youtube_parser.create_video_document video) as [doc|] eqn:Hd;
      [|done].
    apply video_document_inv in Hd as (kvs & Hrest). open_conj Hrest.
    match goal with
    | Hg : get video "lengthSeconds" (VInt 0) = Ok ?s,
      Hf : youtube_parser.format_duration ?s = Ok _ |- _ =>
        rewrite Hsecs in Hg; injection Hg as <-;
        destruct Hraise as [e He]; rewrite He in Hf; discriminate Hf
    end. }
  split; [exact Hraise|]. split; [exact Hnone|].
  intros data Hin. unfold youtube_parser.parse_youtube_json.
  eapply dropped_item_shortens; [exact Hin|]. by rewrite Hnone.
Qed.

Lemma X14_witness :
  youtube_parser.create_video_document (H := Samples.runtime)
    video_with_text_length = None.
Proof.
  refine (proj1 (proj2 (X14_video_without_whole_seconds_is_dropped
                          (H := Samples.runtime) video_with_text_length
                          (VStr "125") eq_refl _))).
  intros [Hzero|[z Hz]]; discriminate.
Defined.

(** ** The type of an instagram media item *)

Lemma media_document_type `{PyRuntime} (media doc : value) :
  instagram_parser.create_media_document media = Some doc →
  ∃ t video_data,
    instagram_parser.determine_media_type media = Ok t ∧
    field doc "media_type" = Some (VStr t) ∧
    field doc "is_video"
    = Some (VBool (existsb (String.eqb t) ["clips"; "video"; "reel"])) ∧
    field doc "video_data" = Some video_data ∧
    (existsb (String.eqb t) ["clips"; "video"; "reel"] = false →
     video_data = VDict []).
Proof.
  intros Hd%try_or_none_Some.
  unfold instagram_parser.media_document in Hd. split_binds Hd.
  injection Hd as <-. eexists _, _.
  repeat split; try eassumption; try reflexivity.
  intros Hno.
  match goal with
  | Hv : (if ?b then _ else _) = Ok ?v |- ?v = _ =>
      rewrite Hno in Hv; by injection Hv as <-
  end.
Qed.

(** X15: instagram gives a media item one of four types, [video], [image],
    [carousel] or [clips], and never [reel], although the builder asks for
    it; the document counts the item as a video exactly when its type is
    [video] or [clips], and an item that is no video has empty video
    data. *)
Theorem X15_media_type_is_one_of_four `{PyRuntime} (media : value) :
  (∀ t, instagram_parser.determine_media_type media = Ok t →
        t ∈ media_types) ∧
  (∀ doc,
     instagram_parser.create_media_document media = Some doc →
     ∃ t, t ∈ media_types ∧
          field doc "media_type" = Some (VStr t) ∧
          field doc "is_video" = Some (VBool (bool_decide (t ∈ video_types))) ∧
          (t ∉ video_types → field doc "video_data" = Some (VDict []))).
Proof.
  assert (Htypes : ∀ t, instagram_parser.determine_media_type media = Ok t →
                        t ∈ media_types).
  { intros t Hd. unfold instagram_parser.determine_media_type in Hd.
    repeat first
      [ progress split_binds Hd
      | match type of Hd with
        | (if ?b then _ else _) = _ => destruct b
        | Ok _ = Ok _ => injection Hd as <-
        end ];
      apply list_elem_of_In; simpl; tauto. }
  split; [exact Htypes|].
  intros doc (t & video_data & Ht & Htype & Hvideo & Hdata & Hempty)
    %media_document_type.
  exists t. pose proof (Htypes t Ht) as Hin.
  split; [exact Hin|]. split; [exact Htype|].
  unfold media_types in Hin.
  repeat (apply elem_of_cons in Hin as [->|Hin];
          [split; [exact Hvideo|];
           intros Hno; rewrite Hdata;
           first [ by rewrite Hempty
                 | exfalso; apply Hno; apply list_elem_of_In; simpl; tauto ]|]).
  by apply elem_of_nil in Hin.
Qed.
(** ** The endpoints *)

Section Endpoints.
Context `{PyRuntime} `{Services}.
Import main.

Lemma tag_document_flat (platform source_socmed : string) (doc : value) :
  flat platform doc → tag_document source_socmed doc = Raise KeyError.
Proof.
  intros (kvs & -> & _ & Hlacks & _).
  unfold lacks_fields, envelope_keys in Hlacks.
  assert (assoc "_source" kvs = None) as Hsource.
  { eapply Forall_forall in Hlacks; [exact Hlacks|].
    apply list_elem_of_In. simpl. tauto. }
  unfold tag_document. simpl. by rewrite Hsource.
Qed.

Lemma tag_documents_flat (platform source_socmed : string)
  (documents : list value) :
  Forall (flat platform) documents →
  tag_documents source_socmed documents
  = match documents with [] => Ok [] | _ :: _ => Raise KeyError end.
Proof.
  intros Hflat. destruct Hflat as [|doc documents Hdoc _]; [done|].
  unfold tag_documents. simpl.
  by rewrite (tag_document_flat _ _ _ Hdoc).
Qed.

Lemma facebook_documents_flat (data : value) :
  Forall (flat "facebook") (facebook_parser.parse_facebook_json data).
Proof.
  apply Forall_forall. intros doc Hin.
  unfold facebook_parser.parse_facebook_json in Hin.
  apply elem_of_documents in Hin as (post & _ & Hd).
  apply post_document_inv in Hd as (kvs & Hrest). open_conj Hrest.
  assumption.
Qed.

Lemma get_facebook_page_get_cases (keyword : string) :
  get_facebook_page_get keyword
  = match facebook_search_posts keyword with
    | Ok result =>
        match facebook_parser.parse_facebook_json result with
        | [] => search_response "Facebook search results retrieved and parsed"
                  result []
        | _ :: _ => HTTPException 500
        end
    | Raise _ => HTTPException 500
    end.
Proof.
  unfold get_facebook_page_get, await_in_executor.
  destruct (facebook_search_posts keyword) as [result|e]; [|done].
  simpl. rewrite (tag_documents_flat "facebook")
    by apply facebook_documents_flat.
  by destruct (facebook_parser.parse_facebook_json result).
Qed.

Lemma get_parsed_data_cases (platform keyword : string) :
  get_parsed_data platform keyword
  = if String.eqb (lower platform) "facebook" then
      match facebook_search_posts keyword with
      | Ok result =>
          match facebook_parser.parse_facebook_json result with
          | [] =>
              APIResponse "success"
                "Facebook search results parsed successfully"
                (VDict [("platform", VStr "facebook");
                        ("source_socmed", VStr "facebook");
                        ("documents", VList []);
                        ("total_documents", VInt 0);
                        ("search_keyword", VStr keyword)])
          | _ :: _ => HTTPException 500
          end
      | Raise _ => HTTPException 500
      end
    else HTTPException 500.
Proof.
  unfold get_parsed_data, await_in_executor, await_plain.
  destruct (String.eqb (lower platform) "facebook") eqn:Efb.
  - apply String.eqb_eq in Efb. rewrite Efb.
    destruct (facebook_search_posts keyword) as [result|e]; [|done].
    simpl. rewrite (tag_documents_flat "facebook")
      by apply facebook_documents_flat.
    by destruct (facebook_parser.parse_facebook_json result).
  - destruct (String.eqb (lower platform) "instagram");
      [by destruct (instagram_search keyword)|].
    destruct (String.eqb (lower platform) "twitter");
      [by destruct (twitter_search keyword)|].
    destruct (String.eqb (lower platform) "youtube");
      [by destruct (youtube_search keyword)|].
    destruct (String.eqb (lower platform) "tiktok");
      [by destruct (tiktok_search_general keyword)|].
    reflexivity.
Qed.

End Endpoints.

(** X16: the search endpoints never deliver a parsed document.  The
    handlers of instagram, twitter, youtube and tiktok await what a plain
    function returned, which raises, so they always end with status 500,
    whatever their service answers.  The handler of facebook, the one that
    awaits properly, writes [source_socmed] under [_source], which the flat
    documents of facebook do not have: it ends with status 500 as soon as
    its parser returns a document, and succeeds only with no document at
    all. *)
Theorem X16_search_endpoints_deliver_no_document `{PyRuntime} `{Services}
  (keyword : string) :
  main.get_instagram_user_get keyword = main.HTTPException 500 ∧
  main.get_twitter_trending_get keyword = main.HTTPException 500 ∧
  main.get_youtube_video_get keyword = main.HTTPException 500 ∧
  main.get_tiktok_trending keyword = main.HTTPException 500 ∧
  (∀ result doc,
     facebook_search_posts keyword = Ok result →
     doc ∈ facebook_parser.parse_facebook_json result →
     main.get_facebook_page_get keyword = main.HTTPException 500) ∧
  (∀ status message data,
     main.get_facebook_page_get keyword
     = main.APIResponse status message data →
     ∃ result,
       facebook_search_posts keyword = Ok result ∧
       facebook_parser.parse_facebook_json result = [] ∧
       data = VDict [("raw_data", result); ("parsed_documents", VList []);
                     ("total_documents", VInt 0)]).
Proof.
  repeat split.
  - unfold main.get_instagram_user_get, main.await_plain.
    by destruct (instagram_search keyword).
  - unfold main.get_twitter_trending_get, main.await_plain.
    by destruct (twitter_search keyword).
  - unfold main.get_youtube_video_get, main.await_plain.
    by destruct (youtube_search keyword).
  - unfold main.get_tiktok_trending, main.await_plain.
    by destruct (tiktok_search_general keyword).
  - intros result doc Hresult Hdoc.
    rewrite get_facebook_page_get_cases, Hresult.
    destruct (facebook_parser.parse_facebook_json result); [|done].
    by apply elem_of_nil in Hdoc.
  - intros status message data. rewrite get_facebook_page_get_cases.
    destruct (facebook_search_posts keyword) as [result|e]; [|discriminate].
    destruct (facebook_parser.parse_facebook_json result) eqn:Hparse;
      [|discriminate].
    intros [= <- <- <-]. by exists result.
Qed.

(** X17: the endpoint for parsed data never delivers a parsed document
    either.  For every platform but facebook it ends with status 500: the
    four known ones fail on awaiting their service, and for an unknown
    platform the status 400 it raises is caught by its own handler and
    turned into 500.  For facebook it ends with status 500 as soon as the
    parser returns a document and succeeds only with an empty list. *)
Theorem X17_parsed_endpoint_delivers_no_document `{PyRuntime} `{Services}
  (platform keyword : string) :
  (lower platform ≠ "facebook" →
   main.get_parsed_data platform keyword = main.HTTPException 500) ∧
  main.get_parsed_data platform keyword ≠ main.HTTPException 400 ∧
  (∀ result doc,
     lower platform = "facebook" →
     facebook_search_posts keyword = Ok result →
     doc ∈ facebook_parser.parse_facebook_json result →
     main.get_parsed_data platform keyword = main.HTTPException 500) ∧
  (∀ status message data,
     main.get_parsed_data platform keyword
     = main.APIResponse status message data →
     lower platform = "facebook" ∧
     get data "documents" VNone = Ok (VList []) ∧
     get data "total_documents" VNone = Ok (VInt 0)).
Proof.
  rewrite get_parsed_data_cases.
  destruct (String.eqb (lower platform) "facebook") eqn:Efb.
  - apply String.eqb_eq in Efb.
    split; [done|].
    destruct (facebook_search_posts keyword) as [result|e];
      [destruct (facebook_parser.parse_facebook_json result)
         as [|d ds] eqn:Hparse|].
    + split; [discriminate|]. split.
      * intros result' doc _ [= <-] Hin. rewrite Hparse in Hin.
        by apply elem_of_nil in Hin.
      * by intros status message data [= <- <- <-].
    + split; [discriminate|]. split; [done|].
      intros status message data Heq. discriminate Heq.
    + split; [discriminate|]. split; [done|].
      intros status message data Heq. discriminate Heq.
  - apply String.eqb_neq in Efb.
    split; [done|]. split; [discriminate|]. split; [done|].
    intros status message data Heq. discriminate Heq.
Qed.
(** ** Sentiment: labels and missing text *)

Lemma polarity_label (positive_count negative_count : Z) :
  polarity positive_count negative_count ∈ sentiment_labels.
Proof.
  unfold polarity, sentiment_labels.
  destruct (negative_count <? positive_count);
    [|destruct (positive_count <? negative_count)];
    apply list_elem_of_In; simpl; tauto.
Qed.

Lemma lower_of_not_text (text : value) :
  (∀ s, text ≠ VStr s) → lower_of text = Raise AttributeError.
Proof. destruct text; try done. intros Hs. by destruct (Hs s). Qed.

Lemma tweet_document_text `{PyRuntime} (tweet doc : value) :
  twitter_parser.create_tweet_document tweet = Some doc →
  ∃ legacy full_text note_tweet is_expandable sentiment,
    get tweet "legacy" (VDict []) = Ok legacy ∧
    get legacy "full_text" (VStr "") = Ok full_text ∧
    get tweet "note_tweet" (VDict []) = Ok note_tweet ∧
    get_none note_tweet "is_expandable" = Ok is_expandable ∧
    (truthy is_expandable = false →
     twitter_parser.analyze_sentiment full_text = Ok sentiment).
Proof.
  unfold twitter_parser.create_tweet_document, try_except.
  destruct (twitter_parser.tweet_document tweet) as [r|] eqn:Hd;
    [|discriminate].
  intros ->. unfold twitter_parser.tweet_document in Hd. split_binds Hd.
  eexists _, _, _, _, _. repeat split; try eassumption.
  intros Hno.
  match goal with
  | Hf : (if truthy ?e then _ else Ok ?t) = Ok ?full,
    Hs : twitter_parser.analyze_sentiment ?full = Ok _ |- _ =>
      rewrite Hno in Hf; injection Hf as ->; exact Hs
  end.
Qed.

(** X18: the sentiment of a text is [positive], [negative] or [neutral] in
    every parser.  A text that is missing or empty is [neutral] for
    facebook, youtube, tiktok and instagram; twitter, which does not test
    the text first, raises on [None], and so a tweet whose text is [None]
    gives no document.  A text that is there but is no string makes every
    analyser raise. *)
Theorem X18_sentiment_labels_and_missing_text (text : value) :
  (∀ analyze s, analyze ∈ sentiment_analysers → analyze text = Ok s →
                s ∈ sentiment_labels) ∧
  (∀ analyze, analyze ∈ guarded_sentiment_analysers → truthy text = false →
              analyze text = Ok "neutral") ∧
  (∀ analyze, analyze ∈ sentiment_analysers → truthy text = true →
              (∀ s, text ≠ VStr s) → analyze text = Raise AttributeError) ∧
  twitter_parser.analyze_sentiment VNone = Raise AttributeError ∧
  (∀ (rt : PyRuntime) tweet legacy,
     get tweet "legacy" (VDict []) = Ok legacy →
     get legacy "full_text" (VStr "") = Ok VNone →
     get tweet "note_tweet" (VDict []) = Ok (VDict []) →
     twitter_parser.create_tweet_document tweet = None).
Proof.
  split; [|split; [|split; [|split]]].
  - unfold sentiment_analysers. intros analyze s Hin Hs.
    repeat (apply elem_of_cons in Hin as [->|Hin];
            [cbv beta delta [twitter_parser.analyze_sentiment
               facebook_parser.analyze_sentiment
               youtube_parser.analyze_sentiment
               tiktok_parser.analyze_sentiment
               instagram_parser.analyze_sentiment] in Hs;
             try (destruct (truthy text); simpl in Hs;
                  [|injection Hs as <-; apply list_elem_of_In; simpl; tauto]);
             split_binds Hs; injection Hs as <-; apply polarity_label|]).
    by apply elem_of_nil in Hin.
  - unfold guarded_sentiment_analysers. intros analyze Hin Hfalse.
    repeat (apply elem_of_cons in Hin as [->|Hin];
            [cbv beta delta [facebook_parser.analyze_sentiment
               youtube_parser.analyze_sentiment
               tiktok_parser.analyze_sentiment
               instagram_parser.analyze_sentiment];
             by rewrite Hfalse|]).
    by apply elem_of_nil in Hin.
  - unfold sentiment_analysers. intros analyze Hin Htrue Hno.
    repeat (apply elem_of_cons in Hin as [->|Hin];
            [cbv beta delta [twitter_parser.analyze_sentiment
               facebook_parser.analyze_sentiment
               youtube_parser.analyze_sentiment
               tiktok_parser.analyze_sentiment
               instagram_parser.analyze_sentiment];
             by rewrite ?Htrue, (lower_of_not_text _ Hno)|]).
    by apply elem_of_nil in Hin.
  - reflexivity.
  - intros rt tweet legacy Hlegacy Htext Hnote.
    destruct (twitter_parser.create_tweet_document tweet) as [doc|] eqn:Hd;
      [|done].
    apply tweet_document_text in Hd
      as (legacy' & full_text & note_tweet & is_expandable & sentiment
          & Hl & Hf & Hn & He & Hs).
    rewrite Hlegacy in Hl. injection Hl as <-.
    rewrite Htext in Hf. injection Hf as <-.
    rewrite Hnote in Hn. injection Hn as <-.
    injection He as <-. by specialize (Hs eq_refl).
Qed.

Lemma X18_witness :
  twitter_parser.create_tweet_document (H := Samples.runtime)
    tweet_without_text = None.
Proof.
  exact (proj2 (proj2 (proj2 (proj2 (X18_sentiment_labels_and_missing_text
                                       VNone))))
           Samples.runtime tweet_without_text _ eq_refl eq_refl eq_refl).
Defined.
(** ** Links of a facebook post *)

Lemma substring_all (s : string) :
  String.substring 0 (String.length s) s = s.
Proof. induction s as [|c r IH]; [done|]. simpl. by rewrite IH. Qed.

Lemma substring_after (p r : string) :
  String.substring (String.length p)
    (String.length (p +:+ r) - String.length p) (p +:+ r) = r.
Proof.
  induction p as [|c p IH].
  - rewrite append_empty. simpl. rewrite Nat.sub_0_r. apply substring_all.
  - rewrite append_String. simpl. apply IH.
Qed.

Lemma drop_prefix_inv (p s r : string) :
  Re.drop_prefix p s = Some r → s = p +:+ r.
Proof.
  unfold Re.drop_prefix.
  destruct (String.prefix p s) eqn:Hp; [|discriminate].
  apply prefix_inv in Hp as [r' ->]. rewrite substring_after.
  by intros [= ->].
Qed.

Lemma run_url_text (s : string) : url_text (Re.run Re.is_url_char s) = true.
Proof.
  induction s as [|c r IH]; [done|]. simpl.
  destruct (Re.is_url_char c) eqn:E; [|done]. simpl. by rewrite E.
Qed.

Lemma url_inv (b tok : string) (n : nat) :
  Re.url b = Some (tok, n) →
  ∃ scheme body after,
    scheme ∈ ["https://"; "http://"] ∧ body ≠ "" ∧ url_text body = true ∧
    tok = scheme +:+ body ∧ b = tok +:+ after ∧
    match after with "" => True | String c _ => Re.is_url_char c = false end.
Proof.
  assert (Hafter : ∀ scheme r,
    Re.drop_prefix scheme b = Some r →
    match Re.run Re.is_url_char r with
    | "" => None
    | w => Some (scheme +:+ w, (String.length scheme + String.length w)%nat)
    end = Some (tok, n) →
    ∃ body after,
      body ≠ "" ∧ url_text body = true ∧
      tok = scheme +:+ body ∧ b = tok +:+ after ∧
      match after with "" => True | String c _ => Re.is_url_char c = false end).
  { intros scheme r ->%drop_prefix_inv Hm.
    destruct (run_split Re.is_url_char r) as (after & Hr & Hb).
    pose proof (run_url_text r) as Hu.
    destruct (Re.run Re.is_url_char r) as [|c w] eqn:Er; [discriminate|].
    injection Hm as <- _.
    exists (String c w), after.
    split; [done|]. split; [done|]. split; [done|].
    split; [|done]. by rewrite append_assoc, <- Hr. }
  unfold Re.url.
  destruct (Re.drop_prefix "https://" b) as [r|] eqn:Hs.
  - destruct (Re.run Re.is_url_char r) as [|c w] eqn:Er.
    + destruct (Re.drop_prefix "http://" b) as [r'|] eqn:Hp; [|discriminate].
      intros Hm. destruct (Hafter "http://" r' Hp Hm) as (body & after & Hrest).
      exists "http://", body, after.
      split; [apply list_elem_of_further, list_elem_of_here|exact Hrest].
    + intros Hm.
      destruct (Hafter "https://" r Hs) as (body & after & Hrest).
      { by rewrite Er. }
      exists "https://", body, after.
      split; [apply list_elem_of_here|exact Hrest].
  - destruct (Re.drop_prefix "http://" b) as [r'|] eqn:Hp; [|discriminate].
    intros Hm. destruct (Hafter "http://" r' Hp Hm) as (body & after & Hrest).
    exists "http://", body, after.
    split; [apply list_elem_of_further, list_elem_of_here|exact Hrest].
Qed.

Lemma findall_url_sound (message url : string) :
  url ∈ Re.findall Re.url message → url_in message url.
Proof.
  intros (before & b & n & -> & Hp)%findall_from_elem.
  apply url_inv in Hp
    as (scheme & body & after & Hs & Hne & Hu & -> & -> & Hafter).
  by exists scheme, body, before, after.
Qed.

(** X19: the links of a facebook post are, in this order, its
    [external_url] and its [attached_post_url], each when it counts as
    true and as it is, and then the addresses written in the message: each
    begins with [http://] or [https://], goes on with one or more URL
    characters up to the first character that is none, and stands in the
    message. *)
Theorem X19_links_of_a_post (post : value) (urls : list value)
  (Hurls : facebook_parser.extract_external_urls post = Ok (VList urls)) :
  ∃ external_url attached_post_url message found,
    get_none post "external_url" = Ok external_url ∧
    get_none post "attached_post_url" = Ok attached_post_url ∧
    get post "message" (VStr "") = Ok message ∧
    urls = if_truthy external_url ++ if_truthy attached_post_url
           ++ map VStr found ∧
    (truthy message = false → found = []) ∧
    ∀ url, url ∈ found → ∃ text, message = VStr text ∧ url_in text url.
Proof.
  unfold facebook_parser.extract_external_urls in Hurls. split_binds Hurls.
  match goal with
  | He : get_none post "external_url" = Ok ?e,
    Ha : get_none post "attached_post_url" = Ok ?a,
    Hm : get post "message" (VStr "") = Ok ?m |- _ =>
      rename e into external_url; rename a into attached_post_url;
      rename m into message
  end.
  assert (Hfields :
    (if truthy attached_post_url
     then (if truthy external_url then [external_url] else [])
          ++ [attached_post_url]
     else if truthy external_url then [external_url] else [])
    = if_truthy external_url ++ if_truthy attached_post_url).
  { unfold if_truthy. destruct (truthy attached_post_url); [done|].
    by rewrite app_nil_r. }
  rewrite Hfields in Hurls.
  destruct (truthy message) eqn:Hmessage.
  - apply bind_Ok in Hurls as (found & Hfound & [= <-]).
    exists external_url, attached_post_url, message, found.
    rewrite <- app_assoc.
    do 4 (split; [done|]). split; [intros Hf; congruence|].
    intros url Hin. destruct message as [| | | |text| |]; try discriminate.
    injection Hfound as <-. exists text. split; [done|].
    by apply findall_url_sound.
  - injection Hurls as <-.
    exists external_url, attached_post_url, message, [].
    rewrite app_nil_r. do 5 (split; [done|]).
    intros url Hin. by apply elem_of_nil in Hin.
Qed.

Lemma X19_witness :
  facebook_parser.extract_external_urls post_with_links
  = Ok (VList [VStr "ftp://files.example/a";
               VStr "https://example.org/a?b=1"; VStr "http://x.y!"]) ∧
  url_in "see https://example.org/a?b=1 and http://x.y!"
    "https://example.org/a?b=1".
Proof.
  split; [reflexivity|].
  destruct (X19_links_of_a_post post_with_links _ eq_refl)
    as (external_url & attached_post_url & message & found
        & He & Ha & Hm & Hurls & _ & Hin).
  injection He as <-. injection Ha as <-. injection Hm as <-.
  assert (found = ["https://example.org/a?b=1"; "http://x.y!"]) as ->.
  { unfold if_truthy in Hurls. simpl in Hurls. injection Hurls as Hf.
    destruct found as [|u1 [|u2 [|u3 found]]]; try discriminate Hf.
    by injection Hf as <- <-. }
  destruct (Hin "https://example.org/a?b=1") as (text & [= <-] & Hurl).
  - apply list_elem_of_here.
  - exact Hurl.
Defined.
(** ** The avatar of a channel *)

Lemma elem_of_insert_desc {K} (lt : K → K → bool) (x y : K * value)
  (l : list (K * value)) :
  y ∈ insert_desc lt x l ↔ y = x ∨ y ∈ l.
Proof.
  induction l as [|z l IH]; simpl.
  - rewrite list_elem_of_singleton, elem_of_nil. tauto.
  - destruct (lt x.1 z.1).
    + rewrite !elem_of_cons, IH. tauto.
    + rewrite !elem_of_cons. tauto.
Qed.

Lemma elem_of_sort_desc {K} (lt : K → K → bool) (y : K * value)
  (l : list (K * value)) :
  y ∈ sort_desc lt l ↔ y ∈ l.
Proof.
  unfold sort_desc. induction l as [|x l IH]; simpl; [done|].
  rewrite elem_of_insert_desc, elem_of_cons, IH. tauto.
Qed.

Lemma num_ltb_false (a b : num) :
  num_ltb a b = false ↔ Qle (num_Q b) (num_Q a).
Proof.
  unfold num_ltb. rewrite negb_false_iff. apply Qle_bool_iff.
Qed.

Lemma num_ltb_true (a b : num) :
  num_ltb a b = true → Qle (num_Q a) (num_Q b).
Proof.
  unfold num_ltb. rewrite negb_true_iff. intros Hle.
  destruct (Qlt_le_dec (num_Q a) (num_Q b)) as [Hlt|Hge].
  - by apply Qlt_le_weak.
  - apply Qle_bool_iff in Hge. congruence.
Qed.

(** The sort puts an item of greatest key first. *)
Lemma sort_desc_head (l : list (num * value)) :
  l ≠ [] →
  ∃ best rest,
    sort_desc num_ltb l = best :: rest ∧
    ∀ y, y ∈ l → Qle (num_Q y.1) (num_Q best.1).
Proof.
  unfold sort_desc. induction l as [|x l IH]; [done|]. intros _. simpl.
  destruct l as [|x' l'].
  - exists x, []. split; [done|]. intros y ->%list_elem_of_singleton.
    apply Qle_refl.
  - destruct IH as (best & rest & -> & Hmax); [done|]. simpl.
    destruct (num_ltb x.1 best.1) eqn:Hlt.
    + eexists _, _. split; [done|].
      intros y [->|Hy]%elem_of_cons; [by apply num_ltb_true|by apply Hmax].
    + eexists _, _. split; [done|].
      apply num_ltb_false in Hlt.
      intros y [->|Hy]%elem_of_cons; [apply Qle_refl|].
      eapply Qle_trans; [by apply Hmax|done].
Qed.

Lemma keys_of_avatars (avatars : list value) :
  Forall (λ a, is_Some (height a)) avatars →
  ∃ ks nks,
    mapM (λ x, key ← get x "height" (VInt 0); Ok (key, x)) avatars = Ok ks ∧
    length ks = length avatars ∧
    all_some (map (λ p : value * value, (num_of p.1, p.2)) ks) = Some nks ∧
    ∀ p, p ∈ nks ↔ ∃ a, a ∈ avatars ∧ height a = Some p.1 ∧ p.2 = a.
Proof.
  induction 1 as [|a avatars [h Ha] _ (ks & nks & Hks & Hlen & Hnks & Hin)].
  - exists [], []. repeat split; try done.
    + intros Hp. by apply elem_of_nil in Hp.
    + intros (a & Ha & _). by apply elem_of_nil in Ha.
  - unfold height in Ha.
    destruct (get a "height" (VInt 0)) as [key|] eqn:Hkey; [|done].
    exists ((key, a) :: ks), ((h, a) :: nks).
    split; [simpl; by rewrite Hkey, Hks|].
    split; [simpl; by rewrite Hlen|].
    split; [simpl; by rewrite Ha, Hnks|].
    intros p. rewrite elem_of_cons, Hin. split.
    + intros [->|(a' & Ha' & Hrest)].
      * exists a. split; [by left|]. unfold height. by rewrite Hkey.
      * exists a'. split; [by right|done].
    + intros (a' & [->|Ha']%elem_of_cons & Hh & Hp).
      * left. unfold height in Hh. rewrite Hkey, Ha in Hh.
        injection Hh as Hh. destruct p. simpl in *. by subst.
      * right. by exists a'.
Qed.

(** X20: of a channel's avatars, each with a number as height (none counts
    as zero), the youtube parser takes the address of a tallest one; with no
    avatar the address is empty. *)
Theorem X20_avatar_is_a_tallest_one `{PyRuntime} (avatars : list value)
  (Hheights : Forall (λ a, is_Some (height a)) avatars) :
  match avatars with
  | [] => youtube_parser.get_avatar_url (VList avatars) = Ok (VStr "")
  | _ :: _ =>
      ∃ best,
        tallest avatars best ∧
        youtube_parser.get_avatar_url (VList avatars)
        = get best "url" (VStr "")
  end.
Proof.
  destruct avatars as [|a1 avatars]; [reflexivity|].
  destruct (keys_of_avatars _ Hheights)
    as (ks & nks & Hks & Hlen & Hnks & Hin).
  unfold youtube_parser.get_avatar_url, sorted_by_get_reverse.
  cbn [truthy negb iter]. unfold mbind, result_bind, Py.bind.
  cbv beta iota. fold (@mbind result _).
  change (mapM _ (a1 :: avatars)) with
    (mapM (λ x, key ← get x "height" (VInt 0); Ok (key, x)) (a1 :: avatars)).
  rewrite Hks.
  destruct ks as [|k1 [|k2 ks]]; [done| |]; cbv beta iota.
  - destruct avatars; [|done]. exists a1. split; [|done].
    split; [by left|].
    apply Forall_cons in Hheights as [[h Hh] _]. exists h. split; [done|].
    intros a ha ->%list_elem_of_singleton Ha.
    rewrite Hh in Ha. injection Ha as <-. apply Qle_refl.
  - rewrite Hnks.
    destruct (sort_desc_head nks) as (best & rest & Hsort & Hmax).
    { intros ->. apply Forall_cons in Hheights as [[h Hh] _].
      assert ((h, a1) ∈ @nil (num * value)) as Hnil.
      { apply Hin. exists a1. split; [by left|done]. }
      by apply elem_of_nil in Hnil. }
    rewrite Hsort. simpl. exists best.2. split; [|done].
    assert (best ∈ nks) as Hbest.
    { apply (elem_of_sort_desc num_ltb). rewrite Hsort. by left. }
    apply Hin in Hbest as (b & Hb & Hh & Hbb). rewrite Hbb.
    split; [done|]. exists best.1. split; [done|].
    intros a ha Ha Hha.
    apply (Hmax (ha, a)). apply Hin. by exists a.
Qed.

Lemma X20_witness :
  ∃ best,
    tallest avatars_of_two_sizes best ∧
    youtube_parser.get_avatar_url (H := Samples.runtime)
      (VList avatars_of_two_sizes) = get best "url" (VStr "") ∧
    youtube_parser.get_avatar_url (H := Samples.runtime)
      (VList avatars_of_two_sizes) = Ok (VStr "large.png").
Proof.
  destruct (X20_avatar_is_a_tallest_one (H := Samples.runtime)
              avatars_of_two_sizes) as (best & Hbest & Hurl).
  - repeat constructor; by eexists.
  - exists best. split; [exact Hbest|]. split; [exact Hurl|reflexivity].
Defined.
(** ** The engagement rate of a tiktok video *)



(** ** The properties at work on the samples *)

Lemma X2_witness :
  facebook_parser.analyze_sentiment (VStr "i love it")
  = facebook_parser.analyze_sentiment (VStr "I LOVE it").
Proof.
  refine (proj1 (X2_analysis_ignores_case "I LOVE it")
            facebook_parser.analyze_sentiment _).
  unfold sentiment_analysers. apply list_elem_of_further, list_elem_of_here.
Defined.

Lemma X3_witness :
  ∃ emotions,
    twitter_parser.detect_emotions (VStr "So happy, wow")
    = Ok (strings emotions) ∧
    sublist emotions (keys twitter_parser.emotion_keywords) ∧
    NoDup emotions.
Proof.
  destruct (proj1 X3_emotions_are_labels_of_the_table
              twitter_parser.detect_emotions twitter_parser.emotion_keywords
              (VStr "So happy, wow") (strings ["joy"; "surprise"]))
    as (emotions & Hv & Hsub & Hnd).
  - unfold emotion_detectors. apply list_elem_of_here.
  - reflexivity.
  - exists emotions. split; [by rewrite <- Hv|]. by split.
Defined.

Lemma X4_witness :
  ∃ emotions emotions',
    twitter_parser.detect_emotions (VStr "happy") = Ok (strings emotions) ∧
    twitter_parser.detect_emotions (VStr "We are happy, wow")
    = Ok (strings emotions') ∧
    ∀ e, e ∈ emotions → e ∈ emotions'.
Proof.
  refine (proj1 (X4_longer_text_keeps_emotions "We are " "happy" ", wow")
            twitter_parser.detect_emotions twitter_parser.emotion_keywords _).
  unfold emotion_detectors. apply list_elem_of_here.
Defined.

Lemma X10_witness :
  parse_all.parse_file (H := Samples.runtime) (H0 := Samples.no_files)
    "exports/notes.json" None = Raise ValueError.
Proof.
  refine (proj1 (X10_unknown_platform_is_refused (H := Samples.runtime)
                   (H0 := Samples.no_files) "exports/notes.json" "" VNone) _).
  repeat constructor.
Defined.

Lemma X12_witness :
  youtube_parser.determine_category (H := Samples.runtime)
    (VStr "Football game highlights") (VStr "")
    ∈ ["music"; "gaming"].
Proof.
  refine (proj1 (proj2 (proj2 (X12_category_is_the_first_bucket_that_hits
                                 (H := Samples.runtime)
                                 (VStr "Football game highlights") (VStr ""))))
            _).
  left. reflexivity.
Defined.

Lemma X15_witness :
  ∃ doc t,
    instagram_parser.create_media_document (H := Samples.runtime)
      Samples.instagram_media = Some doc ∧
    t ∈ media_types ∧ field doc "media_type" = Some (VStr t).
Proof.
  destruct (instagram_parser.create_media_document (H := Samples.runtime)
              Samples.instagram_media) as [doc|] eqn:Hdoc;
    [|vm_compute in Hdoc; discriminate Hdoc].
  destruct (proj2 (X15_media_type_is_one_of_four (H := Samples.runtime)
                     Samples.instagram_media) doc Hdoc)
    as (t & Hin & Htype & _).
  exact (ex_intro _ doc (ex_intro _ t (conj eq_refl (conj Hin Htype)))).
Defined.

Lemma X16_witness :
  main.get_facebook_page_get (H := Samples.runtime) (H0 := sample_services)
    "team" = main.HTTPException 500.
Proof.
  destruct (facebook_parser.parse_facebook_json (H := Samples.runtime)
              Samples.facebook_data) as [|doc docs] eqn:Hparse;
    [vm_compute in Hparse; discriminate Hparse|].
  refine (proj1 (proj2 (proj2 (proj2 (proj2
            (X16_search_endpoints_deliver_no_document (H := Samples.runtime)
               (H0 := sample_services) "team")))))
            Samples.facebook_data doc eq_refl _).
  rewrite Hparse. apply list_elem_of_here.
Defined.

Lemma X17_witness :
  main.get_parsed_data (H := Samples.runtime) (H0 := sample_services)
    "MySpace" "team" = main.HTTPException 500.
Proof.
  refine (proj1 (X17_parsed_endpoint_delivers_no_document
                   (H := Samples.runtime) (H0 := sample_services)
                   "MySpace" "team") _).
  discriminate.
Defined.

